(** * Student feedback platform: the backend's feedback lifecycle, guarded
      admin operations and statistics, embedded from the Express/Mongoose
      sources.

    Sources embedded here:
    - the Feedback model (schema and validators, unique index, pre-save
      hook, statics [getCourseStatistics] and [getOverallStatistics]),
    - the Course model (schema and validators, [getStatistics]),
    - the User model (schema and validators of the loaded paths, the age
      virtual),
    - routes/feedback.js (POST, PUT, DELETE, GET course stats),
    - routes/courses.js (GET one, POST, PUT, DELETE, PATCH toggle-active),
    - routes/admin.js (the dashboard's counts, top courses and monthly
      trends, PATCH toggle-block, DELETE student) and GET /api/users/stats.

    Conventions of the embedding:
    - a MongoDB collection is the list of its documents in insertion order;
      an [ObjectId] is a number; the database is a record of three collections
      and every handler maps a database to a response and a database;
    - a JS number that holds an average is an IEEE binary64 float (Rocq's
      primitive floats), integers (ratings, counts, timestamps) are [Z]/[nat];
    - a JS object used as a map (the rating distribution) is a [gmap];
    - strings are ASCII strings; [trim] and [toLowerCase] act on ASCII;
    - a document carries the paths of its schema that have a validator or
      that a modelled route reads or assigns; [document.save()] runs the
      validators of every loaded path and then the pre-save hooks, and sets
      [updatedAt] when a path was modified. Courses and users carry
      [updatedAt]; the feedback record leaves it out, so what is said of a
      saved feedback record is said of its other paths;
    - the handling of a request reads the clock once: [now] is the value of
      every [new Date()] of that request;
    - the authenticated principal ([req.user.id], set by the [protect]
      middleware) is an argument of each handler. *)

From Stdlib Require Import ZArith NArith List String Ascii Bool Lia Permutation.
From Stdlib Require Import Floats.PrimFloat Floats.FloatOps Floats.SpecFloat.
From Stdlib Require Import Sorted.
From stdpp Require Import gmap strings pretty.
Import ListNotations.

Open Scope Z_scope.

(* ===================================================================== *)
(** ** JS numbers and strings *)
(* ===================================================================== *)

(** The binary64 value of an integer (round to nearest even when the integer
    has more than 53 significant bits). *)
Definition Z2float (z : Z) : float :=
  SF2Prim (binary_normalize prec emax z 0 false).

(** [Math.round(x)]: the integer closest to [x], a tie going towards
    +infinity; zeros, infinities and NaN are returned as they are, and a
    negative [x] that rounds to zero gives -0. A finite float is
    [(-1)^s * m * 2^e]; with [e < 0] the result is [floor (x + 1/2)],
    computed exactly on integers. *)
Definition Math_round (x : float) : float :=
  match Prim2SF x with
  | S754_finite s m e =>
      if 0 <=? e then x
      else
        let k := - e in
        let sm := if s then Z.neg m else Z.pos m in
        let n := (2 * sm + 2 ^ k) / 2 ^ (k + 1) in
        if (n =? 0) && s then neg_zero else Z2float n
  | _ => x
  end.

(** [Math.round(x * 100) / 100], the rounding to two decimals the models use. *)
Definition round2 (x : float) : float :=
  (Math_round (x * Z2float 100) / Z2float 100)%float.

(** MongoDB's [$avg] over integer values: the sum divided by the count, in
    binary64. (It is only evaluated on a non-empty group.) *)
Definition sum_ratings (rs : list Z) : Z := fold_left Z.add rs 0.

Definition mongo_avg (rs : list Z) : float :=
  (Z2float (sum_ratings rs) / Z2float (Z.of_nat (length rs)))%float.

(** JS whitespace, restricted to ASCII: tab, LF, VT, FF, CR, space. *)
Definition is_whitespace (a : ascii) : bool :=
  let n := nat_of_ascii a in
  ((9 <=? n)%nat && (n <=? 13)%nat) || (n =? 32)%nat.

Fixpoint trimStart (s : string) : string :=
  match s with
  | EmptyString => EmptyString
  | String a s' => if is_whitespace a then trimStart s' else s
  end.

Definition trim (s : string) : string :=
  String.rev (trimStart (String.rev (trimStart s))).

Definition lower_ascii (a : ascii) : ascii :=
  let n := nat_of_ascii a in
  if ((65 <=? n)%nat && (n <=? 90)%nat) then ascii_of_nat (n + 32) else a.

Fixpoint toLowerCase (s : string) : string :=
  match s with
  | EmptyString => EmptyString
  | String a s' => String (lower_ascii a) (toLowerCase s')
  end.

(** [arr.includes(x)] on an array of strings. *)
Definition includes (x : string) (arr : list string) : bool :=
  existsb (String.eqb x) arr.

Definition upper_ascii (a : ascii) : ascii :=
  let n := nat_of_ascii a in
  if ((97 <=? n)%nat && (n <=? 122)%nat) then ascii_of_nat (n - 32) else a.

Fixpoint toUpperCase (s : string) : string :=
  match s with
  | EmptyString => EmptyString
  | String a s' => String (upper_ascii a) (toUpperCase s')
  end.

Definition is_upper_alnum (a : ascii) : bool :=
  let n := nat_of_ascii a in
  ((65 <=? n)%nat && (n <=? 90)%nat) || ((48 <=? n)%nat && (n <=? 57)%nat).

Fixpoint all_chars (p : ascii -> bool) (s : string) : bool :=
  match s with
  | EmptyString => true
  | String a s' => p a && all_chars p s'
  end.

(** The pattern [/^[A-Z0-9]+$/]. *)
Definition matches_code (s : string) : bool :=
  negb (String.eqb s "") && all_chars is_upper_alnum s.

(** Regular expressions without back-references or look-around, as the
    patterns of the user schema are; [Class p] is one character of a class. *)
Inductive Regex :=
  | Void
  | Eps
  | Class (p : ascii -> bool)
  | Seq (r1 r2 : Regex)
  | Alt (r1 r2 : Regex)
  | Star (r : Regex).

Fixpoint nullable (r : Regex) : bool :=
  match r with
  | Void => false
  | Eps => true
  | Class _ => false
  | Seq r1 r2 => nullable r1 && nullable r2
  | Alt r1 r2 => nullable r1 || nullable r2
  | Star _ => true
  end.

Definition seq (r1 r2 : Regex) : Regex :=
  match r1, r2 with
  | Void, _ | _, Void => Void
  | Eps, _ => r2
  | _, _ => Seq r1 r2
  end.

Definition alt (r1 r2 : Regex) : Regex :=
  match r1, r2 with
  | Void, _ => r2
  | _, Void => r1
  | _, _ => Alt r1 r2
  end.

(** The words of [r] that start with [a], without that [a]. *)
Fixpoint derive (a : ascii) (r : Regex) : Regex :=
  match r with
  | Void | Eps => Void
  | Class p => if p a then Eps else Void
  | Seq r1 r2 =>
      if nullable r1 then alt (seq (derive a r1) r2) (derive a r2)
      else seq (derive a r1) r2
  | Alt r1 r2 => alt (derive a r1) (derive a r2)
  | Star r1 => seq (derive a r1) (Star r1)
  end.

(** [/^r$/.test(s)]. *)
Fixpoint regex_test (r : Regex) (s : string) : bool :=
  match s with
  | EmptyString => nullable r
  | String a s' => regex_test (derive a r) s'
  end.

Definition plus (r : Regex) : Regex := Seq r (Star r).
Definition opt (r : Regex) : Regex := Alt Eps r.
Definition char (c : ascii) : Regex := Class (Ascii.eqb c).

Definition is_digit (a : ascii) : bool :=
  let n := nat_of_ascii a in (48 <=? n)%nat && (n <=? 57)%nat.

(** [\w]: a letter, a digit or the underscore. *)
Definition is_word (a : ascii) : bool :=
  let n := nat_of_ascii a in
  ((65 <=? n)%nat && (n <=? 90)%nat) || ((97 <=? n)%nat && (n <=? 122)%nat)
  || is_digit a || (n =? 95)%nat.

(** The pattern of the email path:
    [/^\w+([.-]?\w+)*@\w+([.-]?\w+)*(\.\w{2,3})+$/]. *)
Definition email_pattern : Regex :=
  let w := Class is_word in
  let dot_or_dash := Alt (char ".") (char "-") in
  let words := Seq (plus w) (Star (Seq (opt dot_or_dash) (plus w))) in
  Seq words
    (Seq (char "@")
       (Seq words (plus (Seq (char ".") (Seq w (Seq w (opt w))))))).

(** The pattern of the phoneNumber path: [/^\+?[\d\s-()]+$/]. *)
Definition phone_pattern : Regex :=
  Seq (opt (char "+"))
    (plus
       (Class
          (fun a =>
             is_digit a || is_whitespace a || Ascii.eqb a "-"
             || Ascii.eqb a "(" || Ascii.eqb a ")"))).

(** A [maxlength] validator on an optional string path. *)
Definition max_length (n : nat) (o : option string) : bool :=
  match o with
  | Some v => (String.length v <=? n)%nat
  | None => true
  end.

(* ===================================================================== *)
(** ** Documents *)
(* ===================================================================== *)

Definition ObjectId := N.
Bind Scope N_scope with ObjectId.

(** The result shape of both statistics methods. *)
Record Statistics := {
  totalFeedback : nat;
  averageRating : float;
  ratingDistribution : gmap Z nat
}.

(** [ratingDist = { 1: 0, 2: 0, 3: 0, 4: 0, 5: 0 }]. *)
Definition ratingDist0 : gmap Z nat :=
  <[5 := 0%nat]> (<[4 := 0%nat]> (<[3 := 0%nat]> (<[2 := 0%nat]> (<[1 := 0%nat]> ∅)))).

(** [ratingDist[rating] = (ratingDist[rating] || 0) + 1]. *)
Definition count_rating (ratingDist : gmap Z nat) (rating : Z) : gmap Z nat :=
  <[rating := (default 0%nat (ratingDist !! rating) + 1)%nat]> ratingDist.

(** [ratings.forEach(rating => ...)] from the initial object. *)
Definition distribution (ratings : list Z) : gmap Z nat :=
  fold_left count_rating ratings ratingDist0.

(** One output document of [$group: { _id: null, totalFeedback: { $sum: 1 },
    averageRating: { $avg: '$rating' }, ratingDistribution: { $push:
    '$rating' } }]. *)
Record GroupAll := {
  g_totalFeedback : nat;
  g_averageRating : float;
  g_ratingDistribution : list Z
}.

(** [$group] with [_id: null]: no document for an empty input, one otherwise. *)
Definition group_all (ratings : list Z) : list GroupAll :=
  match ratings with
  | [] => []
  | _ :: _ =>
      [ {| g_totalFeedback := length ratings;
           g_averageRating := mongo_avg ratings;
           g_ratingDistribution := ratings |} ]
  end.

(** The part both statistics methods share after their aggregation. *)
Definition statistics_of (stats : list GroupAll) : Statistics :=
  match stats with
  | [] =>
      {| totalFeedback := 0;
         averageRating := 0%float;
         ratingDistribution := ratingDist0 |}
  | s0 :: _ =>
      {| totalFeedback := g_totalFeedback s0;
         averageRating := round2 (g_averageRating s0);
         ratingDistribution := distribution (g_ratingDistribution s0) |}
  end.

Inductive Status := pending | approved | rejected.

Definition Status_eqb (a b : Status) : bool :=
  match a, b with
  | pending, pending | approved, approved | rejected, rejected => true
  | _, _ => false
  end.

Inductive MongoError :=
  | E11000            (* duplicate key on a unique index *)
  | ValidationError.  (* a schema validator refused the document *)

Module Feedback.

(** The schema's paths but [updatedAt]. *)
Record t := {
  _id : ObjectId;
  student : ObjectId;
  course : ObjectId;
  rating : Z;
  message : string;
  isAnonymous : bool;
  tags : list string;
  status : Status;
  moderatorNotes : option string;
  createdAt : Z          (* milliseconds since the epoch, UTC *)
}.

Definition set_rating (f : t) (r : Z) : t :=
  {| _id := _id f; student := student f; course := course f; rating := r;
     message := message f; isAnonymous := isAnonymous f; tags := tags f;
     status := status f; moderatorNotes := moderatorNotes f;
     createdAt := createdAt f |}.

Definition set_message (f : t) (m : string) : t :=
  {| _id := _id f; student := student f; course := course f; rating := rating f;
     message := m; isAnonymous := isAnonymous f; tags := tags f;
     status := status f; moderatorNotes := moderatorNotes f;
     createdAt := createdAt f |}.

Definition set_isAnonymous (f : t) (b : bool) : t :=
  {| _id := _id f; student := student f; course := course f; rating := rating f;
     message := message f; isAnonymous := b; tags := tags f;
     status := status f; moderatorNotes := moderatorNotes f;
     createdAt := createdAt f |}.

Definition set_tags (f : t) (ts : list string) : t :=
  {| _id := _id f; student := student f; course := course f; rating := rating f;
     message := message f; isAnonymous := isAnonymous f; tags := ts;
     status := status f; moderatorNotes := moderatorNotes f;
     createdAt := createdAt f |}.

(** The setters of the [tags] path: [trim: true, lowercase: true]. *)
Definition cast_tags (ts : list string) : list string :=
  map (fun s => toLowerCase (trim s)) ts.

(** Schema validators: rating within 1..5, message of 10..1000 characters,
    every tag of at most 50, moderator notes of at most 500. *)
Definition validate (f : t) : bool :=
  (1 <=? rating f) && (rating f <=? 5)
  && (10 <=? String.length (message f))%nat
  && (String.length (message f) <=? 1000)%nat
  && max_length 500 (moderatorNotes f)
  && forallb (fun s => (String.length s <=? 50)%nat) (tags f).

(** [feedbackSchema.pre('save', ...)]: the automatic tag. [isNew] and
    [ratingModified] are [this.isNew] and [this.isModified('rating')]. *)
Definition pre_save (isNew ratingModified : bool) (this : t) : t :=
  if ratingModified || isNew then
    if 4 <=? rating this then
      if negb (includes "positive" (tags this))
      then set_tags this (tags this ++ ["positive"%string])
      else this
    else if rating this <=? 2 then
      if negb (includes "needs-improvement" (tags this))
      then set_tags this (tags this ++ ["needs-improvement"%string])
      else this
    else
      if negb (includes "neutral" (tags this))
      then set_tags this (tags this ++ ["neutral"%string])
      else this
  else this.

(** [Feedback.findById(id)]. *)
Definition findById (id : ObjectId) (coll : list t) : option t :=
  List.find (fun f => N.eqb (_id f) id) coll.

(** [Feedback.findOne({ student, course })]. *)
Definition findOne (s c : ObjectId) (coll : list t) : option t :=
  List.find (fun f => N.eqb (student f) s && N.eqb (course f) c) coll.

(** [Feedback.countDocuments({ course })]. *)
Definition countDocuments_course (c : ObjectId) (coll : list t) : nat :=
  length (List.filter (fun f => N.eqb (course f) c) coll).

(** [Feedback.findByIdAndDelete(id)]: removes the document with that id. *)
Fixpoint findByIdAndDelete (id : ObjectId) (coll : list t) : list t :=
  match coll with
  | [] => []
  | f :: rest =>
      if N.eqb (_id f) id then rest else f :: findByIdAndDelete id rest
  end.

(** Writing back a loaded document: the stored document with its [_id] is
    replaced. *)
Fixpoint replace (doc : t) (coll : list t) : list t :=
  match coll with
  | [] => []
  | f :: rest =>
      if N.eqb (_id f) (_id doc) then doc :: rest else f :: replace doc rest
  end.

(** A fresh [_id] for a new document. *)
Definition fresh_id (coll : list t) : ObjectId :=
  N.succ (fold_right N.max 0%N (map _id coll)).

(** The unique compound index [{ student: 1, course: 1 }]: would inserting
    a document with this pair violate it? *)
Definition index_conflict (s c : ObjectId) (coll : list t) : bool :=
  existsb (fun f => N.eqb (student f) s && N.eqb (course f) c) coll.

(** [$match: { course: courseId, status: 'approved' }]. *)
Definition match_course_approved (courseId : ObjectId) (coll : list t) : list t :=
  List.filter
    (fun f => N.eqb (course f) courseId && Status_eqb (status f) approved) coll.

(** [$match: { course: this._id }]. *)
Definition match_course (courseId : ObjectId) (coll : list t) : list t :=
  List.filter (fun f => N.eqb (course f) courseId) coll.

(** The pipeline of [getCourseStatistics]: the [$match] on course and
    status, then the [$group] with [_id: null]. *)
Definition aggregate_course_approved (courseId : ObjectId) (coll : list t)
  : list GroupAll :=
  group_all (map rating (match_course_approved courseId coll)).

(** The pipeline of the course method [getStatistics]: the [$match] on the
    course alone, then the same [$group]. *)
Definition aggregate_course (courseId : ObjectId) (coll : list t)
  : list GroupAll :=
  group_all (map rating (match_course courseId coll)).

(** [feedbackSchema.statics.getCourseStatistics]. *)
Definition getCourseStatistics (courseId : ObjectId) (coll : list t)
  : Statistics :=
  statistics_of (aggregate_course_approved courseId coll).

End Feedback.

Module Course.

(** The paths of the course schema; an optional path that the stored
    document lacks is [None] ([createdBy] is required, and lacking in a
    document that was not written through the model). *)
Record t := {
  _id : ObjectId;
  name : string;
  code : string;
  isActive : bool;
  description : option string;
  instructor : option string;
  department : option string;
  credits : option Z;
  createdBy : option ObjectId;
  updatedAt : Z          (* milliseconds since the epoch, UTC *)
}.

Definition set_isActive (c : t) (b : bool) : t :=
  {| _id := _id c; name := name c; code := code c; isActive := b;
     description := description c; instructor := instructor c;
     department := department c; credits := credits c;
     createdBy := createdBy c; updatedAt := updatedAt c |}.

Definition set_updatedAt (c : t) (now : Z) : t :=
  {| _id := _id c; name := name c; code := code c; isActive := isActive c;
     description := description c; instructor := instructor c;
     department := department c; credits := credits c;
     createdBy := createdBy c; updatedAt := now |}.

(** [Course.findById(id)]. *)
Definition findById (id : ObjectId) (coll : list t) : option t :=
  List.find (fun c => N.eqb (_id c) id) coll.

(** [Course.findByIdAndDelete(id)]. *)
Fixpoint findByIdAndDelete (id : ObjectId) (coll : list t) : list t :=
  match coll with
  | [] => []
  | c :: rest =>
      if N.eqb (_id c) id then rest else c :: findByIdAndDelete id rest
  end.

(** [course.save()] of a loaded document. *)
Fixpoint replace (doc : t) (coll : list t) : list t :=
  match coll with
  | [] => []
  | c :: rest =>
      if N.eqb (_id c) (_id doc) then doc :: rest else c :: replace doc rest
  end.

(** [courseSchema.methods.getStatistics], on the Feedback collection. *)
Definition getStatistics (this : t) (feedback : list Feedback.t) : Statistics :=
  statistics_of (Feedback.aggregate_course (_id this) feedback).

End Course.

Module User.

Inductive Role := student | admin.

(** The paths of the user schema that [User.findById] loads and that have
    a validator or are read or written by the modelled routes ([password]
    is [select: false] and not loaded; [profilePicture] and [lastLogin] have
    no validator); an optional path that the stored document lacks is
    [None]. *)
Record t := {
  _id : ObjectId;
  name : string;
  email : string;
  role : Role;
  isBlocked : bool;
  phoneNumber : option string;
  dateOfBirth : option Z;  (* milliseconds since the epoch, UTC *)
  address : option string;
  updatedAt : Z            (* milliseconds since the epoch, UTC *)
}.

Definition set_isBlocked (u : t) (b : bool) : t :=
  {| _id := _id u; name := name u; email := email u; role := role u;
     isBlocked := b; phoneNumber := phoneNumber u;
     dateOfBirth := dateOfBirth u; address := address u;
     updatedAt := updatedAt u |}.

Definition set_updatedAt (u : t) (now : Z) : t :=
  {| _id := _id u; name := name u; email := email u; role := role u;
     isBlocked := isBlocked u; phoneNumber := phoneNumber u;
     dateOfBirth := dateOfBirth u; address := address u;
     updatedAt := now |}.

Definition is_student (u : t) : bool :=
  match role u with student => true | admin => false end.

(** [User.findById(id)]. *)
Definition findById (id : ObjectId) (coll : list t) : option t :=
  List.find (fun u => N.eqb (_id u) id) coll.

(** [student.save()] of a loaded document. *)
Fixpoint replace (doc : t) (coll : list t) : list t :=
  match coll with
  | [] => []
  | u :: rest =>
      if N.eqb (_id u) (_id doc) then doc :: rest else u :: replace doc rest
  end.

End User.

(** The three collections. *)
Record Db := {
  users : list User.t;
  courses : list Course.t;
  feedbacks : list Feedback.t
}.

Definition set_feedbacks (db : Db) (fs : list Feedback.t) : Db :=
  {| users := users db; courses := courses db; feedbacks := fs |}.

Definition set_courses (db : Db) (cs : list Course.t) : Db :=
  {| users := users db; courses := cs; feedbacks := feedbacks db |}.

Definition set_users (db : Db) (us : list User.t) : Db :=
  {| users := us; courses := courses db; feedbacks := feedbacks db |}.

(** [res.status(code).json({ success, message, ... })]; [msg] is empty when
    the body has no message, [data] is the document or statistics the body
    carries besides, when it does. *)
Record Response (A : Type) := {
  code : nat;
  success : bool;
  msg : string;
  data : option A
}.
Arguments code {A} _.
Arguments success {A} _.
Arguments msg {A} _.
Arguments data {A} _.

Definition failure {A : Type} (c : nat) (m : string) : Response A :=
  {| code := c; success := false; msg := m; data := None |}.

Definition ok {A : Type} (c : nat) (m : string) (d : option A) : Response A :=
  {| code := c; success := true; msg := m; data := d |}.

(* ===================================================================== *)
(** ** Saving feedback documents *)
(* ===================================================================== *)

(** [Feedback.create({...})]: defaults and setters, the schema validators,
    the pre-save hook, then the insertion, which the unique index on
    (student, course) may refuse. Returns the stored document and the new
    collection. *)
Definition Feedback_create (now : Z) (s c : ObjectId) (r : Z) (m : string)
    (anon : bool) (ts : list string) (coll : list Feedback.t)
  : MongoError + (Feedback.t * list Feedback.t) :=
  let doc :=
    {| Feedback._id := Feedback.fresh_id coll;
       Feedback.student := s;
       Feedback.course := c;
       Feedback.rating := r;
       Feedback.message := trim m;
       Feedback.isAnonymous := anon;
       Feedback.tags := Feedback.cast_tags ts;
       Feedback.status := approved;
       Feedback.moderatorNotes := None;
       Feedback.createdAt := now |} in
  if negb (Feedback.validate doc) then inl ValidationError
  else
    let doc' := Feedback.pre_save true true doc in
    if Feedback.index_conflict s c coll then inl E11000
    else inr (doc', coll ++ [doc']).

(** [feedback.save()] of a loaded document [old] changed into [new]: the
    validators of every loaded path, the pre-save hook, then the write. *)
Definition Feedback_save (old new : Feedback.t) (coll : list Feedback.t)
  : MongoError + (Feedback.t * list Feedback.t) :=
  if negb (Feedback.validate new) then inl ValidationError
  else
    let ratingModified := negb (Feedback.rating new =? Feedback.rating old) in
    let doc := Feedback.pre_save false ratingModified new in
    inr (doc, Feedback.replace doc coll).

(* ===================================================================== *)
(** ** Saving course and user documents *)
(* ===================================================================== *)

(** The validators of the course schema. *)
Definition Course_validate (c : Course.t) : bool :=
  negb (String.eqb (Course.name c) "")
  && (String.length (Course.name c) <=? 100)%nat
  && (String.length (Course.code c) <=? 20)%nat
  && matches_code (Course.code c)
  && max_length 500 (Course.description c)
  && max_length 100 (Course.instructor c)
  && max_length 100 (Course.department c)
  && match Course.credits c with
     | Some n => (1 <=? n) && (n <=? 10)
     | None => true
     end
  && match Course.createdBy c with Some _ => true | None => false end.

(** The unique indexes on name and on code at an update, which writes the
    modified paths only: does another document hold the new name, or the new
    code? *)
Definition Course_update_conflict (old new : Course.t) (coll : list Course.t)
  : bool :=
  existsb
    (fun x =>
       negb (N.eqb (Course._id x) (Course._id new))
       && (negb (String.eqb (Course.name new) (Course.name old))
           && String.eqb (Course.name x) (Course.name new)
           || negb (String.eqb (Course.code new) (Course.code old))
              && String.eqb (Course.code x) (Course.code new)))
    coll.

(** [this.isModified()] of a course whose name, code or flag was assigned. *)
Definition Course_modified (old new : Course.t) : bool :=
  negb (String.eqb (Course.name new) (Course.name old)
        && String.eqb (Course.code new) (Course.code old)
        && Bool.eqb (Course.isActive new) (Course.isActive old)).

(** [course.save()] of a loaded document [old] changed into [new], at time
    [now]. *)
Definition Course_save (now : Z) (old new : Course.t) (coll : list Course.t)
  : MongoError + (Course.t * list Course.t) :=
  if negb (Course_validate new) then inl ValidationError
  else if Course_update_conflict old new coll then inl E11000
  else
    let doc :=
      if Course_modified old new then Course.set_updatedAt new now else new in
    inr (doc, Course.replace doc coll).

(** The validators of the loaded paths of the user schema; the one of
    dateOfBirth compares with [new Date()]. *)
Definition User_validate (now : Z) (u : User.t) : bool :=
  negb (String.eqb (User.name u) "")
  && (String.length (User.name u) <=? 50)%nat
  && regex_test email_pattern (User.email u)
  && match User.phoneNumber u with
     | Some v => String.eqb v "" || regex_test phone_pattern v
     | None => true
     end
  && match User.dateOfBirth u with
     | Some date => date <? now
     | None => true
     end
  && max_length 200 (User.address u).

(** [student.save()] of a loaded document whose isBlocked flag was negated,
    at time [now]; no path of a unique index is modified. *)
Definition User_save (now : Z) (new : User.t) (coll : list User.t)
  : MongoError + (User.t * list User.t) :=
  if negb (User_validate now new) then inl ValidationError
  else
    let doc := User.set_updatedAt new now in
    inr (doc, User.replace doc coll).

(* ===================================================================== *)
(** ** routes/feedback.js *)
(* ===================================================================== *)

(** [req.body] of POST /api/feedback ([course] is a well-formed id). *)
Record SubmitBody := {
  sb_course : ObjectId;
  sb_rating : Z;
  sb_message : string;
  sb_isAnonymous : option bool;
  sb_tags : option (list string)
}.

(** The validation chain of POST: rating an integer of 1..5, the trimmed
    message of 10..1000 characters. *)
Definition validate_submit (b : SubmitBody) : bool :=
  (1 <=? sb_rating b) && (sb_rating b <=? 5)
  && (10 <=? String.length (trim (sb_message b)))%nat
  && (String.length (trim (sb_message b)) <=? 1000)%nat.

Definition already_submitted : string :=
  "You have already submitted feedback for this course".

(** POST /api/feedback. *)
Definition post_feedback (user_id : ObjectId) (now : Z) (body : SubmitBody)
    (db : Db) : Response Feedback.t * Db :=
  if negb (validate_submit body) then (failure 400 "Validation failed", db)
  else
    let course := sb_course body in
    let rating := sb_rating body in
    let message := trim (sb_message body) in
    match Course.findById course (courses db) with
    | None => (failure 404 "Course not found", db)
    | Some courseDoc =>
        if negb (Course.isActive courseDoc)
        then (failure 400 "Cannot submit feedback for inactive course", db)
        else
          match Feedback.findOne user_id course (feedbacks db) with
          | Some existingFeedback => (failure 400 already_submitted, db)
          | None =>
              match Feedback_create now user_id course rating message
                      (default false (sb_isAnonymous body))
                      (default [] (sb_tags body)) (feedbacks db) with
              | inr (feedback, coll) =>
                  (ok 201 "Feedback submitted successfully" (Some feedback),
                   set_feedbacks db coll)
              | inl E11000 => (failure 400 already_submitted, db)
              | inl _ => (failure 500 "Server error", db)
              end
          end
    end.

(** [req.body] of PUT /api/feedback/:id; [None] is [undefined]. *)
Record UpdateBody := {
  ub_rating : option Z;
  ub_message : option string;
  ub_isAnonymous : option bool;
  ub_tags : option (list string)
}.

(** The validation chain of PUT: every field optional. *)
Definition validate_update (b : UpdateBody) : bool :=
  match ub_rating b with
  | Some r => (1 <=? r) && (r <=? 5)
  | None => true
  end
  && match ub_message b with
     | Some m => (10 <=? String.length (trim m))%nat
                 && (String.length (trim m) <=? 1000)%nat
     | None => true
     end.

(** The field update block of PUT: [if (rating) ...], [if (message) ...],
    [if (isAnonymous !== undefined) ...], [if (tags) ...]; a number is truthy
    when it is not 0, a string when it is not empty, an array always. *)
Definition update_fields (body : UpdateBody) (feedback : Feedback.t) : Feedback.t :=
  let f1 :=
    match ub_rating body with
    | Some rating => if rating =? 0 then feedback
                     else Feedback.set_rating feedback rating
    | None => feedback
    end in
  let f2 :=
    match ub_message body with
    | Some m =>
        let message := trim m in
        if String.eqb message "" then f1
        else Feedback.set_message f1 (trim message)
    | None => f1
    end in
  let f3 :=
    match ub_isAnonymous body with
    | Some isAnonymous => Feedback.set_isAnonymous f2 isAnonymous
    | None => f2
    end in
  match ub_tags body with
  | Some tags => Feedback.set_tags f3 (Feedback.cast_tags tags)
  | None => f3
  end.

(** PUT /api/feedback/:id. *)
Definition put_feedback (user_id id : ObjectId) (body : UpdateBody) (db : Db)
  : Response Feedback.t * Db :=
  if negb (validate_update body) then (failure 400 "Validation failed", db)
  else
    match Feedback.findById id (feedbacks db) with
    | None => (failure 404 "Feedback not found", db)
    | Some feedback =>
        if negb (N.eqb (Feedback.student feedback) user_id)
        then (failure 403 "Not authorized to update this feedback", db)
        else
          match Feedback_save feedback (update_fields body feedback)
                  (feedbacks db) with
          | inr (saved, coll) =>
              (ok 200 "Feedback updated successfully" (Some saved),
               set_feedbacks db coll)
          | inl _ => (failure 500 "Server error", db)
          end
    end.

(** DELETE /api/feedback/:id. *)
Definition delete_feedback (user_id id : ObjectId) (db : Db)
  : Response unit * Db :=
  match Feedback.findById id (feedbacks db) with
  | None => (failure 404 "Feedback not found", db)
  | Some feedback =>
      if negb (N.eqb (Feedback.student feedback) user_id)
      then (failure 403 "Not authorized to delete this feedback", db)
      else
        (ok 200 "Feedback deleted successfully" None,
         set_feedbacks db (Feedback.findByIdAndDelete id (feedbacks db)))
  end.

(** GET /api/feedback/course/:courseId/stats. *)
Definition get_course_stats (courseId : ObjectId) (db : Db)
  : Response (Course.t * Statistics) :=
  match Course.findById courseId (courses db) with
  | None => failure 404 "Course not found"
  | Some course =>
      ok 200 "" (Some (course, Feedback.getCourseStatistics courseId (feedbacks db)))
  end.

(* ===================================================================== *)
(** ** routes/courses.js *)
(* ===================================================================== *)

(** GET /api/courses/:id: the course with [course.getStatistics()]. *)
Definition get_course (id : ObjectId) (db : Db)
  : Response (Course.t * Statistics) :=
  match Course.findById id (courses db) with
  | None => failure 404 "Course not found"
  | Some course =>
      ok 200 "" (Some (course, Course.getStatistics course (feedbacks db)))
  end.

(** The template literal of the guarded delete. *)
Definition cannot_delete_course (feedbackCount : nat) : string :=
  "Cannot delete course. It has " +:+ pretty feedbackCount
  +:+ " feedback entries. Consider deactivating instead.".

(** DELETE /api/courses/:id. *)
Definition delete_course (id : ObjectId) (db : Db) : Response unit * Db :=
  match Course.findById id (courses db) with
  | None => (failure 404 "Course not found", db)
  | Some course =>
      let feedbackCount :=
        Feedback.countDocuments_course (Course._id course) (feedbacks db) in
      if (0 <? feedbackCount)%nat
      then (failure 400 (cannot_delete_course feedbackCount), db)
      else
        (ok 200 "Course deleted successfully" None,
         set_courses db (Course.findByIdAndDelete id (courses db)))
  end.

(** PATCH /api/courses/:id/toggle-active. *)
Definition toggle_active (id : ObjectId) (now : Z) (db : Db)
  : Response Course.t * Db :=
  match Course.findById id (courses db) with
  | None => (failure 404 "Course not found", db)
  | Some course =>
      let course' := Course.set_isActive course (negb (Course.isActive course)) in
      match Course_save now course course' (courses db) with
      | inr (saved, coll) =>
          (ok 200
             ("Course "
              +:+ (if Course.isActive saved then "activated" else "deactivated")
              +:+ " successfully")
             (Some saved),
           set_courses db coll)
      | inl _ => (failure 500 "Server error", db)
      end
  end.

(* ===================================================================== *)
(** ** routes/admin.js: block / unblock *)
(* ===================================================================== *)

(** PATCH /api/admin/students/:id/toggle-block; [user_id] is the calling
    admin. *)
Definition toggle_block (user_id id : ObjectId) (now : Z) (db : Db)
  : Response User.t * Db :=
  match User.findById id (users db) with
  | None => (failure 404 "Student not found", db)
  | Some student =>
      if negb (User.is_student student)
      then (failure 400 "Can only block/unblock students", db)
      else if N.eqb (User._id student) user_id
      then (failure 400 "Cannot block yourself", db)
      else
        let student' := User.set_isBlocked student (negb (User.isBlocked student)) in
        match User_save now student' (users db) with
        | inr (saved, coll) =>
            (ok 200
               ("Student "
                +:+ (if User.isBlocked saved then "blocked" else "unblocked")
                +:+ " successfully")
               (Some saved),
             set_users db coll)
        | inl _ => (failure 500 "Server error", db)
        end
  end.

(* ===================================================================== *)
(** ** routes/admin.js: monthly trends of the dashboard *)
(* ===================================================================== *)

(** [$year] and [$month] of a date (milliseconds since the epoch, UTC): the
    proleptic Gregorian calendar, by days since 0000-03-01. *)
Definition year_month (ms : Z) : Z * Z :=
  let days := ms / 86400000 in
  let z := days + 719468 in
  let era := z / 146097 in
  let doe := z - era * 146097 in
  let yoe := (doe - doe / 1460 + doe / 36524 - doe / 146096) / 365 in
  let doy := doe - (365 * yoe + yoe / 4 - yoe / 100) in
  let mp := (5 * doy + 2) / 153 in
  let m := if mp <? 10 then mp + 3 else mp - 9 in
  let y := yoe + era * 400 in
  (if m <=? 2 then y + 1 else y, m).

(** A group of the [$group] stage keyed by [{ year, month }]: the key and the
    accumulators ([$sum: 1]; the ratings that [$avg] averages). *)
Record MonthGroup := {
  mg_year : Z;
  mg_month : Z;
  mg_count : nat;
  mg_ratings : list Z
}.

Definition same_month (y m : Z) (g : MonthGroup) : bool :=
  (mg_year g =? y) && (mg_month g =? m).

(** One document enters the [$group] stage. *)
Fixpoint group_add (y m r : Z) (groups : list MonthGroup) : list MonthGroup :=
  match groups with
  | [] => [ {| mg_year := y; mg_month := m; mg_count := 1; mg_ratings := [r] |} ]
  | g :: rest =>
      if same_month y m g
      then {| mg_year := mg_year g; mg_month := mg_month g;
              mg_count := S (mg_count g);
              mg_ratings := mg_ratings g ++ [r] |} :: rest
      else g :: group_add y m r rest
  end.

Definition group_by_month (docs : list Feedback.t) : list MonthGroup :=
  fold_left
    (fun groups f =>
       let '(y, m) := year_month (Feedback.createdAt f) in
       group_add y m (Feedback.rating f) groups)
    docs [].

(** [$sort: { '_id.year': 1, '_id.month': 1 }]. *)
Definition month_leb (a b : MonthGroup) : bool :=
  (mg_year a <? mg_year b)
  || ((mg_year a =? mg_year b) && (mg_month a <=? mg_month b)).

Fixpoint sort_insert (g : MonthGroup) (sorted : list MonthGroup) : list MonthGroup :=
  match sorted with
  | [] => [g]
  | h :: rest => if month_leb g h then g :: sorted else h :: sort_insert g rest
  end.

Definition sort_months (groups : list MonthGroup) : list MonthGroup :=
  fold_right sort_insert [] groups.

(** [$round: [x, 2]]: to two decimals, a tie going to the even neighbour,
    on the exact value of the float. *)
Definition round_half_even (num den : Z) : Z :=
  let q := num / den in
  let r := num mod den in
  if 2 * r <? den then q
  else if den <? 2 * r then q + 1
  else if Z.even q then q else q + 1.

Definition mongo_round2 (x : float) : float :=
  match Prim2SF x with
  | S754_finite s m e =>
      let num := 100 * Z.pos m in
      let n := if 0 <=? e then num * 2 ^ e else round_half_even num (2 ^ (- e)) in
      let r := (Z2float n / Z2float 100)%float in
      if s then (- r)%float else r
  | _ => x
  end.

(** The [month] label of the [$project] stage: ["YYYY-MM"]. *)
Definition month_label (y m : Z) : string :=
  pretty y +:+ "-" +:+ (if m <? 10 then "0" +:+ pretty m else pretty m).

Module Trend.

(** An element of [monthlyTrends]. *)
Record t := {
  month : string;
  count : nat;
  averageRating : float
}.

End Trend.

Definition project_month (g : MonthGroup) : Trend.t :=
  {| Trend.month := month_label (mg_year g) (mg_month g);
     Trend.count := mg_count g;
     Trend.averageRating := mongo_round2 (mongo_avg (mg_ratings g)) |}.

(** The [monthlyTrends] aggregation of GET /api/admin/dashboard;
    [sixMonthsAgo] is the start of the window the handler computes from the
    clock. *)
Definition monthlyTrends (sixMonthsAgo : Z) (feedback : list Feedback.t)
  : list Trend.t :=
  map project_month
    (sort_months
       (group_by_month
          (List.filter (fun f => sixMonthsAgo <=? Feedback.createdAt f) feedback))).

(* ===================================================================== *)
(** ** Notions the properties are stated with *)
(* ===================================================================== *)

(** The pair the unique compound index is declared on. *)
Definition student_course (f : Feedback.t) : ObjectId * ObjectId :=
  (Feedback.student f, Feedback.course f).

(** At most one feedback document per (student, course) pair. *)
Definition one_feedback_per_pair (coll : list Feedback.t) : Prop :=
  List.NoDup (map student_course coll).

(** The sentiment tag of a rating, in the words of the data model:
    positive if rating >= 4, needs-improvement if rating <= 2, else
    neutral. (The hook [Feedback.pre_save] is written from the code; the
    properties compare it with this.) *)
Definition sentiment_tag (rating : Z) : string :=
  if 4 <=? rating then "positive"
  else if rating <=? 2 then "needs-improvement"
  else "neutral".

(** The key of a group of the monthly aggregation. *)
Definition month_key (g : MonthGroup) : Z * Z := (mg_year g, mg_month g).

(** Was the document created in month [m] of year [y] (UTC)? *)
Definition in_month (y m : Z) (f : Feedback.t) : bool :=
  (fst (year_month (Feedback.createdAt f)) =? y)
  && (snd (year_month (Feedback.createdAt f)) =? m).

(** The documents of a collection created in a given month at or after the
    start of the window. *)
Definition created_in_month (sixMonthsAgo y m : Z) (coll : list Feedback.t)
  : list Feedback.t :=
  List.filter
    (fun f => (sixMonthsAgo <=? Feedback.createdAt f) && in_month y m f) coll.

(** The invariant of the [$group] stage after the documents [done]: one
    group per month, each counting the documents of its month, of which
    there is at least one, and every document's month has its group. *)
Definition grouped (groups : list MonthGroup) (done : list Feedback.t) : Prop :=
  List.NoDup (map month_key groups)
  /\ (forall g, In g groups ->
        mg_count g
        = length (List.filter (in_month (mg_year g) (mg_month g)) done)
        /\ (1 <= mg_count g)%nat)
  /\ (forall f, In f done ->
        In (year_month (Feedback.createdAt f)) (map month_key groups)).

(* ===================================================================== *)
(** ** Sample data *)
(* ===================================================================== *)

Definition sample_feedback (id s c : ObjectId) (r : Z) (st : Status)
    (ts : list string) (at_ms : Z) : Feedback.t :=
  {| Feedback._id := id; Feedback.student := s; Feedback.course := c;
     Feedback.rating := r;
     Feedback.message := "Clear lectures and helpful lab sessions.";
     Feedback.isAnonymous := false; Feedback.tags := ts;
     Feedback.status := st; Feedback.moderatorNotes := None;
     Feedback.createdAt := at_ms |}.

(** A user document with the required paths and a phone number. *)
Definition sample_user (id : ObjectId) (n e : string) (r : User.Role)
    (blocked : bool) : User.t :=
  {| User._id := id; User.name := n; User.email := e; User.role := r;
     User.isBlocked := blocked; User.phoneNumber := Some "+91 98765-43210"%string;
     User.dateOfBirth := None; User.address := None;
     User.updatedAt := 1690000000000 |}.

Definition sample_users : list User.t :=
  [ sample_user 1 "Dr. Rajesh Kumar" "admin@bgscollege.ac.in" User.admin false;
    sample_user 2 "Arjun Sharma" "arjun.sharma@bgscollege.ac.in" User.student
      false;
    sample_user 3 "Priya Patel" "priya.patel@bgscollege.ac.in" User.student
      true ]%N.

(** A course document as POST /api/courses by admin 1 stores it. *)
Definition sample_course (id : ObjectId) (n c : string) (active : bool)
  : Course.t :=
  {| Course._id := id; Course.name := n; Course.code := c;
     Course.isActive := active; Course.description := None;
     Course.instructor := None; Course.department := None;
     Course.credits := None; Course.createdBy := Some 1%N;
     Course.updatedAt := 1690000000000 |}.

Definition sample_courses : list Course.t :=
  [ sample_course 10 "Introduction to Computer Science" "CS101" true;
    sample_course 11 "Operating Systems" "CS301" true;
    sample_course 12 "Engineering Physics" "PHY101" false ]%N.


(** A rating outside 1..5. *)
Definition sample_invalid_update : UpdateBody :=
  {| ub_rating := Some 9; ub_message := None; ub_isAnonymous := None;
     ub_tags := None |}.

(** Course 10 has the approved ratings 5, 5, 4, 3, 1 and one pending record;
    course 11 has a single pending record; course 12 has none. *)
Definition sample_feedbacks : list Feedback.t :=
  [ sample_feedback 100 2 10 5 approved ["positive"%string] 1700000000000;
    sample_feedback 101 3 10 5 approved ["positive"%string] 1700000100000;
    sample_feedback 102 4 10 4 approved ["positive"%string] 1702000000000;
    sample_feedback 103 5 10 3 approved ["neutral"%string] 1705000000000;
    sample_feedback 104 6 10 1 approved ["needs-improvement"%string] 1705000000001;
    sample_feedback 105 7 10 2 pending ["needs-improvement"%string] 1707000000000;
    sample_feedback 106 2 11 5 pending ["positive"%string] 1690000000000 ]%N.

Definition sample_db : Db :=
  {| users := sample_users; courses := sample_courses;
     feedbacks := sample_feedbacks |}.

(** Student 2 submits again for course 10. *)
Definition sample_resubmission : SubmitBody :=
  {| sb_course := 10; sb_rating := 2;
     sb_message := "  On second thought the pace was too fast.  ";
     sb_isAnonymous := None; sb_tags := Some ["Pace"%string] |}.

(** Student 2 submits for course 11 a second time; student 4 for the first
    time. *)
Definition sample_submission : SubmitBody :=
  {| sb_course := 11; sb_rating := 3;
     sb_message := "Average course, the labs need more time.";
     sb_isAnonymous := Some true; sb_tags := None |}.

(** An update that lowers the rating and sends no tags. *)
Definition sample_update : UpdateBody :=
  {| ub_rating := Some 1; ub_message := None; ub_isAnonymous := Some true;
     ub_tags := None |}.

(* ===================================================================== *)
(** ** Further statistics: the student's own, the overall ones, the
       dashboard's top courses and counts *)
(* ===================================================================== *)

(** GET /api/users/stats: the aggregation matches on the student alone;
    the result is built as in the statistics methods. *)
Definition get_user_stats (user_id : ObjectId) (db : Db) : Response Statistics :=
  ok 200 ""
    (Some
       (statistics_of
          (group_all
             (map Feedback.rating
                (List.filter (fun f => N.eqb (Feedback.student f) user_id)
                   (feedbacks db)))))).

(** A group of [$group: { _id: '$course', count: { $sum: 1 }, avgRating:
    { $avg: '$rating' } }] (the ratings are what [$avg] averages). *)
Record CourseGroup := {
  cg_course : ObjectId;
  cg_count : nat;
  cg_ratings : list Z
}.

(** One document enters the [$group] stage keyed by course. *)
Fixpoint course_group_add (c : ObjectId) (r : Z) (groups : list CourseGroup)
  : list CourseGroup :=
  match groups with
  | [] => [ {| cg_course := c; cg_count := 1; cg_ratings := [r] |} ]
  | g :: rest =>
      if N.eqb (cg_course g) c
      then {| cg_course := cg_course g; cg_count := S (cg_count g);
              cg_ratings := cg_ratings g ++ [r] |} :: rest
      else g :: course_group_add c r rest
  end.

Definition group_by_course (docs : list Feedback.t) : list CourseGroup :=
  fold_left
    (fun groups f =>
       course_group_add (Feedback.course f) (Feedback.rating f) groups)
    docs [].

(** [$match: { status: 'approved' }]. *)
Definition match_approved (coll : list Feedback.t) : list Feedback.t :=
  List.filter (fun f => Status_eqb (Feedback.status f) approved) coll.

(** The output of [$group: { _id: null, totalCourses: { $sum: 1 },
    avgFeedbackPerCourse: { $avg: '$count' } }] over the course groups. *)
Record CourseTotals := {
  ct_totalCourses : nat;
  ct_avgFeedbackPerCourse : float
}.

Definition group_course_totals (groups : list CourseGroup) : list CourseTotals :=
  match groups with
  | [] => []
  | _ :: _ =>
      [ {| ct_totalCourses := length groups;
           ct_avgFeedbackPerCourse :=
             mongo_avg (map (fun g => Z.of_nat (cg_count g)) groups) |} ]
  end.

Record OverallStatistics := {
  ov_totalFeedback : nat;
  ov_averageRating : float;
  ov_ratingDistribution : gmap Z nat;
  ov_totalCourses : nat;
  ov_avgFeedbackPerCourse : float
}.

(** [feedbackSchema.statics.getOverallStatistics]. *)
Definition Feedback_getOverallStatistics (coll : list Feedback.t)
  : OverallStatistics :=
  let stats := group_all (map Feedback.rating (match_approved coll)) in
  let courseStats := group_course_totals (group_by_course (match_approved coll)) in
  {| ov_totalFeedback :=
       match stats with [] => 0%nat | s0 :: _ => g_totalFeedback s0 end;
     ov_averageRating :=
       match stats with
       | [] => 0%float
       | s0 :: _ => round2 (g_averageRating s0)
       end;
     ov_ratingDistribution :=
       match stats with
       | [] => ratingDist0
       | s0 :: _ => distribution (g_ratingDistribution s0)
       end;
     ov_totalCourses :=
       match courseStats with [] => 0%nat | c0 :: _ => ct_totalCourses c0 end;
     ov_avgFeedbackPerCourse :=
       match courseStats with
       | [] => 0%float
       | c0 :: _ => round2 (ct_avgFeedbackPerCourse c0)
       end |}.

(** An element of the dashboard's [topCourses]. *)
Record TopCourse := {
  tc_courseId : ObjectId;
  tc_courseName : string;
  tc_courseCode : string;
  tc_feedbackCount : nat;
  tc_averageRating : float
}.

(** [$lookup] into the courses by [_id], [$unwind] and [$project]: one
    element per course document with the group's id. *)
Definition lookup_unwind (courses : list Course.t) (g : CourseGroup)
  : list TopCourse :=
  map
    (fun c =>
       {| tc_courseId := cg_course g;
          tc_courseName := Course.name c;
          tc_courseCode := Course.code c;
          tc_feedbackCount := cg_count g;
          tc_averageRating := mongo_round2 (mongo_avg (cg_ratings g)) |})
    (List.filter (fun c => N.eqb (Course._id c) (cg_course g)) courses).

(** [$sort: { feedbackCount: -1 }]. MongoDB fixes no order among elements
    of equal feedbackCount; the properties below use none. *)
Fixpoint top_insert (x : TopCourse) (sorted : list TopCourse) : list TopCourse :=
  match sorted with
  | [] => [x]
  | h :: rest =>
      if (tc_feedbackCount h <=? tc_feedbackCount x)%nat
      then x :: sorted
      else h :: top_insert x rest
  end.

Definition sort_top (l : list TopCourse) : list TopCourse :=
  fold_right top_insert [] l.

(** The [topCourses] aggregation of GET /api/admin/dashboard. *)
Definition topCourses (db : Db) : list TopCourse :=
  firstn 5
    (sort_top
       (flat_map (lookup_unwind (courses db))
          (group_by_course (match_approved (feedbacks db))))).

(** The [users] and [courses] parts of the dashboard: counts of documents,
    the blocked and inactive ones by subtraction. *)
Record DashboardCounts := {
  dc_totalStudents : nat;
  dc_activeStudents : nat;
  dc_blockedStudents : Z;
  dc_totalCourses : nat;
  dc_activeCourses : nat;
  dc_inactiveCourses : Z
}.

Definition dashboard_counts (db : Db) : DashboardCounts :=
  let totalStudents := length (List.filter User.is_student (users db)) in
  let activeStudents :=
    length
      (List.filter (fun u => User.is_student u && negb (User.isBlocked u))
         (users db)) in
  let totalCourses := length (courses db) in
  let activeCourses := length (List.filter Course.isActive (courses db)) in
  {| dc_totalStudents := totalStudents;
     dc_activeStudents := activeStudents;
     dc_blockedStudents := Z.of_nat totalStudents - Z.of_nat activeStudents;
     dc_totalCourses := totalCourses;
     dc_activeCourses := activeCourses;
     dc_inactiveCourses := Z.of_nat totalCourses - Z.of_nat activeCourses |}.

(* ===================================================================== *)
(** ** routes/admin.js: deleting a student *)
(* ===================================================================== *)

(** [User.findByIdAndDelete(id)]. *)
Fixpoint User_findByIdAndDelete (id : ObjectId) (coll : list User.t)
  : list User.t :=
  match coll with
  | [] => []
  | u :: rest =>
      if N.eqb (User._id u) id then rest else u :: User_findByIdAndDelete id rest
  end.

(** [Feedback.countDocuments({ student })]. *)
Definition Feedback_countDocuments_student (s : ObjectId)
    (coll : list Feedback.t) : nat :=
  length (List.filter (fun f => N.eqb (Feedback.student f) s) coll).

(** The template literal of the guarded delete. *)
Definition cannot_delete_student (feedbackCount : nat) : string :=
  "Cannot delete student. They have " +:+ pretty feedbackCount
  +:+ " feedback entries. Consider blocking instead.".

(** DELETE /api/admin/students/:id; [user_id] is the calling admin. *)
Definition delete_student (user_id id : ObjectId) (db : Db)
  : Response unit * Db :=
  match User.findById id (users db) with
  | None => (failure 404 "Student not found", db)
  | Some student =>
      if negb (User.is_student student)
      then (failure 400 "Can only delete students", db)
      else if N.eqb (User._id student) user_id
      then (failure 400 "Cannot delete yourself", db)
      else
        let feedbackCount :=
          Feedback_countDocuments_student (User._id student) (feedbacks db) in
        if (0 <? feedbackCount)%nat
        then (failure 400 (cannot_delete_student feedbackCount), db)
        else
          (ok 200 "Student deleted successfully" None,
           set_users db (User_findByIdAndDelete id (users db)))
  end.

(* ===================================================================== *)
(** ** routes/courses.js: creating and updating a course *)
(* ===================================================================== *)

(** [req.body] of POST /api/courses when it carries the two required
    fields only (description, instructor, department and credits are
    optional and absent). *)
Record CourseBody := {
  cb_name : string;
  cb_code : string
}.

(** The validation chain of POST: the trimmed name of 2..100 characters, the
    trimmed code of 2..20 characters matching the pattern. *)
Definition validate_course (b : CourseBody) : bool :=
  (2 <=? String.length (trim (cb_name b)))%nat
  && (String.length (trim (cb_name b)) <=? 100)%nat
  && (2 <=? String.length (trim (cb_code b)))%nat
  && (String.length (trim (cb_code b)) <=? 20)%nat
  && matches_code (trim (cb_code b)).

Definition Course_fresh_id (coll : list Course.t) : ObjectId :=
  N.succ (fold_right N.max 0%N (map Course._id coll)).

(** [Course.findOne({ $or: [{ name }, { code }] })]. *)
Definition Course_findOne_name_or_code (n c : string) (coll : list Course.t)
  : option Course.t :=
  List.find
    (fun x => String.eqb (Course.name x) n || String.eqb (Course.code x) c) coll.

(** The unique indexes on name and on code: does another document (one with
    another [_id]) hold the name or the code of [doc]? *)
Definition Course_index_conflict (doc : Course.t) (coll : list Course.t) : bool :=
  existsb
    (fun x =>
       negb (N.eqb (Course._id x) (Course._id doc))
       && (String.eqb (Course.name x) (Course.name doc)
           || String.eqb (Course.code x) (Course.code doc)))
    coll.

(** [Course.create({ name, code, ..., createdBy })]: setters (trim; trim and
    uppercase), the default [isActive: true], validators, then the
    insertion. *)
Definition Course_create (now : Z) (n c : string) (createdBy : ObjectId)
    (coll : list Course.t) : MongoError + (Course.t * list Course.t) :=
  let doc :=
    {| Course._id := Course_fresh_id coll;
       Course.name := trim n;
       Course.code := toUpperCase (trim c);
       Course.isActive := true;
       Course.description := None;
       Course.instructor := None;
       Course.department := None;
       Course.credits := None;
       Course.createdBy := Some createdBy;
       Course.updatedAt := now |} in
  if negb (Course_validate doc) then inl ValidationError
  else if Course_index_conflict doc coll then inl E11000
  else inr (doc, coll ++ [doc]).

Definition course_exists : string :=
  "Course with this name or code already exists".

(** POST /api/courses; [user_id] is the calling admin. *)
Definition create_course (user_id : ObjectId) (now : Z) (body : CourseBody)
    (db : Db) : Response Course.t * Db :=
  if negb (validate_course body) then (failure 400 "Validation failed", db)
  else
    let name := trim (cb_name body) in
    let code := trim (cb_code body) in
    match Course_findOne_name_or_code (trim name) (toUpperCase (trim code))
            (courses db) with
    | Some existingCourse => (failure 400 course_exists, db)
    | None =>
        match Course_create now (trim name) (toUpperCase (trim code)) user_id
                (courses db) with
        | inr (course, coll) =>
            (ok 201 "Course created successfully" (Some course),
             set_courses db coll)
        | inl E11000 => (failure 400 course_exists, db)
        | inl _ => (failure 500 "Server error", db)
        end
    end.

(** [req.body] of PUT /api/courses/:id when it carries no description,
    instructor, department or credits; [None] is [undefined]. *)
Record CourseUpdate := {
  cu_name : option string;
  cu_code : option string;
  cu_isActive : option bool
}.

Definition validate_course_update (b : CourseUpdate) : bool :=
  match cu_name b with
  | Some n => (2 <=? String.length (trim n))%nat
              && (String.length (trim n) <=? 100)%nat
  | None => true
  end
  && match cu_code b with
     | Some c => (2 <=? String.length (trim c))%nat
                 && (String.length (trim c) <=? 20)%nat
                 && matches_code (trim c)
     | None => true
     end.

(** A string of the body that is present and truthy (not empty). *)
Definition truthy (o : option string) : option string :=
  match o with
  | Some s => if String.eqb s "" then None else Some s
  | None => None
  end.

(** The name and the code [duplicateQuery] asks for: each when it is given
    and differs from the stored one. *)
Definition duplicate_name (name : option string) (course : Course.t)
  : option string :=
  match truthy name with
  | Some n => if String.eqb (trim n) (Course.name course) then None
              else Some (trim n)
  | None => None
  end.

Definition duplicate_code (code : option string) (course : Course.t)
  : option string :=
  match truthy code with
  | Some c =>
      if String.eqb (toUpperCase (trim c)) (Course.code course) then None
      else Some (toUpperCase (trim c))
  | None => None
  end.

(** [Course.findOne({ _id: { $ne: course._id }, $or: duplicateQuery })]. *)
Definition Course_findOne_duplicate (id : ObjectId) (dn dc : option string)
    (coll : list Course.t) : option Course.t :=
  List.find
    (fun x =>
       negb (N.eqb (Course._id x) id)
       && (match dn with Some n => String.eqb (Course.name x) n | None => false end
           || match dc with Some c => String.eqb (Course.code x) c | None => false end))
    coll.

(** The field update block of PUT, with the setters of the paths. *)
Definition update_course_fields (name code : option string)
    (isActive : option bool) (course : Course.t) : Course.t :=
  {| Course._id := Course._id course;
     Course.name :=
       match truthy name with
       | Some n => trim (trim n)
       | None => Course.name course
       end;
     Course.code :=
       match truthy code with
       | Some c => toUpperCase (trim (toUpperCase (trim c)))
       | None => Course.code course
       end;
     Course.isActive :=
       match isActive with
       | Some b => b
       | None => Course.isActive course
       end;
     Course.description := Course.description course;
     Course.instructor := Course.instructor course;
     Course.department := Course.department course;
     Course.credits := Course.credits course;
     Course.createdBy := Course.createdBy course;
     Course.updatedAt := Course.updatedAt course |}.

(** PUT /api/courses/:id. *)
Definition update_course (id : ObjectId) (now : Z) (body : CourseUpdate)
    (db : Db) : Response Course.t * Db :=
  if negb (validate_course_update body)
  then (failure 400 "Validation failed", db)
  else
    match Course.findById id (courses db) with
    | None => (failure 404 "Course not found", db)
    | Some course =>
        let name := option_map trim (cu_name body) in
        let code := option_map trim (cu_code body) in
        let dn := duplicate_name name course in
        let dc := duplicate_code code course in
        match
          (match dn, dc with
           | None, None => None
           | _, _ =>
               Course_findOne_duplicate (Course._id course) dn dc (courses db)
           end)
        with
        | Some existingCourse => (failure 400 course_exists, db)
        | None =>
            match Course_save now course
                    (update_course_fields name code (cu_isActive body) course)
                    (courses db) with
            | inr (saved, coll) =>
                (ok 200 "Course updated successfully" (Some saved),
                 set_courses db coll)
            | inl E11000 => (failure 400 course_exists, db)
            | inl _ => (failure 500 "Server error", db)
            end
        end
    end.

(* ===================================================================== *)
(** ** The user model: the age virtual *)
(* ===================================================================== *)

(** The components of a JS [Date] the virtual reads: [getFullYear()],
    [getMonth()], [getDate()]. *)
Record CivilDate := {
  cd_year : Z;
  cd_month : Z;
  cd_date : Z
}.

(** [userSchema.virtual('age')]: [None] is [null] (no date of birth). *)
Definition age (today : CivilDate) (dateOfBirth : option CivilDate) : option Z :=
  match dateOfBirth with
  | Some birthDate =>
      let age := cd_year today - cd_year birthDate in
      let monthDiff := cd_month today - cd_month birthDate in
      if (monthDiff <? 0)
         || ((monthDiff =? 0) && (cd_date today <? cd_date birthDate))
      then Some (age - 1)
      else Some age
  | None => None
  end.

(** The order of calendar days. *)
Definition date_le (a b : CivilDate) : Prop :=
  cd_year a < cd_year b
  \/ (cd_year a = cd_year b
      /\ (cd_month a < cd_month b
          \/ (cd_month a = cd_month b /\ cd_date a <= cd_date b))).

(** The anniversary of a date [n] years later. *)
Definition anniversary (d : CivilDate) (n : Z) : CivilDate :=
  {| cd_year := cd_year d + n; cd_month := cd_month d; cd_date := cd_date d |}.

(* ===================================================================== *)
(** ** The routes as one transition system *)
(* ===================================================================== *)

(** A request to one of the writing routes, with the authenticated caller
    where the route reads it. *)
Inductive Request :=
  | SubmitFeedback (user_id : ObjectId) (now : Z) (body : SubmitBody)
  | UpdateFeedback (user_id id : ObjectId) (body : UpdateBody)
  | DeleteFeedback (user_id id : ObjectId)
  | CreateCourse (user_id : ObjectId) (now : Z) (body : CourseBody)
  | UpdateCourse (id : ObjectId) (now : Z) (body : CourseUpdate)
  | DeleteCourse (id : ObjectId)
  | ToggleActive (id : ObjectId) (now : Z)
  | ToggleBlock (user_id id : ObjectId) (now : Z)
  | DeleteStudent (user_id id : ObjectId).

(** The database after the route has answered. *)
Definition handle (db : Db) (r : Request) : Db :=
  match r with
  | SubmitFeedback user_id now body => snd (post_feedback user_id now body db)
  | UpdateFeedback user_id id body => snd (put_feedback user_id id body db)
  | DeleteFeedback user_id id => snd (delete_feedback user_id id db)
  | CreateCourse user_id now body => snd (create_course user_id now body db)
  | UpdateCourse id now body => snd (update_course id now body db)
  | DeleteCourse id => snd (delete_course id db)
  | ToggleActive id now => snd (toggle_active id now db)
  | ToggleBlock user_id id now => snd (toggle_block user_id id now db)
  | DeleteStudent user_id id => snd (delete_student user_id id db)
  end.

(** Requests served one after the other. *)
Definition serve (db : Db) (rs : list Request) : Db := fold_left handle rs db.

(** Every feedback record names a stored course. *)
Definition courses_referenced (db : Db) : Prop :=
  forall f, In f (feedbacks db) ->
    Course.findById (Feedback.course f) (courses db) <> None.

(** The feedback records have distinct ids. *)
Definition feedback_ids_unique (db : Db) : Prop :=
  List.NoDup (map Feedback._id (feedbacks db)).

(** The courses have distinct ids, distinct names and distinct codes. *)
Definition courses_unique (db : Db) : Prop :=
  List.NoDup (map Course._id (courses db))
  /\ List.NoDup (map Course.name (courses db))
  /\ List.NoDup (map Course.code (courses db)).

(** The feedback records of a collection given for one course. *)
Definition of_course (c : ObjectId) (docs : list Feedback.t) : list Feedback.t :=
  List.filter (fun f => N.eqb (Feedback.course f) c) docs.

(** The invariant of the [$group] stage keyed by course after the documents
    [done]: one group per course, each with the count and the ratings of the
    documents of its course, of which there is at least one, and every
    document's course has its group. *)
Definition course_grouped (groups : list CourseGroup) (done : list Feedback.t)
  : Prop :=
  List.NoDup (map cg_course groups)
  /\ (forall g, In g groups ->
        cg_count g = length (of_course (cg_course g) done)
        /\ cg_ratings g = map Feedback.rating (of_course (cg_course g) done)
        /\ (1 <= cg_count g)%nat)
  /\ (forall f, In f done -> In (Feedback.course f) (map cg_course groups)).

(** A run of requests on the sample database: a first submission, an
    update and a delete of feedback, then course and user administration. *)
Definition sample_requests : list Request :=
  [ SubmitFeedback 4 1710000000000 sample_submission;
    UpdateFeedback 2 100 sample_update;
    DeleteFeedback 3 101;
    ToggleActive 12 1710000100000;
    CreateCourse 1 1710000200000
      {| cb_name := "  Machine Learning "; cb_code := "CS501" |};
    UpdateCourse 11 1710000300000
      {| cu_name := Some "Operating Systems II"%string; cu_code := None;
         cu_isActive := Some false |};
    DeleteCourse 12;
    ToggleBlock 1 2 1710000400000;
    DeleteStudent 1 3 ].

(** The sample database with its approved feedback only. *)
Definition sample_approved_db : Db :=
  set_feedbacks sample_db (match_approved sample_feedbacks).

(** A string that is empty or starts with a character that is no
    whitespace. *)
Definition no_leading_space (s : string) : bool :=
  match s with
  | EmptyString => true
  | String a _ => negb (is_whitespace a)
  end.

(** Case analysis on a comparison of two ids. *)
Ltac case_id :=
  match goal with
  | |- context [N.eqb ?a ?b] =>
      let E := fresh "E" in
      destruct (N.eqb a b) eqn:E;
      [apply N.eqb_eq in E | apply N.eqb_neq in E]
  end.

(* ===================================================================== *)
(** ** Statistics: lemmas *)
(* ===================================================================== *)

Section FoldPermutation.

Context {A B : Type} (f : A -> B -> A).
Hypothesis f_comm : forall a x y, f (f a x) y = f (f a y) x.

Lemma fold_left_permutation (l l' : list B) :
  Permutation l l' -> forall a, fold_left f l a = fold_left f l' a.
Proof.
  induction 1 as [| x l l' _ IH | x y l | l l' l'' _ IH1 _ IH2]; intros a; simpl.
  - reflexivity.
  - apply IH.
  - now rewrite f_comm.
  - now rewrite IH1.
Qed.

End FoldPermutation.

Lemma count_rating_comm (m : gmap Z nat) (x y : Z) :
  count_rating (count_rating m x) y = count_rating (count_rating m y) x.
Proof.
  unfold count_rating. apply map_eq. intros k.
  destruct (decide (x = y)) as [-> | Hxy]; [reflexivity |].
  rewrite (lookup_insert_ne _ x y) by assumption.
  rewrite (lookup_insert_ne _ y x) by auto.
  destruct (decide (k = x)) as [Hkx | Hkx]; destruct (decide (k = y)) as [Hky | Hky];
    subst; try congruence;
    repeat first [ rewrite lookup_insert_eq | rewrite lookup_insert_ne by auto ];
    reflexivity.
Qed.

Lemma distribution_permutation (rs rs' : list Z) :
  Permutation rs rs' -> distribution rs = distribution rs'.
Proof.
  intros H. unfold distribution.
  apply (fold_left_permutation count_rating count_rating_comm _ _ H).
Qed.

Lemma sum_ratings_permutation (rs rs' : list Z) :
  Permutation rs rs' -> sum_ratings rs = sum_ratings rs'.
Proof.
  intros H. unfold sum_ratings.
  apply (fold_left_permutation Z.add); [intros; lia | exact H].
Qed.

Lemma mongo_avg_permutation (rs rs' : list Z) :
  Permutation rs rs' -> mongo_avg rs = mongo_avg rs'.
Proof.
  intros H. unfold mongo_avg.
  now rewrite (sum_ratings_permutation _ _ H), (Permutation_length H).
Qed.

(** Counting a rating keeps every key the object already has. *)
Lemma fold_count_rating_keeps (rs : list Z) (m : gmap Z nat) (k : Z) :
  is_Some (m !! k) -> is_Some (fold_left count_rating rs m !! k).
Proof.
  revert m. induction rs as [| r rs IH]; intros m Hk; simpl; [exact Hk |].
  apply IH. unfold count_rating.
  destruct (decide (r = k)) as [-> | Hne].
  - rewrite lookup_insert_eq. eauto.
  - now rewrite lookup_insert_ne.
Qed.

Lemma ratingDist0_keys (k : Z) : 1 <= k <= 5 -> ratingDist0 !! k = Some 0%nat.
Proof.
  intros Hk.
  assert (k = 1 \/ k = 2 \/ k = 3 \/ k = 4 \/ k = 5) as Hc by lia.
  destruct Hc as [-> | [-> | [-> | [-> | ->]]]]; reflexivity.
Qed.

Lemma distribution_keys (rs : list Z) (k : Z) :
  1 <= k <= 5 -> is_Some (distribution rs !! k).
Proof.
  intros Hk. apply fold_count_rating_keeps.
  rewrite ratingDist0_keys by assumption. eauto.
Qed.

Lemma statistics_keys (stats : list GroupAll) (k : Z) :
  1 <= k <= 5 -> is_Some (ratingDistribution (statistics_of stats) !! k).
Proof.
  intros Hk. destruct stats as [| s0 rest]; simpl.
  - rewrite ratingDist0_keys by assumption. eauto.
  - now apply distribution_keys.
Qed.

(** The statistics of a non-empty list of matched ratings. *)
Lemma statistics_of_group_all (rs : list Z) :
  rs <> [] ->
  statistics_of (group_all rs)
  = {| totalFeedback := length rs;
       averageRating := round2 (mongo_avg rs);
       ratingDistribution := distribution rs |}.
Proof. destruct rs; [congruence | reflexivity]. Qed.

(** The [$match] of [getCourseStatistics] keeps exactly the approved records
    of the course. *)
Lemma match_course_approved_In (courseId : ObjectId) (coll : list Feedback.t)
    (f : Feedback.t) :
  In f (Feedback.match_course_approved courseId coll)
  <-> In f coll /\ Feedback.course f = courseId /\ Feedback.status f = approved.
Proof.
  unfold Feedback.match_course_approved. rewrite filter_In, andb_true_iff, N.eqb_eq.
  destruct (Feedback.status f); simpl; intuition congruence.
Qed.

(** Records that are not approved do not reach the statistics of
    [getCourseStatistics]: dropping them from the collection changes
    nothing. *)
Lemma getCourseStatistics_approved_only (courseId : ObjectId)
    (coll : list Feedback.t) :
  Feedback.getCourseStatistics courseId coll
  = Feedback.getCourseStatistics courseId
      (List.filter (fun f => Status_eqb (Feedback.status f) approved) coll).
Proof.
  unfold Feedback.getCourseStatistics, Feedback.aggregate_course_approved,
    Feedback.match_course_approved.
  do 3 f_equal.
  induction coll as [| f coll IH]; simpl; [reflexivity |].
  destruct (Status_eqb (Feedback.status f) approved) eqn:Hs; simpl;
    rewrite ?Hs, ?andb_true_r, ?andb_false_r;
    destruct (N.eqb (Feedback.course f) courseId); simpl; now rewrite IH.
Qed.

(* ===================================================================== *)
(** ** Statistics: the properties *)
(* ===================================================================== *)

(** The structure both methods return for an empty aggregation result. *)
Lemma zero_statistics :
  statistics_of []
  = {| totalFeedback := 0; averageRating := 0%float;
       ratingDistribution :=
         {[ 1 := 0%nat; 2 := 0%nat; 3 := 0%nat; 4 := 0%nat; 5 := 0%nat ]} |}.
Proof. reflexivity. Qed.

(** The float written 3.6 in JS is the binary64 quotient of 36 by 10. *)
Lemma js_3_6 : (0x1.ccccccccccccdp+1 = Z2float 36 / Z2float 10)%float.
Proof. reflexivity. Qed.

(** Two decimals: the ratings 1, 1, 2 average to 1.33. *)
Example round2_example :
  round2 (mongo_avg [1; 1; 2]) = (Z2float 133 / Z2float 100)%float.
Proof. reflexivity. Qed.

(** C2 (the code's side). On a course whose only feedback record is pending,
    the course method [getStatistics] (which GET /api/courses/:id returns)
    counts that record in all three numbers, while the Feedback static
    [getCourseStatistics] counts nothing: the first matches on the course
    alone, the second also on [status: 'approved']. *)
Theorem getStatistics_counts_pending :
  Course.findById 11 sample_courses
  = Some (sample_course 11 "Operating Systems" "CS301" true)
  /\ map Feedback.status (Feedback.match_course 11 sample_feedbacks) = [pending]
  /\ Course.getStatistics
       (sample_course 11 "Operating Systems" "CS301" true) sample_feedbacks
     = {| totalFeedback := 1; averageRating := 5%float;
          ratingDistribution :=
            {[ 1 := 0%nat; 2 := 0%nat; 3 := 0%nat; 4 := 0%nat; 5 := 1%nat ]} |}
  /\ Feedback.getCourseStatistics 11 sample_feedbacks
     = {| totalFeedback := 0; averageRating := 0%float;
          ratingDistribution :=
            {[ 1 := 0%nat; 2 := 0%nat; 3 := 0%nat; 4 := 0%nat; 5 := 0%nat ]} |}.
Proof. repeat split; vm_compute; reflexivity. Qed.

(** C3. When the approved feedback of a course carries the ratings 5, 5, 4,
    3, 1 (in any order, whatever else the collection holds),
    [getCourseStatistics] returns 5 feedback records, the average 3.6 -
    the mean rounded to two decimals by [Math.round(avg * 100) / 100] - and
    the distribution {1:1, 2:0, 3:1, 4:1, 5:2}. *)
Theorem getCourseStatistics_5_5_4_3_1 (courseId : ObjectId)
    (coll : list Feedback.t) :
  Permutation
    (map Feedback.rating (Feedback.match_course_approved courseId coll))
    [5; 5; 4; 3; 1] ->
  Feedback.getCourseStatistics courseId coll
  = {| totalFeedback := 5;
       averageRating := 0x1.ccccccccccccdp+1%float;
       ratingDistribution :=
         {[ 1 := 1%nat; 2 := 0%nat; 3 := 1%nat; 4 := 1%nat; 5 := 2%nat ]} |}.
Proof.
  intros Hperm.
  unfold Feedback.getCourseStatistics, Feedback.aggregate_course_approved.
  set (rs := map Feedback.rating _) in *.
  rewrite statistics_of_group_all.
  - rewrite (Permutation_length Hperm), (mongo_avg_permutation _ _ Hperm),
      (distribution_permutation _ _ Hperm).
    vm_compute. reflexivity.
  - intros Hnil. rewrite Hnil in Hperm.
    apply Permutation_length in Hperm. discriminate.
Qed.

Lemma getCourseStatistics_5_5_4_3_1_witness :
  Feedback.getCourseStatistics 10 sample_feedbacks
  = {| totalFeedback := 5;
       averageRating := 0x1.ccccccccccccdp+1%float;
       ratingDistribution :=
         {[ 1 := 1%nat; 2 := 0%nat; 3 := 1%nat; 4 := 1%nat; 5 := 2%nat ]} |}.
Proof.
  apply getCourseStatistics_5_5_4_3_1. vm_compute. apply Permutation_refl.
Defined.

(** C4. For an existing course none of whose feedback records is approved,
    GET /api/feedback/course/:courseId/stats answers 200 with the zeroed
    structure {totalFeedback: 0, averageRating: 0, ratingDistribution:
    {1:0, 2:0, 3:0, 4:0, 5:0}}; and for every course and collection the
    distribution [getCourseStatistics] returns has all five keys 1..5. *)
Theorem getCourseStatistics_no_approved (db : Db) (courseId : ObjectId)
    (course : Course.t) :
  Course.findById courseId (courses db) = Some course ->
  Feedback.match_course_approved courseId (feedbacks db) = [] ->
  Feedback.getCourseStatistics courseId (feedbacks db)
  = {| totalFeedback := 0; averageRating := 0%float;
       ratingDistribution :=
         {[ 1 := 0%nat; 2 := 0%nat; 3 := 0%nat; 4 := 0%nat; 5 := 0%nat ]} |}
  /\ get_course_stats courseId db
     = ok 200 "" (Some (course, Feedback.getCourseStatistics courseId (feedbacks db)))
  /\ forall (c : ObjectId) (coll : list Feedback.t) (k : Z),
       1 <= k <= 5 ->
       is_Some (ratingDistribution (Feedback.getCourseStatistics c coll) !! k).
Proof.
  intros Hcourse Hnone. repeat split.
  - unfold Feedback.getCourseStatistics, Feedback.aggregate_course_approved.
    rewrite Hnone. reflexivity.
  - unfold get_course_stats. now rewrite Hcourse.
  - intros c coll k Hk. now apply statistics_keys.
Qed.

Lemma getCourseStatistics_no_approved_witness :
  Feedback.getCourseStatistics 11 (feedbacks sample_db)
  = {| totalFeedback := 0; averageRating := 0%float;
       ratingDistribution :=
         {[ 1 := 0%nat; 2 := 0%nat; 3 := 0%nat; 4 := 0%nat; 5 := 0%nat ]} |}.
Proof.
  apply (getCourseStatistics_no_approved sample_db 11
           (sample_course 11 "Operating Systems" "CS301" true));
    reflexivity.
Defined.

(* ===================================================================== *)
(** ** Collections: lookups and write-backs *)
(* ===================================================================== *)

Lemma Feedback_findById_Some (id : ObjectId) (coll : list Feedback.t)
    (f : Feedback.t) :
  Feedback.findById id coll = Some f -> Feedback._id f = id /\ In f coll.
Proof.
  unfold Feedback.findById. intros H. apply find_some in H.
  destruct H as [Hin Heq]. apply N.eqb_eq in Heq. now split.
Qed.


Lemma Feedback_findOne_In (s c : ObjectId) (coll : list Feedback.t)
    (f : Feedback.t) :
  In f coll -> Feedback.student f = s -> Feedback.course f = c ->
  exists g, Feedback.findOne s c coll = Some g.
Proof.
  intros Hin Hs Hc. unfold Feedback.findOne.
  destruct (find _ coll) as [g |] eqn:Hfind; [now exists g |].
  pose proof (find_none _ _ Hfind f Hin) as Hno. simpl in Hno.
  rewrite Hs, Hc, !N.eqb_refl in Hno. discriminate.
Qed.

Lemma Feedback_index_conflict_false (s c : ObjectId) (coll : list Feedback.t) :
  Feedback.findOne s c coll = None -> Feedback.index_conflict s c coll = false.
Proof.
  unfold Feedback.findOne, Feedback.index_conflict.
  induction coll as [| f coll IH]; simpl; [reflexivity |].
  destruct (_ && _); [discriminate | exact IH].
Qed.

Lemma Feedback_findById_replace (doc f : Feedback.t) (coll : list Feedback.t) :
  Feedback.findById (Feedback._id doc) coll = Some f ->
  Feedback.findById (Feedback._id doc) (Feedback.replace doc coll) = Some doc.
Proof.
  unfold Feedback.findById.
  induction coll as [| g coll IH]; simpl; [discriminate |].
  case_id; simpl.
  - now rewrite N.eqb_refl.
  - intros H. apply N.eqb_neq in E. rewrite E. now apply IH.
Qed.


(** Writing back a document whose student and course are those of the
    stored one leaves the list of pairs as it was. *)
Lemma Feedback_replace_pairs (doc f : Feedback.t) (coll : list Feedback.t) :
  Feedback.findById (Feedback._id doc) coll = Some f ->
  student_course doc = student_course f ->
  map student_course (Feedback.replace doc coll) = map student_course coll.
Proof.
  unfold Feedback.findById. intros Hfind Hkey.
  induction coll as [| g coll IH]; simpl in *; [reflexivity |].
  destruct (N.eqb (Feedback._id g) (Feedback._id doc)); simpl.
  - injection Hfind as ->. now rewrite Hkey.
  - f_equal. now apply IH.
Qed.

Lemma Feedback_delete_pairs (id : ObjectId) (coll : list Feedback.t) :
  one_feedback_per_pair coll ->
  one_feedback_per_pair (Feedback.findByIdAndDelete id coll).
Proof.
  unfold one_feedback_per_pair.
  induction coll as [| g coll IH]; simpl; intros Hnd; [exact Hnd |].
  apply List.NoDup_cons_iff in Hnd. destruct Hnd as [Hnotin Hnd].
  destruct (N.eqb (Feedback._id g) id); [exact Hnd |].
  simpl. apply List.NoDup_cons; [| now apply IH].
  intros Hin. apply Hnotin. clear - Hin.
  induction coll as [| h coll IH]; simpl in *; [exact Hin |].
  destruct (N.eqb (Feedback._id h) id); simpl in *; intuition.
Qed.

Lemma pre_save_keeps (isNew ratingModified : bool) (f : Feedback.t) :
  Feedback.pre_save isNew ratingModified f
  = Feedback.set_tags f (Feedback.tags (Feedback.pre_save isNew ratingModified f)).
Proof.
  unfold Feedback.pre_save.
  repeat match goal with
         | |- context [if ?b then _ else _] => destruct b
         end; destruct f; reflexivity.
Qed.


Lemma update_fields_keeps (body : UpdateBody) (f : Feedback.t) :
  let f' := update_fields body f in
  Feedback._id f' = Feedback._id f
  /\ Feedback.student f' = Feedback.student f
  /\ Feedback.course f' = Feedback.course f
  /\ Feedback.status f' = Feedback.status f
  /\ Feedback.createdAt f' = Feedback.createdAt f.
Proof.
  unfold update_fields.
  destruct (ub_rating body) as [r |]; [destruct (r =? 0) |];
    (destruct (ub_message body) as [m |]; [destruct (String.eqb (trim m) "") |]);
    destruct (ub_isAnonymous body); destruct (ub_tags body);
    simpl; repeat split; reflexivity.
Qed.

(** What a successful save of an updated document stores. *)
Lemma Feedback_save_inr (old new saved : Feedback.t)
    (coll coll' : list Feedback.t) :
  Feedback_save old new coll = inr (saved, coll') ->
  saved = Feedback.set_tags new (Feedback.tags saved)
  /\ coll' = Feedback.replace saved coll.
Proof.
  unfold Feedback_save. destruct (negb _); [discriminate |].
  intros H. injection H as <- <-. split; [apply pre_save_keeps | reflexivity].
Qed.

Lemma Course_findById_Some (id : ObjectId) (coll : list Course.t) (c : Course.t) :
  Course.findById id coll = Some c -> Course._id c = id /\ In c coll.
Proof.
  unfold Course.findById. intros H. apply find_some in H.
  destruct H as [Hin Heq]. apply N.eqb_eq in Heq. now split.
Qed.

Lemma Course_findById_replace (doc c : Course.t) (coll : list Course.t) :
  Course.findById (Course._id doc) coll = Some c ->
  Course.findById (Course._id doc) (Course.replace doc coll) = Some doc.
Proof.
  unfold Course.findById.
  induction coll as [| g coll IH]; simpl; [discriminate |].
  case_id; simpl.
  - now rewrite N.eqb_refl.
  - intros H. apply N.eqb_neq in E. rewrite E. now apply IH.
Qed.

Lemma User_findById_Some (id : ObjectId) (coll : list User.t) (u : User.t) :
  User.findById id coll = Some u -> User._id u = id /\ In u coll.
Proof.
  unfold User.findById. intros H. apply find_some in H.
  destruct H as [Hin Heq]. apply N.eqb_eq in Heq. now split.
Qed.


(* ===================================================================== *)
(** ** Feedback lifecycle: the properties *)
(* ===================================================================== *)

(** A submission that is stored carries the submitting student and the
    course of the body. *)
Lemma Feedback_create_pair (now : Z) (s c : ObjectId) (r : Z) (m : string)
    (anon : bool) (ts : list string) (coll coll' : list Feedback.t)
    (doc : Feedback.t) :
  Feedback_create now s c r m anon ts coll = inr (doc, coll') ->
  student_course doc = (s, c) /\ coll' = coll ++ [doc]
  /\ Feedback.index_conflict s c coll = false.
Proof.
  unfold Feedback_create. destruct (negb _); [discriminate |].
  destruct (Feedback.index_conflict s c coll) eqn:Hidx; [discriminate |].
  intros H. injection H as <- <-. repeat split.
  rewrite pre_save_keeps. reflexivity.
Qed.

Lemma index_conflict_pairs (s c : ObjectId) (coll : list Feedback.t) :
  Feedback.index_conflict s c coll = false ->
  ~ In (s, c) (map student_course coll).
Proof.
  unfold Feedback.index_conflict. intros H Hin.
  apply in_map_iff in Hin. destruct Hin as [f [Hkey Hf]].
  assert (existsb (fun f => N.eqb (Feedback.student f) s && N.eqb (Feedback.course f) c)
            coll = true) as Hex.
  { apply existsb_exists. exists f. split; [exact Hf |].
    unfold student_course in Hkey. injection Hkey as -> ->.
    now rewrite !N.eqb_refl. }
  congruence.
Qed.

(** POST keeps the collection free of a second record for a pair, on every
    database and body. *)
Lemma post_feedback_one_per_pair (db : Db) (user_id : ObjectId) (now : Z)
    (body : SubmitBody) :
  one_feedback_per_pair (feedbacks db) ->
  one_feedback_per_pair (feedbacks (snd (post_feedback user_id now body db))).
Proof.
  intros Hinv. unfold post_feedback.
  destruct (negb (validate_submit body)); [exact Hinv |].
  destruct (Course.findById _ _) as [courseDoc |]; [| exact Hinv].
  destruct (negb (Course.isActive courseDoc)); [exact Hinv |].
  destruct (Feedback.findOne _ _ _); [exact Hinv |].
  destruct (Feedback_create _ _ _ _ _ _ _ _) as [[] | [doc coll']] eqn:Hcreate;
    try exact Hinv.
  apply Feedback_create_pair in Hcreate.
  destruct Hcreate as [Hkey [-> Hidx]]. simpl.
  unfold one_feedback_per_pair in *. rewrite map_app. simpl.
  apply (Permutation_NoDup (Permutation_cons_append _ _)).
  apply List.NoDup_cons; [| exact Hinv].
  rewrite Hkey. now apply index_conflict_pairs.
Qed.

(** PUT and DELETE keep it too. *)
Lemma put_feedback_one_per_pair (db : Db) (user_id id : ObjectId)
    (body : UpdateBody) :
  one_feedback_per_pair (feedbacks db) ->
  one_feedback_per_pair (feedbacks (snd (put_feedback user_id id body db))).
Proof.
  intros Hinv. unfold put_feedback.
  destruct (negb (validate_update body)); [exact Hinv |].
  destruct (Feedback.findById id _) as [feedback |] eqn:Hfind; [| exact Hinv].
  destruct (negb _); [exact Hinv |].
  destruct (Feedback_save _ _ _) as [e | [saved coll']] eqn:Hsave; [exact Hinv |].
  apply Feedback_save_inr in Hsave. destruct Hsave as [Hsaved ->]. simpl.
  destruct (Feedback_findById_Some _ _ _ Hfind) as [Hid _].
  destruct (update_fields_keeps body feedback) as [Hi [Hs [Hc _]]].
  unfold one_feedback_per_pair in *.
  rewrite (Feedback_replace_pairs saved feedback); [exact Hinv | |].
  - rewrite Hsaved. simpl. rewrite Hi, Hid. exact Hfind.
  - rewrite Hsaved. unfold student_course. simpl. now rewrite Hs, Hc.
Qed.

Lemma delete_feedback_one_per_pair (db : Db) (user_id id : ObjectId) :
  one_feedback_per_pair (feedbacks db) ->
  one_feedback_per_pair (feedbacks (snd (delete_feedback user_id id db))).
Proof.
  intros Hinv. unfold delete_feedback.
  destruct (Feedback.findById id _); [| exact Hinv].
  destruct (negb _); [exact Hinv |].
  simpl. now apply Feedback_delete_pairs.
Qed.

(** C1. On every database and for every submission, POST /api/feedback
    leaves at most one feedback record per (student, course) pair when
    there was at most one. When a record of the submitting student for the
    course of the body exists, the submission fails and the database stays
    as it was, whatever the body; and a valid submission - the body passes
    the validators and names a stored, active course, the preconditions the
    route checks first - is refused with the duplicate error (status 400,
    "You have already submitted feedback for this course"). *)
Theorem post_feedback_duplicate (db : Db) (user_id : ObjectId) (now : Z)
    (body : SubmitBody) :
  (one_feedback_per_pair (feedbacks db) ->
   one_feedback_per_pair (feedbacks (snd (post_feedback user_id now body db))))
  /\ (forall existing : Feedback.t,
        In existing (feedbacks db) ->
        Feedback.student existing = user_id ->
        Feedback.course existing = sb_course body ->
        success (fst (post_feedback user_id now body db)) = false
        /\ snd (post_feedback user_id now body db) = db
        /\ (forall courseDoc : Course.t,
              validate_submit body = true ->
              Course.findById (sb_course body) (courses db) = Some courseDoc ->
              Course.isActive courseDoc = true ->
              fst (post_feedback user_id now body db)
              = failure 400 "You have already submitted feedback for this course")).
Proof.
  split; [apply post_feedback_one_per_pair |].
  intros existing Hin Hs Hc.
  destruct (Feedback_findOne_In user_id (sb_course body) _ existing Hin Hs Hc)
    as [g Hg].
  unfold post_feedback. rewrite Hg. repeat split.
  - destruct (negb (validate_submit body)); [reflexivity |].
    destruct (Course.findById _ _) as [courseDoc |]; [| reflexivity].
    now destruct (negb (Course.isActive courseDoc)).
  - destruct (negb (validate_submit body)); [reflexivity |].
    destruct (Course.findById _ _) as [courseDoc |]; [| reflexivity].
    now destruct (negb (Course.isActive courseDoc)).
  - intros courseDoc Hvalid Hcourse Hactive.
    now rewrite Hvalid, Hcourse, Hactive.
Qed.

Lemma post_feedback_duplicate_witness :
  post_feedback 2 1710000000000 sample_resubmission sample_db
  = (failure 400 "You have already submitted feedback for this course", sample_db).
Proof.
  destruct (proj2 (post_feedback_duplicate sample_db 2 1710000000000
                     sample_resubmission)
              (sample_feedback 100 2 10 5 approved ["positive"%string] 1700000000000))
    as [_ [Hdb Hfst]].
  - simpl. left. reflexivity.
  - reflexivity.
  - reflexivity.
  - rewrite (surjective_pairing (post_feedback _ _ _ _)), Hdb.
    rewrite (Hfst (sample_course 10 "Introduction to Computer Science" "CS101"
                     true));
      reflexivity.
Defined.

(** A first submission is stored: student 4 has no record for course 11; the
    new record is appended with status approved and the automatic tag. *)
Example post_feedback_created :
  let '(res, db') := post_feedback 4 1710000000000 sample_submission sample_db in
  code res = 201%nat
  /\ feedbacks db'
     = sample_feedbacks
       ++ [ {| Feedback._id := 107; Feedback.student := 4; Feedback.course := 11;
               Feedback.rating := 3;
               Feedback.message := "Average course, the labs need more time.";
               Feedback.isAnonymous := true;
               Feedback.tags := ["neutral"%string];
               Feedback.status := approved;
               Feedback.moderatorNotes := None;
               Feedback.createdAt := 1710000000000 |} ].
Proof. vm_compute. split; reflexivity. Qed.

(** A body that fails validation is answered 400 whoever sends it, and
    nothing is written. *)
Lemma put_feedback_invalid (db : Db) (user_id id : ObjectId) (body : UpdateBody) :
  validate_update body = false ->
  put_feedback user_id id body db = (failure 400 "Validation failed", db).
Proof. intros H. unfold put_feedback. now rewrite H. Qed.

(** C6 (the claim as stated fails). The non-owner 3 sends an update of
    record 100, which student 2 owns, with the rating 9: the validators of
    the route run before the ownership test and the answer is 400
    "Validation failed", not 403. *)
Lemma non_owner_invalid_body :
  Feedback.findById 100 (feedbacks sample_db)
  = Some (sample_feedback 100 2 10 5 approved ["positive"%string] 1700000000000)
  /\ N.eqb
       (Feedback.student
          (sample_feedback 100 2 10 5 approved ["positive"%string] 1700000000000))
       3
     = false
  /\ put_feedback 3 100 sample_invalid_update sample_db
     = (failure 400 "Validation failed", sample_db).
Proof. repeat split. Qed.

(** C6 (amended). A student who is not the owner of a feedback record
    cannot change it: an update attempt fails and leaves the database, this
    record included, as it was, whatever the body; the answer is 403 when
    the body passes the validators of the route and 400 "Validation failed"
    when it does not; a delete attempt is answered 403 and the record stays
    stored. *)
Theorem non_owner_forbidden (db : Db) (user_id id : ObjectId)
    (body : UpdateBody) (feedback : Feedback.t) :
  Feedback.findById id (feedbacks db) = Some feedback ->
  Feedback.student feedback <> user_id ->
  success (fst (put_feedback user_id id body db)) = false
  /\ snd (put_feedback user_id id body db) = db
  /\ (validate_update body = true ->
      fst (put_feedback user_id id body db)
      = failure 403 "Not authorized to update this feedback")
  /\ (validate_update body = false ->
      fst (put_feedback user_id id body db) = failure 400 "Validation failed")
  /\ delete_feedback user_id id db
     = (failure 403 "Not authorized to delete this feedback", db)
  /\ Feedback.findById id (feedbacks (snd (delete_feedback user_id id db)))
     = Some feedback.
Proof.
  intros Hfind Hne.
  assert (N.eqb (Feedback.student feedback) user_id = false) as Hneq
    by now apply N.eqb_neq.
  assert (delete_feedback user_id id db
          = (failure 403 "Not authorized to delete this feedback", db)) as Hdel.
  { unfold delete_feedback. now rewrite Hfind, Hneq. }
  rewrite Hdel. unfold put_feedback. rewrite Hfind, Hneq.
  repeat split; try (now destruct (negb (validate_update body))); try exact Hfind.
  - intros Hvalid. now rewrite Hvalid.
  - intros Hvalid. now rewrite Hvalid.
Qed.

Lemma non_owner_forbidden_witness :
  put_feedback 3 100 sample_update sample_db
  = (failure 403 "Not authorized to update this feedback", sample_db)
  /\ delete_feedback 3 100 sample_db
     = (failure 403 "Not authorized to delete this feedback", sample_db).
Proof.
  destruct (non_owner_forbidden sample_db 3 100 sample_update
              (sample_feedback 100 2 10 5 approved ["positive"%string] 1700000000000))
    as [_ [Hdb [Hput [_ [Hdel _]]]]].
  - reflexivity.
  - simpl. lia.
  - split; [| exact Hdel].
    rewrite (surjective_pairing (put_feedback _ _ _ _)), Hdb, Hput; reflexivity.
Defined.



(* ===================================================================== *)
(** ** The automatic sentiment tag *)
(* ===================================================================== *)

Lemma includes_snoc (x : string) (arr : list string) :
  includes x (arr ++ [x]) = true.
Proof.
  unfold includes. rewrite existsb_app. simpl.
  rewrite String.eqb_refl. now rewrite orb_true_r.
Qed.


Lemma set_tags_same (f : Feedback.t) : Feedback.set_tags f (Feedback.tags f) = f.
Proof. destruct f; reflexivity. Qed.

(** A save that neither creates the record nor changes its rating leaves
    the tags alone. *)
Lemma pre_save_untouched (f : Feedback.t) : Feedback.pre_save false false f = f.
Proof. reflexivity. Qed.

(** The hook in terms of [sentiment_tag]. *)
Lemma pre_save_sentiment_tag (isNew ratingModified : bool) (f : Feedback.t) :
  ratingModified || isNew = true ->
  Feedback.pre_save isNew ratingModified f
  = Feedback.set_tags f
      (if includes (sentiment_tag (Feedback.rating f)) (Feedback.tags f)
       then Feedback.tags f
       else Feedback.tags f ++ [sentiment_tag (Feedback.rating f)]).
Proof.
  intros Hsave. unfold Feedback.pre_save, sentiment_tag. rewrite Hsave.
  destruct (4 <=? Feedback.rating f); [| destruct (Feedback.rating f <=? 2)];
    destruct (includes _ (Feedback.tags f)); simpl;
    now rewrite ?set_tags_same.
Qed.

(** C9. On a save that creates the record or changes its rating, the hook
    leaves every field but the tags alone; the new tags are the old ones,
    followed by the sentiment tag of the rating (positive if rating >= 4,
    needs-improvement if rating <= 2, else neutral) when the old ones do
    not hold it, and by nothing otherwise. So at most one tag is appended,
    the sentiment tag of the rating is present afterwards, and every tag
    that was there - a sentiment tag of another bucket too - is still
    there. *)
Theorem pre_save_appends_sentiment (isNew ratingModified : bool)
    (f : Feedback.t) :
  ratingModified || isNew = true ->
  let tag := sentiment_tag (Feedback.rating f) in
  let f' := Feedback.pre_save isNew ratingModified f in
  f' = Feedback.set_tags f (Feedback.tags f')
  /\ Feedback.tags f'
     = (if includes tag (Feedback.tags f)
        then Feedback.tags f
        else Feedback.tags f ++ [tag])
  /\ includes tag (Feedback.tags f') = true
  /\ (forall t, In t (Feedback.tags f) -> In t (Feedback.tags f'))
  /\ (forall t, t <> tag ->
        count_occ string_dec (Feedback.tags f') t
        = count_occ string_dec (Feedback.tags f) t).
Proof.
  intros Hsave tag f'. subst f'.
  rewrite (pre_save_sentiment_tag _ _ _ Hsave). fold tag. simpl.
  destruct (includes tag (Feedback.tags f)) eqn:Hinc; repeat split; auto.
  - apply includes_snoc.
  - intros t Hin. apply in_or_app. now left.
  - intros t Hne. rewrite count_occ_app. simpl.
    destruct (string_dec tag t); [congruence | lia].
Qed.

Lemma pre_save_appends_sentiment_witness :
  Feedback.tags
    (Feedback.pre_save false true
       (sample_feedback 100 2 10 1 approved ["positive"%string] 1700000000000))
  = ["positive"%string; "needs-improvement"%string].
Proof.
  destruct (pre_save_appends_sentiment false true
              (sample_feedback 100 2 10 1 approved ["positive"%string] 1700000000000))
    as [_ [Htags _]].
  - reflexivity.
  - rewrite Htags. reflexivity.
Defined.

(** Through the route: the owner lowers the rating of record 100 from 5 to
    1 and sends no tags; the stored tags keep "positive" and gain
    "needs-improvement". *)
Example put_feedback_keeps_stale_tag :
  (Feedback.tags <$>
     Feedback.findById 100
       (feedbacks (snd (put_feedback 2 100 sample_update sample_db))))
  = Some ["positive"%string; "needs-improvement"%string].
Proof. reflexivity. Qed.

(* ===================================================================== *)
(** ** Guarded delete and the toggles *)
(* ===================================================================== *)

Lemma Course_validate_set_isActive (c : Course.t) (b : bool) :
  Course_validate (Course.set_isActive c b) = Course_validate c.
Proof. reflexivity. Qed.

(** An update that leaves name and code as they are meets no unique
    index. *)
Lemma Course_update_conflict_same (old new : Course.t) (coll : list Course.t) :
  Course.name new = Course.name old ->
  Course.code new = Course.code old ->
  Course_update_conflict old new coll = false.
Proof.
  intros Hn Hc. unfold Course_update_conflict. rewrite Hn, Hc, !String.eqb_refl.
  apply not_true_iff_false. intros H. apply existsb_exists in H.
  destruct H as [x [_ Hx]]. cbn [negb andb orb] in Hx.
  now rewrite andb_false_r in Hx.
Qed.

(** One toggle of a stored course. *)
Lemma toggle_active_once (db : Db) (id : ObjectId) (now : Z) (course : Course.t) :
  Course.findById id (courses db) = Some course ->
  toggle_active id now db
  = if Course_validate course
    then
      let saved :=
        Course.set_updatedAt
          (Course.set_isActive course (negb (Course.isActive course))) now in
      (ok 200
         (if Course.isActive course then "Course deactivated successfully"
          else "Course activated successfully")
         (Some saved),
       set_courses db (Course.replace saved (courses db)))
    else (failure 500 "Server error", db).
Proof.
  intros Hfind. unfold toggle_active, Course_save. rewrite Hfind.
  rewrite Course_validate_set_isActive.
  destruct (Course_validate course); [| reflexivity]. cbn [negb].
  rewrite Course_update_conflict_same by reflexivity.
  unfold Course_modified. cbn [Course.set_isActive Course.name Course.code
                               Course.isActive].
  rewrite !String.eqb_refl. cbn [andb].
  now destruct (Course.isActive course).
Qed.












(* ===================================================================== *)
(** ** Monthly trends *)
(* ===================================================================== *)

Lemma in_month_iff (y m : Z) (f : Feedback.t) :
  in_month y m f = true <-> year_month (Feedback.createdAt f) = (y, m).
Proof.
  unfold in_month. destruct (year_month (Feedback.createdAt f)) as [y' m'].
  simpl. rewrite andb_true_iff, !Z.eqb_eq. split.
  - intros [-> ->]. reflexivity.
  - intros H. injection H as -> ->. now split.
Qed.

Lemma same_month_iff (y m : Z) (g : MonthGroup) :
  same_month y m g = true <-> month_key g = (y, m).
Proof.
  unfold same_month, month_key. rewrite andb_true_iff, !Z.eqb_eq. split.
  - intros [-> ->]. reflexivity.
  - intros H. injection H as -> ->. now split.
Qed.

Lemma existsb_same_month (y m : Z) (groups : list MonthGroup) :
  existsb (same_month y m) groups = true <-> In (y, m) (map month_key groups).
Proof.
  rewrite existsb_exists, in_map_iff. split.
  - intros [g [Hin Hsame]]. exists g. split; [now apply same_month_iff | exact Hin].
  - intros [g [Hkey Hin]]. exists g. split; [exact Hin | now apply same_month_iff].
Qed.

(** The keys after one document: the same ones when its month has a group,
    one more, at the end, when it has none. *)
Lemma group_add_keys (y m r : Z) (groups : list MonthGroup) :
  map month_key (group_add y m r groups)
  = if existsb (same_month y m) groups
    then map month_key groups
    else map month_key groups ++ [(y, m)].
Proof.
  induction groups as [| g groups IH]; simpl; [reflexivity |].
  destruct (same_month y m g) eqn:Hsame; simpl; [reflexivity |].
  rewrite IH. now destruct (existsb _ groups).
Qed.

(** Where a group of the result comes from. *)
Lemma group_add_In (y m r : Z) (groups : list MonthGroup) (g' : MonthGroup) :
  List.NoDup (map month_key groups) ->
  In g' (group_add y m r groups) ->
  (In g' groups /\ month_key g' <> (y, m))
  \/ (month_key g' = (y, m)
      /\ ((~ In (y, m) (map month_key groups) /\ mg_count g' = 1%nat)
          \/ exists g, In g groups /\ month_key g = (y, m)
                       /\ mg_count g' = S (mg_count g))).
Proof.
  induction groups as [| g groups IH]; simpl; intros Hnd Hin.
  - destruct Hin as [<- | []]. right. split; [reflexivity |]. left. auto.
  - apply List.NoDup_cons_iff in Hnd. destruct Hnd as [Hfresh Hnd].
    destruct (same_month y m g) eqn:Hsame.
    + apply same_month_iff in Hsame. destruct Hin as [<- | Hin].
      * right. split; [exact Hsame |]. right. exists g. auto.
      * left. split; [now right |]. intros Hkey. apply Hfresh.
        rewrite Hsame, <- Hkey. now apply in_map.
    + assert (month_key g <> (y, m)) as Hne.
      { intros Hkey. apply same_month_iff in Hkey. congruence. }
      destruct Hin as [<- | Hin]; [left; auto |].
      destruct (IH Hnd Hin) as [[Hold Hkey] | [Hkey [[Hnew Hone] | [g0 [Hg0 [Hk0 Hc0]]]]]].
      * left. auto.
      * right. split; [exact Hkey |]. left. split; [| exact Hone].
        intros [Heq | Hin']; [congruence | exact (Hnew Hin')].
      * right. split; [exact Hkey |]. right. exists g0. auto.
Qed.

Lemma filter_length_snoc {A : Type} (p : A -> bool) (l : list A) (x : A) :
  length (List.filter p (l ++ [x]))
  = (length (List.filter p l) + (if p x then 1 else 0))%nat.
Proof.
  rewrite List.filter_app, length_app. simpl. now destruct (p x).
Qed.

Lemma filter_none {A : Type} (p : A -> bool) (l : list A) :
  (forall x, In x l -> p x = false) -> List.filter p l = [].
Proof.
  induction l as [| x l IH]; simpl; intros H; [reflexivity |].
  rewrite (H x) by now left. apply IH. intros y Hy. apply H. now right.
Qed.

(** One more document keeps the invariant. *)
Lemma grouped_step (groups : list MonthGroup) (done : list Feedback.t)
    (f : Feedback.t) :
  grouped groups done ->
  grouped
    (let '(y, m) := year_month (Feedback.createdAt f) in
     group_add y m (Feedback.rating f) groups)
    (done ++ [f]).
Proof.
  intros [Hnd [Hcount Hcover]].
  destruct (year_month (Feedback.createdAt f)) as [y m] eqn:Hym.
  assert (in_month y m f = true) as Hf by now apply in_month_iff.
  repeat split.
  - rewrite group_add_keys.
    destruct (existsb (same_month y m) groups) eqn:Hex; [exact Hnd |].
    apply (Permutation_NoDup (Permutation_cons_append _ _)).
    apply List.NoDup_cons; [| exact Hnd].
    intros Hin. apply existsb_same_month in Hin. congruence.
  - rewrite filter_length_snoc.
    destruct (group_add_In _ _ _ _ _ Hnd H)
      as [[Hold Hkey] | [Hkey [[Hnew Hone] | [g0 [Hg0 [Hk0 Hc0]]]]]].
    + destruct (Hcount g Hold) as [-> _].
      destruct (in_month (mg_year g) (mg_month g) f) eqn:Hin; [| lia].
      apply in_month_iff in Hin. unfold month_key in Hkey. congruence.
    + unfold month_key in Hkey. injection Hkey as -> ->.
      rewrite Hf, Hone, filter_none; [reflexivity |].
      intros f0 Hf0. destruct (in_month y m f0) eqn:Hin; [| reflexivity].
      apply in_month_iff in Hin. exfalso. apply Hnew.
      rewrite <- Hin. now apply Hcover.
    + unfold month_key in Hkey, Hk0. injection Hkey as -> ->.
      injection Hk0 as Hy Hm. destruct (Hcount g0 Hg0) as [Hc _].
      rewrite Hf, Hc0, Hc, Hy, Hm. lia.
  - destruct (group_add_In _ _ _ _ _ Hnd H)
      as [[Hold _] | [_ [[_ Hone] | [g0 [_ [_ Hc0]]]]]].
    + now apply Hcount.
    + lia.
    + lia.
  - intros f0 Hin. rewrite group_add_keys.
    apply in_app_or in Hin. destruct Hin as [Hin | [<- | []]].
    + destruct (existsb _ groups); [| apply in_or_app; left]; now apply Hcover.
    + rewrite Hym.
      destruct (existsb (same_month y m) groups) eqn:Hex.
      * now apply existsb_same_month.
      * apply in_or_app. right. now left.
Qed.

Lemma grouped_fold (docs done : list Feedback.t) (groups : list MonthGroup) :
  grouped groups done ->
  grouped
    (fold_left
       (fun groups f =>
          let '(y, m) := year_month (Feedback.createdAt f) in
          group_add y m (Feedback.rating f) groups)
       docs groups)
    (done ++ docs).
Proof.
  revert done groups.
  induction docs as [| f docs IH]; intros done groups Hinv; simpl.
  - now rewrite app_nil_r.
  - replace (done ++ f :: docs) with ((done ++ [f]) ++ docs)
      by now rewrite <- app_assoc.
    apply IH. now apply grouped_step.
Qed.

Lemma group_by_month_grouped (docs : list Feedback.t) :
  grouped (group_by_month docs) docs.
Proof.
  apply (grouped_fold docs [] []). repeat split.
  - constructor.
  - destruct H.
  - destruct H.
  - intros f [].
Qed.

Lemma sort_insert_In (g x : MonthGroup) (sorted : list MonthGroup) :
  In x (sort_insert g sorted) <-> x = g \/ In x sorted.
Proof.
  induction sorted as [| h sorted IH]; simpl; [intuition |].
  destruct (month_leb g h); simpl; [intuition | rewrite IH; intuition].
Qed.

Lemma sort_months_In (x : MonthGroup) (groups : list MonthGroup) :
  In x (sort_months groups) <-> In x groups.
Proof.
  induction groups as [| g groups IH]; simpl; [reflexivity |].
  rewrite sort_insert_In, IH. intuition.
Qed.

Lemma filter_filter_and {A : Type} (p q : A -> bool) (l : list A) :
  List.filter p (List.filter q l) = List.filter (fun x => q x && p x) l.
Proof.
  induction l as [| x l IH]; simpl; [reflexivity |].
  destruct (q x); simpl; [destruct (p x) |]; now rewrite IH.
Qed.

(** C5. Every element of [monthlyTrends] stands for a month (its label is
    that of some year and month) and its count is the number of feedback
    records created in that month at or after the start of the window, which
    is at least 1: a month of the window without feedback records has no
    element. *)
Theorem monthlyTrends_count_positive (sixMonthsAgo : Z)
    (feedback : list Feedback.t) :
  Forall
    (fun e =>
       exists y m,
         Trend.month e = month_label y m
         /\ Trend.count e = length (created_in_month sixMonthsAgo y m feedback)
         /\ (1 <= Trend.count e)%nat)
    (monthlyTrends sixMonthsAgo feedback).
Proof.
  apply List.Forall_forall. intros e He.
  unfold monthlyTrends in He. apply in_map_iff in He.
  destruct He as [g [<- Hg]]. apply (proj1 (sort_months_In _ _)) in Hg.
  destruct (group_by_month_grouped
              (List.filter (fun f => sixMonthsAgo <=? Feedback.createdAt f) feedback))
    as [_ [Hcount _]].
  destruct (Hcount g Hg) as [Hc Hpos].
  exists (mg_year g), (mg_month g). simpl. repeat split.
  - rewrite Hc. unfold created_in_month. now rewrite filter_filter_and.
  - exact Hpos.
Qed.

(** The other direction: every feedback record of the window has the
    element of its month. *)
Lemma monthlyTrends_covers (sixMonthsAgo : Z) (feedback : list Feedback.t)
    (f : Feedback.t) :
  In f feedback ->
  sixMonthsAgo <= Feedback.createdAt f ->
  exists e, In e (monthlyTrends sixMonthsAgo feedback)
            /\ Trend.month e
               = month_label (fst (year_month (Feedback.createdAt f)))
                   (snd (year_month (Feedback.createdAt f))).
Proof.
  intros Hin Hwin.
  destruct (group_by_month_grouped
              (List.filter (fun f => sixMonthsAgo <=? Feedback.createdAt f) feedback))
    as [_ [_ Hcover]].
  assert (In f (List.filter (fun f => sixMonthsAgo <=? Feedback.createdAt f) feedback))
    as Hf by (apply filter_In; split; [exact Hin | now apply Z.leb_le]).
  apply Hcover in Hf. apply in_map_iff in Hf. destruct Hf as [g [Hkey Hg]].
  exists (project_month g). split.
  - unfold monthlyTrends. apply in_map. now apply (proj2 (sort_months_In _ _)).
  - unfold month_key in Hkey. rewrite <- Hkey. reflexivity.
Qed.

Example monthlyTrends_sample :
  map (fun e => (Trend.month e, Trend.count e))
    (monthlyTrends 1695000000000 sample_feedbacks)
  = [("2023-11"%string, 2%nat); ("2023-12"%string, 1%nat);
     ("2024-01"%string, 2%nat); ("2024-02"%string, 1%nat)].
Proof. vm_compute. reflexivity. Qed.

(* ===================================================================== *)
(** ** What the statistics count *)
(* ===================================================================== *)

(** The count the object holds for a rating, 0 for an absent key. *)
Lemma fold_count_rating_lookup (rs : list Z) (m : gmap Z nat) (k : Z) :
  default 0%nat (fold_left count_rating rs m !! k)
  = (default 0%nat (m !! k) + count_occ Z.eq_dec rs k)%nat.
Proof.
  revert m. induction rs as [| r rs IH]; intros m; simpl; [lia |].
  rewrite IH. unfold count_rating.
  destruct (Z.eq_dec r k) as [-> | Hne].
  - rewrite lookup_insert_eq. simpl. lia.
  - now rewrite lookup_insert_ne.
Qed.

Lemma distribution_lookup (rs : list Z) (k : Z) :
  1 <= k <= 5 ->
  distribution rs !! k = Some (count_occ Z.eq_dec rs k).
Proof.
  intros Hk. destruct (distribution_keys rs k Hk) as [n Hn].
  pose proof (fold_count_rating_lookup rs ratingDist0 k) as H.
  fold (distribution rs) in H. rewrite Hn, ratingDist0_keys in H by assumption.
  simpl in H. now rewrite Hn, H.
Qed.

Lemma count_occ_ratings (docs : list Feedback.t) (k : Z) :
  count_occ Z.eq_dec (map Feedback.rating docs) k
  = length (List.filter (fun f => Feedback.rating f =? k) docs).
Proof.
  induction docs as [| f docs IH]; simpl; [reflexivity |].
  destruct (Z.eq_dec (Feedback.rating f) k) as [-> | Hne].
  - rewrite Z.eqb_refl. simpl. now rewrite IH.
  - apply Z.eqb_neq in Hne. now rewrite Hne.
Qed.

(** What [statistics_of] makes of the ratings of the matched documents. *)
Lemma statistics_of_counts (docs : list Feedback.t) :
  totalFeedback (statistics_of (group_all (map Feedback.rating docs)))
  = length docs
  /\ forall k, 1 <= k <= 5 ->
       ratingDistribution (statistics_of (group_all (map Feedback.rating docs))) !! k
       = Some (length (List.filter (fun f => Feedback.rating f =? k) docs)).
Proof.
  destruct docs as [| f docs].
  - split; [reflexivity |]. intros k Hk. simpl. now apply ratingDist0_keys.
  - rewrite statistics_of_group_all by discriminate. simpl. split.
    + now rewrite length_map.
    + intros k Hk.
      rewrite (distribution_lookup (Feedback.rating f :: map Feedback.rating docs) k Hk).
      f_equal. apply (count_occ_ratings (f :: docs) k).
Qed.

(** X1. [getCourseStatistics] counts the approved feedback records of the
    course: totalFeedback is their number, and for each rating 1..5 the
    distribution holds the number of them with that rating. *)
Theorem getCourseStatistics_counts (courseId : ObjectId)
    (coll : list Feedback.t) :
  totalFeedback (Feedback.getCourseStatistics courseId coll)
  = length (Feedback.match_course_approved courseId coll)
  /\ forall k, 1 <= k <= 5 ->
       ratingDistribution (Feedback.getCourseStatistics courseId coll) !! k
       = Some
           (length
              (List.filter (fun f => Feedback.rating f =? k)
                 (Feedback.match_course_approved courseId coll))).
Proof.
  unfold Feedback.getCourseStatistics, Feedback.aggregate_course_approved.
  apply statistics_of_counts.
Qed.

Lemma count_occ_1_5 (rs : list Z) :
  Forall (fun r => 1 <= r <= 5) rs ->
  (count_occ Z.eq_dec rs 1%Z + count_occ Z.eq_dec rs 2%Z + count_occ Z.eq_dec rs 3%Z
   + count_occ Z.eq_dec rs 4%Z + count_occ Z.eq_dec rs 5%Z)%nat
  = length rs.
Proof.
  induction 1 as [| r rs Hr _ IH]; simpl; [reflexivity |].
  assert (r = 1 \/ r = 2 \/ r = 3 \/ r = 4 \/ r = 5) as Hc by lia.
  destruct Hc as [-> | [-> | [-> | [-> | ->]]]]; simpl; lia.
Qed.

(** X2. When the approved records of the course carry ratings of 1..5 (as
    the schema demands), the five buckets of the distribution
    [getCourseStatistics] returns add up to its totalFeedback. *)
Theorem getCourseStatistics_buckets_total (courseId : ObjectId)
    (coll : list Feedback.t) :
  Forall (fun f => 1 <= Feedback.rating f <= 5)
    (Feedback.match_course_approved courseId coll) ->
  let s := Feedback.getCourseStatistics courseId coll in
  (default 0 (ratingDistribution s !! 1%Z) + default 0 (ratingDistribution s !! 2%Z)
   + default 0 (ratingDistribution s !! 3%Z) + default 0 (ratingDistribution s !! 4%Z)
   + default 0 (ratingDistribution s !! 5%Z))%nat
  = totalFeedback s.
Proof.
  intros Hrange s. subst s.
  unfold Feedback.getCourseStatistics, Feedback.aggregate_course_approved.
  set (matched := Feedback.match_course_approved courseId coll) in *.
  destruct matched as [| f docs]; [reflexivity |].
  rewrite statistics_of_group_all by discriminate.
  cbn [totalFeedback ratingDistribution].
  rewrite !distribution_lookup by lia. cbn [default].
  apply (count_occ_1_5 (map Feedback.rating (f :: docs))).
  apply List.Forall_forall. intros r Hr. apply in_map_iff in Hr.
  destruct Hr as [g [<- Hg]].
  exact (proj1 (List.Forall_forall _ _) Hrange g Hg).
Qed.

Lemma getCourseStatistics_buckets_total_witness :
  let s := Feedback.getCourseStatistics 10 sample_feedbacks in
  (default 0 (ratingDistribution s !! 1%Z) + default 0 (ratingDistribution s !! 2%Z)
   + default 0 (ratingDistribution s !! 3%Z) + default 0 (ratingDistribution s !! 4%Z)
   + default 0 (ratingDistribution s !! 5%Z))%nat
  = 5%nat.
Proof.
  apply (getCourseStatistics_buckets_total 10 sample_feedbacks).
  vm_compute. repeat constructor; discriminate.
Defined.

(** X3. GET /api/users/stats answers 200 with the statistics of the
    caller's own feedback records of every status: totalFeedback is the
    number of records of that student, and for each rating 1..5 the
    distribution holds the number of them with that rating. *)
Theorem get_user_stats_counts (user_id : ObjectId) (db : Db) :
  exists s : Statistics,
    get_user_stats user_id db = ok 200 "" (Some s)
    /\ totalFeedback s
       = length
           (List.filter (fun f => N.eqb (Feedback.student f) user_id)
              (feedbacks db))
    /\ forall k, 1 <= k <= 5 ->
         ratingDistribution s !! k
         = Some
             (length
                (List.filter
                   (fun f =>
                      N.eqb (Feedback.student f) user_id
                      && (Feedback.rating f =? k))
                   (feedbacks db))).
Proof.
  eexists. split; [reflexivity |].
  destruct (statistics_of_counts
              (List.filter (fun f => N.eqb (Feedback.student f) user_id)
                 (feedbacks db))) as [Htotal Hdist].
  split; [exact Htotal |].
  intros k Hk. rewrite (Hdist k Hk). now rewrite filter_filter_and.
Qed.

(* ===================================================================== *)
(** ** Grouping by course: the overall statistics and the top courses *)
(* ===================================================================== *)

Lemma course_group_add_keys (c : ObjectId) (r : Z) (groups : list CourseGroup) :
  map cg_course (course_group_add c r groups)
  = if existsb (fun g => N.eqb (cg_course g) c) groups
    then map cg_course groups
    else map cg_course groups ++ [c].
Proof.
  induction groups as [| g groups IH]; simpl; [reflexivity |].
  destruct (N.eqb (cg_course g) c) eqn:Hsame; simpl; [reflexivity |].
  rewrite IH. now destruct (existsb _ groups).
Qed.

Lemma existsb_course (c : ObjectId) (groups : list CourseGroup) :
  existsb (fun g => N.eqb (cg_course g) c) groups = true
  <-> In c (map cg_course groups).
Proof.
  rewrite existsb_exists, in_map_iff. split.
  - intros [g [Hin Hsame]]. exists g. split; [now apply N.eqb_eq | exact Hin].
  - intros [g [Hkey Hin]]. exists g. split; [exact Hin | now apply N.eqb_eq].
Qed.

(** Where a group of the result comes from. *)
Lemma course_group_add_In (c : ObjectId) (r : Z) (groups : list CourseGroup)
    (g' : CourseGroup) :
  List.NoDup (map cg_course groups) ->
  In g' (course_group_add c r groups) ->
  (In g' groups /\ cg_course g' <> c)
  \/ (cg_course g' = c
      /\ ((~ In c (map cg_course groups)
           /\ cg_count g' = 1%nat /\ cg_ratings g' = [r])
          \/ exists g, In g groups /\ cg_course g = c
                       /\ cg_count g' = S (cg_count g)
                       /\ cg_ratings g' = cg_ratings g ++ [r])).
Proof.
  induction groups as [| g groups IH]; simpl; intros Hnd Hin.
  - destruct Hin as [<- | []]. right. split; [reflexivity |]. left. auto.
  - apply List.NoDup_cons_iff in Hnd. destruct Hnd as [Hfresh Hnd].
    destruct (N.eqb (cg_course g) c) eqn:Hsame.
    + apply N.eqb_eq in Hsame. destruct Hin as [<- | Hin].
      * right. split; [exact Hsame |]. right. exists g. auto.
      * left. split; [now right |]. intros Hkey. apply Hfresh.
        rewrite Hsame, <- Hkey. now apply in_map.
    + apply N.eqb_neq in Hsame.
      destruct Hin as [<- | Hin]; [left; auto |].
      destruct (IH Hnd Hin)
        as [[Hold Hkey] | [Hkey [[Hnew Hone] | [g0 [Hg0 [Hk0 Hc0]]]]]].
      * left. auto.
      * right. split; [exact Hkey |]. left. split; [| exact Hone].
        intros [Heq | Hin']; [congruence | exact (Hnew Hin')].
      * right. split; [exact Hkey |]. right. exists g0. auto.
Qed.

Lemma of_course_snoc (c : ObjectId) (docs : list Feedback.t) (f : Feedback.t) :
  of_course c (docs ++ [f])
  = of_course c docs ++ (if N.eqb (Feedback.course f) c then [f] else []).
Proof.
  unfold of_course. rewrite List.filter_app. simpl.
  now destruct (N.eqb (Feedback.course f) c).
Qed.

Lemma course_grouped_step (groups : list CourseGroup) (done : list Feedback.t)
    (f : Feedback.t) :
  course_grouped groups done ->
  course_grouped
    (course_group_add (Feedback.course f) (Feedback.rating f) groups)
    (done ++ [f]).
Proof.
  intros [Hnd [Hcount Hcover]].
  split; [| split].
  - rewrite course_group_add_keys.
    destruct (existsb _ groups) eqn:Hex; [exact Hnd |].
    apply (Permutation_NoDup (Permutation_cons_append _ _)).
    apply List.NoDup_cons; [| exact Hnd].
    intros Hin. apply existsb_course in Hin. congruence.
  - intros g' Hg'. rewrite of_course_snoc.
    destruct (course_group_add_In _ _ _ _ Hnd Hg')
      as [[Hold Hkey] | [Hkey [[Hnew [Hone Hrs]] | [g0 [Hg0 [Hk0 [Hc0 Hr0]]]]]]].
    + destruct (Hcount g' Hold) as [Hc [Hr Hpos]].
      assert (N.eqb (Feedback.course f) (cg_course g') = false) as ->
        by (apply N.eqb_neq; congruence).
      rewrite app_nil_r. auto.
    + rewrite Hkey, N.eqb_refl.
      assert (of_course (Feedback.course f) done = []) as ->.
      { apply filter_none. intros f0 Hf0.
        destruct (N.eqb (Feedback.course f0) (Feedback.course f)) eqn:E;
          [| reflexivity].
        apply N.eqb_eq in E. exfalso. apply Hnew. rewrite <- E. now apply Hcover. }
      simpl. rewrite Hone, Hrs. auto.
    + destruct (Hcount g0 Hg0) as [Hc [Hr Hpos]].
      rewrite Hkey, N.eqb_refl, length_app, map_app. simpl.
      rewrite Hc0, Hr0, Hc, Hr, Hk0. repeat split; [lia | lia].
  - intros f0 Hin. rewrite course_group_add_keys.
    apply in_app_or in Hin. destruct Hin as [Hin | [<- | []]].
    + destruct (existsb _ groups); [| apply in_or_app; left]; now apply Hcover.
    + destruct (existsb _ groups) eqn:Hex.
      * now apply existsb_course.
      * apply in_or_app. right. now left.
Qed.

Lemma course_grouped_fold (docs done : list Feedback.t)
    (groups : list CourseGroup) :
  course_grouped groups done ->
  course_grouped
    (fold_left
       (fun groups f =>
          course_group_add (Feedback.course f) (Feedback.rating f) groups)
       docs groups)
    (done ++ docs).
Proof.
  revert done groups.
  induction docs as [| f docs IH]; intros done groups Hinv; simpl.
  - now rewrite app_nil_r.
  - replace (done ++ f :: docs) with ((done ++ [f]) ++ docs)
      by now rewrite <- app_assoc.
    apply IH. now apply course_grouped_step.
Qed.

Lemma group_by_course_grouped (docs : list Feedback.t) :
  course_grouped (group_by_course docs) docs.
Proof.
  apply (course_grouped_fold docs [] []). split; [constructor | split].
  - intros g [].
  - intros f [].
Qed.

(** The counts of the groups add up to the number of documents. *)
Lemma course_group_add_sum (c : ObjectId) (r : Z) (groups : list CourseGroup) :
  list_sum (map cg_count (course_group_add c r groups))
  = S (list_sum (map cg_count groups)).
Proof.
  induction groups as [| g groups IH]; simpl; [reflexivity |].
  destruct (N.eqb (cg_course g) c); simpl; [reflexivity |].
  rewrite IH. lia.
Qed.

Lemma group_by_course_sum (docs : list Feedback.t) :
  list_sum (map cg_count (group_by_course docs)) = length docs.
Proof.
  unfold group_by_course.
  assert (forall groups,
            list_sum
              (map cg_count
                 (fold_left
                    (fun groups f =>
                       course_group_add (Feedback.course f) (Feedback.rating f)
                         groups) docs groups))
            = (list_sum (map cg_count groups) + length docs)%nat) as H.
  { induction docs as [| f docs IH]; intros groups; simpl; [lia |].
    rewrite IH, course_group_add_sum. lia. }
  now rewrite H.
Qed.

Lemma group_by_course_length (docs : list Feedback.t) :
  length (group_by_course docs)
  = length (nodup N.eq_dec (map Feedback.course docs)).
Proof.
  destruct (group_by_course_grouped docs) as [Hnd [Hcount Hcover]].
  rewrite <- (length_map cg_course).
  apply Permutation_length, Permutation.NoDup_Permutation;
    [exact Hnd | apply List.NoDup_nodup |].
  intros c. rewrite List.nodup_In. split.
  - intros Hin. apply in_map_iff in Hin. destruct Hin as [g [<- Hg]].
    destruct (Hcount g Hg) as [Hc [_ Hpos]].
    destruct (of_course (cg_course g) docs) as [| f rest] eqn:Hof;
      [simpl in Hc; lia |].
    assert (In f (of_course (cg_course g) docs)) as Hf by (rewrite Hof; now left).
    apply filter_In in Hf. destruct Hf as [Hf Heq]. apply N.eqb_eq in Heq.
    apply in_map_iff. now exists f.
  - intros Hin. apply in_map_iff in Hin. destruct Hin as [f [<- Hf]].
    now apply Hcover.
Qed.

Lemma sum_ratings_of_nat (ns : list nat) :
  sum_ratings (map Z.of_nat ns) = Z.of_nat (list_sum ns).
Proof.
  unfold sum_ratings.
  assert (forall a, fold_left Z.add (map Z.of_nat ns) a = a + Z.of_nat (list_sum ns))
    as H.
  { induction ns as [| n ns IH]; intros a; simpl; [lia |]. rewrite IH. lia. }
  now rewrite H.
Qed.

(** X4. [getOverallStatistics] counts the approved feedback records of all
    courses: totalFeedback is their number and for each rating 1..5 the
    distribution holds the number of them with that rating; with no
    approved record every number is 0 (and the five buckets are there). *)
Theorem getOverallStatistics_counts (coll : list Feedback.t) :
  let o := Feedback_getOverallStatistics coll in
  ov_totalFeedback o = length (match_approved coll)
  /\ (forall k, 1 <= k <= 5 ->
        ov_ratingDistribution o !! k
        = Some
            (length
               (List.filter (fun f => Feedback.rating f =? k)
                  (match_approved coll))))
  /\ (match_approved coll = [] ->
      o = {| ov_totalFeedback := 0; ov_averageRating := 0%float;
             ov_ratingDistribution := ratingDist0; ov_totalCourses := 0;
             ov_avgFeedbackPerCourse := 0%float |}).
Proof.
  intros o. subst o. unfold Feedback_getOverallStatistics.
  destruct (statistics_of_counts (match_approved coll)) as [Htotal Hdist].
  split; [| split].
  - rewrite <- Htotal. now destruct (group_all _).
  - intros k Hk. rewrite <- (Hdist k Hk). now destruct (group_all _).
  - intros ->. reflexivity.
Qed.

(** X5. In [getOverallStatistics], totalCourses is the number of distinct
    courses that have an approved feedback record, it is at most
    totalFeedback, and with at least one approved record
    avgFeedbackPerCourse is totalFeedback / totalCourses in binary64,
    rounded to two decimals by [Math.round(x * 100) / 100]. *)
Theorem getOverallStatistics_courses (coll : list Feedback.t) :
  let o := Feedback_getOverallStatistics coll in
  ov_totalCourses o
  = length (nodup N.eq_dec (map Feedback.course (match_approved coll)))
  /\ (ov_totalCourses o <= ov_totalFeedback o)%nat
  /\ (match_approved coll <> [] ->
      (1 <= ov_totalCourses o)%nat
      /\ ov_avgFeedbackPerCourse o
         = round2
             (Z2float (Z.of_nat (ov_totalFeedback o))
              / Z2float (Z.of_nat (ov_totalCourses o)))%float).
Proof.
  intros o. subst o. unfold Feedback_getOverallStatistics.
  set (docs := match_approved coll).
  pose proof (group_by_course_length docs) as Hlen.
  pose proof (group_by_course_sum docs) as Hsum.
  destruct (group_by_course_grouped docs) as [_ [Hcount _]].
  assert (length (group_by_course docs) <= length docs)%nat as Hle.
  { rewrite <- Hsum. clear - Hcount.
    induction (group_by_course docs) as [| g gs IH]; simpl; [lia |].
    destruct (Hcount g (or_introl eq_refl)) as [_ [_ Hpos]].
    assert (length gs <= list_sum (map cg_count gs))%nat
      by (apply IH; intros g' Hg'; apply Hcount; now right).
    lia. }
  assert (ov_total : match group_all (map Feedback.rating docs) with
                     | [] => 0%nat
                     | s0 :: _ => g_totalFeedback s0
                     end = length docs).
  { destruct docs; simpl; [reflexivity | now rewrite length_map]. }
  cbn [ov_totalCourses ov_totalFeedback ov_avgFeedbackPerCourse].
  rewrite ov_total.
  destruct (group_by_course docs) as [| g gs] eqn:Hgs.
  - simpl in *. split; [exact Hlen | split; [lia |]].
    intros Hne. destruct docs; [congruence | simpl in Hsum; lia].
  - cbn [group_course_totals ct_totalCourses ct_avgFeedbackPerCourse].
    split; [exact Hlen | split; [exact Hle |]].
    intros _. split; [simpl; lia |].
    unfold mongo_avg. rewrite length_map.
    rewrite <- (map_map cg_count Z.of_nat), sum_ratings_of_nat, Hsum.
    reflexivity.
Qed.

Lemma top_insert_In (x e : TopCourse) (sorted : list TopCourse) :
  In e (top_insert x sorted) <-> e = x \/ In e sorted.
Proof.
  induction sorted as [| h sorted IH]; simpl; [intuition |].
  destruct (tc_feedbackCount h <=? tc_feedbackCount x)%nat; simpl;
    [intuition | rewrite IH; intuition].
Qed.

Lemma sort_top_In (e : TopCourse) (l : list TopCourse) :
  In e (sort_top l) <-> In e l.
Proof.
  induction l as [| x l IH]; simpl; [reflexivity |].
  rewrite top_insert_In, IH. intuition.
Qed.

Lemma top_insert_sorted (x : TopCourse) (sorted : list TopCourse) :
  StronglySorted (fun a b => (tc_feedbackCount b <= tc_feedbackCount a)%nat) sorted ->
  StronglySorted (fun a b => (tc_feedbackCount b <= tc_feedbackCount a)%nat)
    (top_insert x sorted).
Proof.
  induction 1 as [| h rest Hsorted IH Hall]; simpl.
  - constructor; constructor.
  - destruct (tc_feedbackCount h <=? tc_feedbackCount x)%nat eqn:Hcmp.
    + apply Nat.leb_le in Hcmp. constructor; [now constructor |].
      constructor; [exact Hcmp |].
      apply List.Forall_forall. intros e He.
      pose proof (proj1 (List.Forall_forall _ _) Hall e He). simpl in *. lia.
    + apply Nat.leb_gt in Hcmp. constructor; [exact IH |].
      apply List.Forall_forall. intros e He. apply top_insert_In in He.
      destruct He as [-> | He]; [lia |].
      exact (proj1 (List.Forall_forall _ _) Hall e He).
Qed.

Lemma sort_top_sorted (l : list TopCourse) :
  StronglySorted (fun a b => (tc_feedbackCount b <= tc_feedbackCount a)%nat)
    (sort_top l).
Proof.
  induction l as [| x l IH]; simpl; [constructor | now apply top_insert_sorted].
Qed.

Lemma StronglySorted_firstn {A : Type} (R : A -> A -> Prop) (n : nat)
    (l : list A) :
  StronglySorted R l -> StronglySorted R (firstn n l).
Proof.
  intros H. revert n. induction H as [| h rest Hsorted IH Hall]; intros n.
  - rewrite firstn_nil. constructor.
  - destruct n as [| n]; simpl; [constructor |].
    constructor; [apply IH |].
    apply List.Forall_forall. intros e He.
    apply (proj1 (List.Forall_forall _ _) Hall).
    rewrite <- (firstn_skipn n rest). apply in_or_app. now left.
Qed.

Lemma StronglySorted_firstn_skipn {A : Type} (R : A -> A -> Prop) (n : nat)
    (l : list A) (a b : A) :
  StronglySorted R l -> In a (firstn n l) -> In b (skipn n l) -> R a b.
Proof.
  intros H. revert n. induction H as [| h rest Hsorted IH Hall]; intros n Ha Hb.
  - rewrite firstn_nil in Ha. destruct Ha.
  - destruct n as [| n]; simpl in *; [destruct Ha |].
    destruct Ha as [<- | Ha].
    + apply (proj1 (List.Forall_forall _ _) Hall).
      rewrite <- (firstn_skipn n rest). apply in_or_app. now right.
    + now apply (IH n).
Qed.

Lemma lookup_unwind_In (courses : list Course.t) (groups : list CourseGroup)
    (e : TopCourse) :
  In e (flat_map (lookup_unwind courses) groups)
  <-> exists g c,
        In g groups /\ In c courses /\ Course._id c = cg_course g
        /\ e = {| tc_courseId := cg_course g;
                  tc_courseName := Course.name c;
                  tc_courseCode := Course.code c;
                  tc_feedbackCount := cg_count g;
                  tc_averageRating := mongo_round2 (mongo_avg (cg_ratings g)) |}.
Proof.
  rewrite in_flat_map. unfold lookup_unwind. split.
  - intros [g [Hg He]]. apply in_map_iff in He. destruct He as [c [<- Hc]].
    apply filter_In in Hc. destruct Hc as [Hc Hid]. apply N.eqb_eq in Hid.
    exists g, c. auto.
  - intros [g [c [Hg [Hc [Hid ->]]]]]. exists g. split; [exact Hg |].
    apply in_map_iff. exists c. split; [reflexivity |].
    apply filter_In. split; [exact Hc | now apply N.eqb_eq].
Qed.

(** X6. The dashboard's topCourses has at most 5 elements, in descending
    order of feedbackCount; every element stands for a stored course (its
    id, name and code) that has approved feedback, and its feedbackCount is
    the number of approved feedback records of that course. *)
Theorem topCourses_shape (db : Db) :
  (length (topCourses db) <= 5)%nat
  /\ StronglySorted
       (fun a b => (tc_feedbackCount b <= tc_feedbackCount a)%nat)
       (topCourses db)
  /\ Forall
       (fun e =>
          (1 <= tc_feedbackCount e)%nat
          /\ tc_feedbackCount e
             = length (of_course (tc_courseId e) (match_approved (feedbacks db)))
          /\ exists c, In c (courses db)
                       /\ Course._id c = tc_courseId e
                       /\ Course.name c = tc_courseName e
                       /\ Course.code c = tc_courseCode e)
       (topCourses db).
Proof.
  unfold topCourses. split; [apply firstn_le_length | split].
  - apply StronglySorted_firstn, sort_top_sorted.
  - apply List.Forall_forall. intros e He.
    assert (In e (sort_top
                    (flat_map (lookup_unwind (courses db))
                       (group_by_course (match_approved (feedbacks db))))))
      as He' by (rewrite <- (firstn_skipn 5 _); apply in_or_app; now left).
    apply (proj1 (sort_top_In _ _)), (proj1 (lookup_unwind_In _ _ _)) in He'.
    destruct He' as [g [c [Hg [Hc [Hid ->]]]]]. simpl.
    destruct (group_by_course_grouped (match_approved (feedbacks db)))
      as [_ [Hcount _]].
    destruct (Hcount g Hg) as [Hn [_ Hpos]].
    repeat split; [exact Hpos | exact Hn |]. exists c. auto.
Qed.

(** X7. No course is left out of topCourses in favour of one with less
    feedback: a stored course with n >= 1 approved feedback records is in the
    list with feedbackCount n, or the list is full (5 elements) and each of
    its elements has a feedbackCount of at least n. *)
Theorem topCourses_top (db : Db) (c : Course.t) (n : nat) :
  In c (courses db) ->
  length (of_course (Course._id c) (match_approved (feedbacks db))) = n ->
  (1 <= n)%nat ->
  (exists e, In e (topCourses db)
             /\ tc_courseId e = Course._id c
             /\ tc_courseName e = Course.name c
             /\ tc_courseCode e = Course.code c
             /\ tc_feedbackCount e = n)
  \/ (length (topCourses db) = 5%nat
      /\ forall e, In e (topCourses db) -> (n <= tc_feedbackCount e)%nat).
Proof.
  intros Hc Hn Hpos. unfold topCourses.
  set (docs := match_approved (feedbacks db)) in *.
  set (full := sort_top (flat_map (lookup_unwind (courses db)) (group_by_course docs))).
  destruct (group_by_course_grouped docs) as [_ [Hcount Hcover]].
  destruct (of_course (Course._id c) docs) as [| f rest] eqn:Hof;
    [simpl in Hn; lia |].
  assert (In f (of_course (Course._id c) docs)) as Hf by (rewrite Hof; now left).
  apply filter_In in Hf. destruct Hf as [Hf Hfc]. apply N.eqb_eq in Hfc.
  pose proof (Hcover f Hf) as Hkey. rewrite Hfc in Hkey.
  apply in_map_iff in Hkey. destruct Hkey as [g [Hgc Hg]].
  destruct (Hcount g Hg) as [Hgn _]. rewrite Hgc, Hof, Hn in Hgn.
  set (x := {| tc_courseId := cg_course g;
               tc_courseName := Course.name c;
               tc_courseCode := Course.code c;
               tc_feedbackCount := cg_count g;
               tc_averageRating := mongo_round2 (mongo_avg (cg_ratings g)) |}).
  assert (In x full) as Hx.
  { apply (proj2 (sort_top_In _ _)), (proj2 (lookup_unwind_In _ _ _)).
    exists g, c. auto. }
  rewrite <- (firstn_skipn 5 full) in Hx. apply in_app_or in Hx.
  destruct Hx as [Hx | Hx].
  - left. exists x. simpl. auto.
  - right. split.
    + assert (5 < length full)%nat as Hlen.
      { destruct (Nat.lt_ge_cases 5 (length full)) as [Hlt | Hge]; [exact Hlt |].
        rewrite skipn_all2 in Hx by lia. destruct Hx. }
      rewrite length_firstn. lia.
    + intros e He.
      pose proof (StronglySorted_firstn_skipn _ 5 full e x
                    (sort_top_sorted _) He Hx) as Hle.
      simpl in Hle. lia.
Qed.

Lemma topCourses_top_witness :
  exists e, In e (topCourses sample_db)
            /\ tc_courseId e = 10%N
            /\ tc_courseName e = "Introduction to Computer Science"%string
            /\ tc_courseCode e = "CS101"%string
            /\ tc_feedbackCount e = 5%nat.
Proof.
  destruct (topCourses_top sample_db
              (sample_course 10 "Introduction to Computer Science" "CS101" true) 5)
    as [Hin | [Hfull _]].
  - simpl. left. reflexivity.
  - reflexivity.
  - lia.
  - exact Hin.
  - vm_compute in Hfull. discriminate.
Defined.

(* ===================================================================== *)
(** ** Monthly trends: order and totals *)
(* ===================================================================== *)

Lemma sort_insert_perm (g : MonthGroup) (sorted : list MonthGroup) :
  Permutation (sort_insert g sorted) (g :: sorted).
Proof.
  induction sorted as [| h sorted IH]; simpl; [reflexivity |].
  destruct (month_leb g h); [reflexivity |].
  rewrite IH. apply perm_swap.
Qed.

Lemma sort_months_perm (groups : list MonthGroup) :
  Permutation (sort_months groups) groups.
Proof.
  induction groups as [| g groups IH]; simpl; [reflexivity |].
  rewrite sort_insert_perm. now constructor.
Qed.

Lemma month_leb_trans (a b c : MonthGroup) :
  month_leb a b = true -> month_leb b c = true -> month_leb a c = true.
Proof.
  unfold month_leb. rewrite !orb_true_iff, !andb_true_iff, !Z.ltb_lt,
    !Z.eqb_eq, !Z.leb_le. lia.
Qed.

Lemma month_leb_total (a b : MonthGroup) :
  month_leb a b = false -> month_leb b a = true.
Proof.
  unfold month_leb. rewrite orb_false_iff, andb_false_iff, orb_true_iff,
    andb_true_iff, !Z.ltb_lt, !Z.ltb_ge, !Z.eqb_eq, !Z.eqb_neq, Z.leb_le, Z.leb_gt.
  lia.
Qed.

Lemma sort_insert_sorted (g : MonthGroup) (sorted : list MonthGroup) :
  StronglySorted (fun a b => month_leb a b = true) sorted ->
  StronglySorted (fun a b => month_leb a b = true) (sort_insert g sorted).
Proof.
  induction 1 as [| h rest Hsorted IH Hall]; simpl.
  - constructor; constructor.
  - destruct (month_leb g h) eqn:Hcmp.
    + constructor; [now constructor |]. constructor; [exact Hcmp |].
      apply List.Forall_forall. intros e He.
      apply (month_leb_trans g h e Hcmp).
      exact (proj1 (List.Forall_forall _ _) Hall e He).
    + constructor; [exact IH |].
      apply List.Forall_forall. intros e He.
      apply (proj1 (sort_insert_In _ _ _)) in He.
      destruct He as [-> | He]; [now apply month_leb_total |].
      exact (proj1 (List.Forall_forall _ _) Hall e He).
Qed.

Lemma sort_months_sorted (groups : list MonthGroup) :
  StronglySorted (fun a b => month_leb a b = true) (sort_months groups).
Proof.
  induction groups as [| g groups IH]; simpl;
    [constructor | now apply sort_insert_sorted].
Qed.

(** Sorted groups with distinct keys have strictly increasing keys. *)
Lemma sorted_keys_increasing (groups : list MonthGroup) :
  StronglySorted (fun a b => month_leb a b = true) groups ->
  List.NoDup (map month_key groups) ->
  StronglySorted
    (fun a b : Z * Z => fst a < fst b \/ (fst a = fst b /\ snd a < snd b))
    (map month_key groups).
Proof.
  induction 1 as [| h rest Hsorted IH Hall]; simpl; intros Hnd; [constructor |].
  apply List.NoDup_cons_iff in Hnd. destruct Hnd as [Hfresh Hnd].
  constructor; [now apply IH |].
  apply List.Forall_forall. intros k Hk.
  apply in_map_iff in Hk. destruct Hk as [e [<- He]].
  pose proof (proj1 (List.Forall_forall _ _) Hall e He) as Hle.
  assert (month_key e <> month_key h) as Hne.
  { intros Heq. apply Hfresh. rewrite <- Heq. now apply in_map. }
  unfold month_leb in Hle. unfold month_key in *. simpl.
  rewrite orb_true_iff, andb_true_iff, Z.ltb_lt, Z.eqb_eq, Z.leb_le in Hle.
  destruct (Z.eq_dec (mg_month h) (mg_month e)) as [Hm | Hm]; [| lia].
  destruct (Z.eq_dec (mg_year h) (mg_year e)) as [Hy | Hy]; [| lia].
  exfalso. apply Hne. now rewrite Hm, Hy.
Qed.

(** X8. The elements of monthlyTrends are in chronological order, one per
    month: their labels are the labels of a strictly increasing list of
    (year, month) pairs. *)
Theorem monthlyTrends_chronological (sixMonthsAgo : Z)
    (feedback : list Feedback.t) :
  exists months : list (Z * Z),
    map Trend.month (monthlyTrends sixMonthsAgo feedback)
    = map (fun ym => month_label (fst ym) (snd ym)) months
    /\ StronglySorted
         (fun a b : Z * Z => fst a < fst b \/ (fst a = fst b /\ snd a < snd b))
         months.
Proof.
  set (docs := List.filter (fun f => sixMonthsAgo <=? Feedback.createdAt f) feedback).
  exists (map month_key (sort_months (group_by_month docs))). split.
  - unfold monthlyTrends. fold docs. rewrite !map_map. reflexivity.
  - apply sorted_keys_increasing; [apply sort_months_sorted |].
    destruct (group_by_month_grouped docs) as [Hnd _].
    apply (Permutation_NoDup (l := map month_key (group_by_month docs)));
      [| exact Hnd].
    apply Permutation_map. symmetry. apply sort_months_perm.
Qed.

Lemma group_add_sum (y m r : Z) (groups : list MonthGroup) :
  list_sum (map mg_count (group_add y m r groups))
  = S (list_sum (map mg_count groups)).
Proof.
  induction groups as [| g groups IH]; simpl; [reflexivity |].
  destruct (same_month y m g); simpl; [reflexivity |].
  rewrite IH. lia.
Qed.

Lemma group_by_month_sum (docs : list Feedback.t) :
  list_sum (map mg_count (group_by_month docs)) = length docs.
Proof.
  unfold group_by_month.
  assert (forall groups,
            list_sum
              (map mg_count
                 (fold_left
                    (fun groups f =>
                       let '(y, m) := year_month (Feedback.createdAt f) in
                       group_add y m (Feedback.rating f) groups) docs groups))
            = (list_sum (map mg_count groups) + length docs)%nat) as H.
  { induction docs as [| f docs IH]; intros groups; simpl; [lia |].
    rewrite IH. destruct (year_month (Feedback.createdAt f)) as [y m].
    rewrite group_add_sum. lia. }
  now rewrite H.
Qed.

(** X9. The counts of monthlyTrends add up to the number of feedback
    records created at or after the start of the window: every such record
    is counted in exactly one month, the older ones in none. *)
Theorem monthlyTrends_total (sixMonthsAgo : Z) (feedback : list Feedback.t) :
  list_sum (map Trend.count (monthlyTrends sixMonthsAgo feedback))
  = length
      (List.filter (fun f => sixMonthsAgo <=? Feedback.createdAt f) feedback).
Proof.
  unfold monthlyTrends. rewrite map_map. simpl.
  rewrite <- group_by_month_sum.
  apply Permutation_list_sum, Permutation_map, sort_months_perm.
Qed.

(** X10. Every feedback record created at or after the start of the window
    has the element of its month in monthlyTrends. *)
Theorem monthlyTrends_has_month (sixMonthsAgo : Z) (feedback : list Feedback.t)
    (f : Feedback.t) :
  In f feedback ->
  sixMonthsAgo <= Feedback.createdAt f ->
  exists e, In e (monthlyTrends sixMonthsAgo feedback)
            /\ Trend.month e
               = month_label (fst (year_month (Feedback.createdAt f)))
                   (snd (year_month (Feedback.createdAt f)))
            /\ (1 <= Trend.count e)%nat.
Proof.
  intros Hin Hwin.
  destruct (group_by_month_grouped
              (List.filter (fun f => sixMonthsAgo <=? Feedback.createdAt f) feedback))
    as [_ [Hcount Hcover]].
  assert (In f (List.filter (fun f => sixMonthsAgo <=? Feedback.createdAt f) feedback))
    as Hf by (apply filter_In; split; [exact Hin | now apply Z.leb_le]).
  apply Hcover in Hf. apply in_map_iff in Hf. destruct Hf as [g [Hkey Hg]].
  exists (project_month g). split; [| split].
  - unfold monthlyTrends. apply in_map. now apply (proj2 (sort_months_In _ _)).
  - unfold month_key in Hkey. rewrite <- Hkey. reflexivity.
  - exact (proj2 (Hcount g Hg)).
Qed.

Lemma monthlyTrends_has_month_witness :
  exists e, In e (monthlyTrends 1695000000000 sample_feedbacks)
            /\ Trend.month e = "2024-02"%string
            /\ (1 <= Trend.count e)%nat.
Proof.
  apply (monthlyTrends_has_month 1695000000000 sample_feedbacks
           (sample_feedback 105 7 10 2 pending ["needs-improvement"%string]
              1707000000000)).
  - simpl. do 5 right. left. reflexivity.
  - simpl. lia.
Defined.

(* ===================================================================== *)
(** ** What each writing route does to the database *)
(* ===================================================================== *)

(** POST /api/feedback either leaves the database as it was or appends one
    document: the one [Feedback.create] builds, which passed the validators,
    for a stored active course and a pair without a record. *)
Lemma post_feedback_db (user_id : ObjectId) (now : Z) (body : SubmitBody)
    (db : Db) :
  (snd (post_feedback user_id now body db) = db
   /\ success (fst (post_feedback user_id now body db)) = false)
  \/ exists (doc : Feedback.t) (courseDoc : Course.t),
       snd (post_feedback user_id now body db)
       = set_feedbacks db (feedbacks db ++ [Feedback.pre_save true true doc])
       /\ fst (post_feedback user_id now body db)
          = ok 201 "Feedback submitted successfully"
              (Some (Feedback.pre_save true true doc))
       /\ doc = {| Feedback._id := Feedback.fresh_id (feedbacks db);
                   Feedback.student := user_id;
                   Feedback.course := sb_course body;
                   Feedback.rating := sb_rating body;
                   Feedback.message := trim (trim (sb_message body));
                   Feedback.isAnonymous := default false (sb_isAnonymous body);
                   Feedback.tags := Feedback.cast_tags (default [] (sb_tags body));
                   Feedback.status := approved;
                   Feedback.moderatorNotes := None;
                   Feedback.createdAt := now |}
       /\ Feedback.validate doc = true
       /\ validate_submit body = true
       /\ Course.findById (sb_course body) (courses db) = Some courseDoc
       /\ Course.isActive courseDoc = true
       /\ Feedback.findOne user_id (sb_course body) (feedbacks db) = None.
Proof.
  unfold post_feedback.
  destruct (validate_submit body) eqn:Hvalid; simpl; [| now left].
  destruct (Course.findById _ _) as [courseDoc |] eqn:Hcourse; [| now left].
  destruct (Course.isActive courseDoc) eqn:Hactive; simpl; [| now left].
  destruct (Feedback.findOne _ _ _) eqn:Hone; [now left |].
  unfold Feedback_create.
  destruct (Feedback.validate _) eqn:Hdoc; simpl; [| now left].
  rewrite (Feedback_index_conflict_false _ _ _ Hone). simpl.
  right. eexists. exists courseDoc. repeat split; eauto.
Qed.

(** PUT /api/feedback/:id either leaves the database as it was or writes
    back the stored document of that id, owned by the caller, with the
    fields of the body and the tags of the hook. *)
Lemma put_feedback_db (user_id id : ObjectId) (body : UpdateBody) (db : Db) :
  snd (put_feedback user_id id body db) = db
  \/ exists (feedback saved : Feedback.t),
       Feedback.findById id (feedbacks db) = Some feedback
       /\ Feedback.student feedback = user_id
       /\ validate_update body = true
       /\ Feedback.validate (update_fields body feedback) = true
       /\ saved
          = Feedback.pre_save false
              (negb (Feedback.rating (update_fields body feedback)
                     =? Feedback.rating feedback))
              (update_fields body feedback)
       /\ fst (put_feedback user_id id body db)
          = ok 200 "Feedback updated successfully" (Some saved)
       /\ snd (put_feedback user_id id body db)
          = set_feedbacks db (Feedback.replace saved (feedbacks db)).
Proof.
  unfold put_feedback.
  destruct (validate_update body) eqn:Hvalid; simpl; [| now left].
  destruct (Feedback.findById id _) as [feedback |] eqn:Hfind; [| now left].
  destruct (N.eqb (Feedback.student feedback) user_id) eqn:Howner; simpl;
    [| now left].
  apply N.eqb_eq in Howner. unfold Feedback_save.
  destruct (Feedback.validate _) eqn:Hmod; simpl; [| now left].
  right. exists feedback. eexists. repeat split; eauto.
Qed.

(** DELETE /api/feedback/:id either leaves the database as it was or
    removes the stored document of that id, owned by the caller. *)
Lemma delete_feedback_db (user_id id : ObjectId) (db : Db) :
  snd (delete_feedback user_id id db) = db
  \/ exists feedback : Feedback.t,
       Feedback.findById id (feedbacks db) = Some feedback
       /\ Feedback.student feedback = user_id
       /\ fst (delete_feedback user_id id db)
          = ok 200 "Feedback deleted successfully" None
       /\ snd (delete_feedback user_id id db)
          = set_feedbacks db (Feedback.findByIdAndDelete id (feedbacks db)).
Proof.
  unfold delete_feedback.
  destruct (Feedback.findById id _) as [feedback |] eqn:Hfind; [| now left].
  destruct (N.eqb (Feedback.student feedback) user_id) eqn:Howner; simpl;
    [| now left].
  apply N.eqb_eq in Howner. right. exists feedback. auto.
Qed.

(** The routes on courses and users leave the feedback collection alone. *)
Lemma handle_feedbacks (db : Db) (r : Request) :
  match r with
  | SubmitFeedback _ _ _ | UpdateFeedback _ _ _ | DeleteFeedback _ _ => True
  | _ => feedbacks (handle db r) = feedbacks db
  end.
Proof.
  destruct r as [u n b | u i b | u i | u n b | i n b | i | i n | u i n | u i];
    simpl; auto.
  - unfold create_course.
    repeat match goal with
           | |- context [match ?x with _ => _ end] => destruct x
           end; reflexivity.
  - unfold update_course.
    repeat match goal with
           | |- context [match ?x with _ => _ end] => destruct x
           end; reflexivity.
  - unfold delete_course.
    repeat match goal with
           | |- context [match ?x with _ => _ end] => destruct x
           end; reflexivity.
  - unfold toggle_active.
    repeat match goal with
           | |- context [match ?x with _ => _ end] => destruct x
           end; reflexivity.
  - unfold toggle_block.
    repeat match goal with
           | |- context [match ?x with _ => _ end] => destruct x
           end; reflexivity.
  - unfold delete_student.
    repeat match goal with
           | |- context [match ?x with _ => _ end] => destruct x
           end; reflexivity.
Qed.

(** An invariant of the feedback collection that the three feedback routes
    keep is kept by every sequence of requests. *)
Lemma serve_feedback_invariant (P : list Feedback.t -> Prop) :
  (forall u n b db, P (feedbacks db) ->
     P (feedbacks (snd (post_feedback u n b db)))) ->
  (forall u i b db, P (feedbacks db) ->
     P (feedbacks (snd (put_feedback u i b db)))) ->
  (forall u i db, P (feedbacks db) ->
     P (feedbacks (snd (delete_feedback u i db)))) ->
  forall rs db, P (feedbacks db) -> P (feedbacks (serve db rs)).
Proof.
  intros Hpost Hput Hdel rs.
  induction rs as [| r rs IH]; intros db HP; simpl; [exact HP |].
  apply IH. pose proof (handle_feedbacks db r) as Hsame.
  destruct r; simpl in *; auto; now rewrite Hsame.
Qed.

Lemma Forall_replace (P : Feedback.t -> Prop) (doc : Feedback.t)
    (coll : list Feedback.t) :
  P doc -> Forall P coll -> Forall P (Feedback.replace doc coll).
Proof.
  intros Hdoc. induction 1 as [| f coll Hf Hall IH]; simpl; [constructor |].
  destruct (N.eqb (Feedback._id f) (Feedback._id doc)); constructor; auto.
Qed.

Lemma Forall_delete (P : Feedback.t -> Prop) (id : ObjectId)
    (coll : list Feedback.t) :
  Forall P coll -> Forall P (Feedback.findByIdAndDelete id coll).
Proof.
  induction 1 as [| f coll Hf Hall IH]; simpl; [constructor |].
  destruct (N.eqb (Feedback._id f) id); [exact Hall | now constructor].
Qed.

(** An invariant of the single documents that POST and PUT establish for
    the document they write is kept by every sequence of requests. *)
Lemma serve_feedback_Forall (P : Feedback.t -> Prop) :
  (forall doc, Feedback.validate doc = true -> Feedback.status doc = approved ->
     P (Feedback.pre_save true true doc)) ->
  (forall body feedback, P feedback ->
     Feedback.validate (update_fields body feedback) = true ->
     P (Feedback.pre_save false
          (negb (Feedback.rating (update_fields body feedback)
                 =? Feedback.rating feedback))
          (update_fields body feedback))) ->
  forall rs db, Forall P (feedbacks db) -> Forall P (feedbacks (serve db rs)).
Proof.
  intros Hnew Hupd. apply (serve_feedback_invariant (Forall P)).
  - intros u n b db HP.
    destruct (post_feedback_db u n b db)
      as [[-> _] | [doc [c [-> [_ [Hdoc [Hvalid _]]]]]]]; [exact HP |].
    simpl. apply Forall_app. split; [exact HP |].
    constructor; [| constructor]. apply Hnew; [exact Hvalid |].
    now rewrite Hdoc.
  - intros u i b db HP.
    destruct (put_feedback_db u i b db)
      as [-> | [f [saved [Hfind [_ [_ [Hmod [-> [_ ->]]]]]]]]]; [exact HP |].
    simpl. apply Forall_replace; [| exact HP].
    apply Hupd; [| exact Hmod].
    destruct (Feedback_findById_Some _ _ _ Hfind) as [_ Hin].
    exact (proj1 (List.Forall_forall _ _) HP f Hin).
  - intros u i db HP.
    destruct (delete_feedback_db u i db) as [-> | [f [_ [_ [_ ->]]]]];
      [exact HP |].
    simpl. now apply Forall_delete.
Qed.

(* ===================================================================== *)
(** ** Invariants of the feedback collection under every run *)
(* ===================================================================== *)

(** X11. Whatever requests are served, in whatever order and by whichever
    callers, a database with at most one feedback record per (student,
    course) pair stays one. *)
Theorem serve_one_feedback_per_pair (rs : list Request) (db : Db) :
  one_feedback_per_pair (feedbacks db) ->
  one_feedback_per_pair (feedbacks (serve db rs)).
Proof.
  apply (serve_feedback_invariant one_feedback_per_pair).
  - intros u n b d. apply post_feedback_one_per_pair.
  - intros u i b d. apply put_feedback_one_per_pair.
  - intros u i d. apply delete_feedback_one_per_pair.
Qed.

Lemma serve_one_feedback_per_pair_witness :
  one_feedback_per_pair (feedbacks (serve sample_db sample_requests)).
Proof.
  apply serve_one_feedback_per_pair.
  vm_compute.
  repeat (constructor; [simpl; intuition congruence |]). constructor.
Defined.

Lemma fresh_id_bound (coll : list Feedback.t) (f : Feedback.t) :
  In f coll -> (Feedback._id f < Feedback.fresh_id coll)%N.
Proof.
  unfold Feedback.fresh_id. induction coll as [| g coll IH]; simpl; [intros [] |].
  intros [-> | Hin]; [lia |]. specialize (IH Hin). lia.
Qed.

Lemma replace_ids (doc : Feedback.t) (coll : list Feedback.t) :
  map Feedback._id (Feedback.replace doc coll) = map Feedback._id coll.
Proof.
  induction coll as [| f coll IH]; simpl; [reflexivity |].
  destruct (N.eqb (Feedback._id f) (Feedback._id doc)) eqn:E; simpl.
  - apply N.eqb_eq in E. now rewrite E.
  - now rewrite IH.
Qed.

Lemma delete_In (id : ObjectId) (coll : list Feedback.t) (f : Feedback.t) :
  In f (Feedback.findByIdAndDelete id coll) -> In f coll.
Proof.
  induction coll as [| g coll IH]; simpl; [auto |].
  destruct (N.eqb (Feedback._id g) id); simpl; intuition.
Qed.

Lemma delete_ids_NoDup (id : ObjectId) (coll : list Feedback.t) :
  List.NoDup (map Feedback._id coll) ->
  List.NoDup (map Feedback._id (Feedback.findByIdAndDelete id coll)).
Proof.
  induction coll as [| g coll IH]; simpl; intros Hnd; [exact Hnd |].
  apply List.NoDup_cons_iff in Hnd. destruct Hnd as [Hfresh Hnd].
  destruct (N.eqb (Feedback._id g) id); [exact Hnd |].
  simpl. apply List.NoDup_cons; [| now apply IH].
  intros Hin. apply Hfresh. apply in_map_iff in Hin.
  destruct Hin as [f [Hid Hf]]. apply in_map_iff. exists f.
  split; [exact Hid | now apply (delete_In id)].
Qed.

(** X12. Whatever requests are served, the feedback records keep distinct
    ids: the id POST gives a new record is larger than every stored one,
    PUT writes a record back under its id and DELETE only removes. *)
Theorem serve_feedback_ids_unique (rs : list Request) (db : Db) :
  feedback_ids_unique db -> feedback_ids_unique (serve db rs).
Proof.
  unfold feedback_ids_unique.
  apply (serve_feedback_invariant (fun coll => List.NoDup (map Feedback._id coll))).
  - intros u n b d Hnd.
    destruct (post_feedback_db u n b d)
      as [[-> _] | [doc [c [-> [_ [Hdoc _]]]]]]; [exact Hnd |].
    simpl. rewrite map_app. simpl.
    apply (Permutation_NoDup (Permutation_cons_append _ _)).
    apply List.NoDup_cons; [| exact Hnd].
    rewrite pre_save_keeps. simpl. rewrite Hdoc. simpl.
    intros Hin. apply in_map_iff in Hin. destruct Hin as [f [Hid Hf]].
    pose proof (fresh_id_bound _ _ Hf). lia.
  - intros u i b d Hnd.
    destruct (put_feedback_db u i b d)
      as [-> | [f [saved [_ [_ [_ [_ [_ [_ ->]]]]]]]]]; [exact Hnd |].
    simpl. now rewrite replace_ids.
  - intros u i d Hnd.
    destruct (delete_feedback_db u i d) as [-> | [f [_ [_ [_ ->]]]]];
      [exact Hnd |].
    simpl. now apply delete_ids_NoDup.
Qed.

Lemma serve_feedback_ids_unique_witness :
  feedback_ids_unique (serve sample_db sample_requests).
Proof.
  apply serve_feedback_ids_unique.
  vm_compute.
  repeat (constructor; [simpl; intuition congruence |]). constructor.
Defined.

Lemma update_fields_status (body : UpdateBody) (f : Feedback.t) :
  Feedback.status (update_fields body f) = Feedback.status f.
Proof. apply (update_fields_keeps body f). Qed.

Lemma pre_save_status (isNew ratingModified : bool) (f : Feedback.t) :
  Feedback.status (Feedback.pre_save isNew ratingModified f) = Feedback.status f.
Proof. now rewrite pre_save_keeps. Qed.

(** X13. No request changes the status of a feedback record and a new
    record is stored as approved: from a database whose records are all
    approved, every run of requests leads to one whose records are all
    approved. *)
Theorem serve_all_approved (rs : list Request) (db : Db) :
  Forall (fun f => Feedback.status f = approved) (feedbacks db) ->
  Forall (fun f => Feedback.status f = approved) (feedbacks (serve db rs)).
Proof.
  apply (serve_feedback_Forall (fun f => Feedback.status f = approved)).
  - intros doc _ Hst. now rewrite pre_save_status.
  - intros body f Hst _. now rewrite pre_save_status, update_fields_status.
Qed.

Lemma serve_all_approved_witness :
  Forall (fun f => Feedback.status f = approved)
    (feedbacks (serve sample_approved_db sample_requests)).
Proof.
  apply serve_all_approved. simpl.
  repeat (constructor; [reflexivity |]). constructor.
Defined.

(** On a collection whose records are all approved the two course
    statistics agree. *)
Lemma getStatistics_all_approved (c : Course.t) (coll : list Feedback.t) :
  Forall (fun f => Feedback.status f = approved) coll ->
  Course.getStatistics c coll = Feedback.getCourseStatistics (Course._id c) coll.
Proof.
  intros Hall.
  unfold Course.getStatistics, Feedback.getCourseStatistics,
    Feedback.aggregate_course, Feedback.aggregate_course_approved,
    Feedback.match_course, Feedback.match_course_approved.
  do 3 f_equal. induction Hall as [| f coll Hf _ IH]; simpl; [reflexivity |].
  rewrite Hf, IH. simpl. now rewrite andb_true_r.
Qed.

Lemma validate_pre_save (isNew ratingModified : bool) (f : Feedback.t) :
  Feedback.validate f = true ->
  Feedback.validate (Feedback.pre_save isNew ratingModified f) = true.
Proof.
  intros Hvalid. unfold Feedback.validate in Hvalid.
  apply andb_true_iff in Hvalid. destruct Hvalid as [Hfields Htags].
  rewrite pre_save_keeps. unfold Feedback.validate, Feedback.set_tags.
  cbn [Feedback.rating Feedback.message Feedback.tags Feedback.moderatorNotes].
  rewrite Hfields. cbn [andb]. unfold Feedback.pre_save.
  destruct (ratingModified || isNew);
    [destruct (4 <=? Feedback.rating f);
       [| destruct (Feedback.rating f <=? 2)] |];
    try destruct (negb _);
    unfold Feedback.set_tags; cbn [Feedback.tags];
    rewrite ?forallb_app, Htags; reflexivity.
Qed.

(** X14. Every run of requests keeps the stored feedback records within the
    schema: when every stored record has a rating of 1..5, a message of
    10..1000 characters, tags of at most 50 characters and moderator notes
    of at most 500, so has every record after the run. *)
Theorem serve_feedback_valid (rs : list Request) (db : Db) :
  Forall (fun f => Feedback.validate f = true) (feedbacks db) ->
  Forall (fun f => Feedback.validate f = true) (feedbacks (serve db rs)).
Proof.
  apply (serve_feedback_Forall (fun f => Feedback.validate f = true)).
  - intros doc Hvalid _. now apply validate_pre_save.
  - intros body f Hold Hmod. now apply validate_pre_save.
Qed.

Lemma serve_feedback_valid_witness :
  Forall (fun f => Feedback.validate f = true)
    (feedbacks (serve sample_db sample_requests)).
Proof.
  apply serve_feedback_valid. simpl.
  repeat (constructor; [reflexivity |]). constructor.
Defined.

(* ===================================================================== *)
(** ** Courses under every run *)
(* ===================================================================== *)

Lemma create_course_db (user_id : ObjectId) (now : Z) (body : CourseBody)
    (db : Db) :
  snd (create_course user_id now body db) = db
  \/ exists doc : Course.t,
       snd (create_course user_id now body db)
       = set_courses db (courses db ++ [doc])
       /\ fst (create_course user_id now body db)
          = ok 201 "Course created successfully" (Some doc)
       /\ doc = {| Course._id := Course_fresh_id (courses db);
                   Course.name := trim (trim (trim (cb_name body)));
                   Course.code :=
                     toUpperCase (trim (toUpperCase (trim (trim (cb_code body)))));
                   Course.isActive := true;
                   Course.description := None;
                   Course.instructor := None;
                   Course.department := None;
                   Course.credits := None;
                   Course.createdBy := Some user_id;
                   Course.updatedAt := now |}
       /\ validate_course body = true
       /\ Course_validate doc = true
       /\ Course_index_conflict doc (courses db) = false.
Proof.
  unfold create_course.
  destruct (validate_course body) eqn:Hvalid; simpl; [| now left].
  destruct (Course_findOne_name_or_code _ _ _); [now left |].
  unfold Course_create.
  destruct (Course_validate _) eqn:Hdoc; simpl; [| now left].
  destruct (Course_index_conflict _ _) eqn:Hidx; simpl; [now left |].
  right. eexists. repeat split; eauto.
Qed.

Lemma update_course_db (id : ObjectId) (now : Z) (body : CourseUpdate)
    (db : Db) :
  snd (update_course id now body db) = db
  \/ exists course new saved : Course.t,
       Course.findById id (courses db) = Some course
       /\ new = update_course_fields (option_map trim (cu_name body))
                  (option_map trim (cu_code body)) (cu_isActive body) course
       /\ Course_validate new = true
       /\ Course_update_conflict course new (courses db) = false
       /\ saved
          = (if Course_modified course new then Course.set_updatedAt new now
             else new)
       /\ fst (update_course id now body db)
          = ok 200 "Course updated successfully" (Some saved)
       /\ snd (update_course id now body db)
          = set_courses db (Course.replace saved (courses db)).
Proof.
  unfold update_course.
  destruct (validate_course_update body); simpl; [| now left].
  destruct (Course.findById id _) as [course |] eqn:Hfind; [| now left].
  match goal with
  | |- context [match ?x with Some _ => _ | None => _ end] =>
      destruct x; [now left |]
  end.
  unfold Course_save. destruct (Course_validate _) eqn:Hdoc; [| now left].
  cbn [negb].
  destruct (Course_update_conflict _ _ _) eqn:Hidx; [now left |].
  right. exists course. do 2 eexists. repeat split; eauto.
Qed.

(** PATCH toggle-active either leaves the database as it was or writes back
    the stored course with the flag negated and the time of the request. *)
Lemma toggle_active_db (id : ObjectId) (now : Z) (db : Db) :
  snd (toggle_active id now db) = db
  \/ exists course : Course.t,
       Course.findById id (courses db) = Some course
       /\ snd (toggle_active id now db)
          = set_courses db
              (Course.replace
                 (Course.set_updatedAt
                    (Course.set_isActive course (negb (Course.isActive course)))
                    now)
                 (courses db)).
Proof.
  destruct (Course.findById id (courses db)) as [course |] eqn:Hfind.
  - rewrite (toggle_active_once db id now course Hfind).
    destruct (Course_validate course); [| now left].
    right. exists course. now split.
  - left. unfold toggle_active. now rewrite Hfind.
Qed.

Lemma delete_course_db (id : ObjectId) (db : Db) :
  snd (delete_course id db) = db
  \/ exists course : Course.t,
       Course.findById id (courses db) = Some course
       /\ Feedback.countDocuments_course id (feedbacks db) = 0%nat
       /\ fst (delete_course id db) = ok 200 "Course deleted successfully" None
       /\ snd (delete_course id db)
          = set_courses db (Course.findByIdAndDelete id (courses db)).
Proof.
  unfold delete_course.
  destruct (Course.findById id _) as [course |] eqn:Hfind; [| now left].
  destruct (Course_findById_Some _ _ _ Hfind) as [Hid _]. rewrite Hid.
  destruct (0 <? _)%nat eqn:Hpos; [now left |].
  apply Nat.ltb_ge in Hpos. right. exists course. repeat split; auto. lia.
Qed.

(** The routes on feedback and users leave the course collection alone. *)
Lemma handle_courses (db : Db) (r : Request) :
  match r with
  | CreateCourse _ _ _ | UpdateCourse _ _ _ | DeleteCourse _
  | ToggleActive _ _ => True
  | _ => courses (handle db r) = courses db
  end.
Proof.
  destruct r as [u n b | u i b | u i | u n b | i n b | i | i n | u i n | u i];
    simpl; auto.
  - destruct (post_feedback_db u n b db) as [[-> _] | [doc [c [-> _]]]];
      reflexivity.
  - destruct (put_feedback_db u i b db)
      as [-> | [f [saved [_ [_ [_ [_ [_ [_ ->]]]]]]]]]; reflexivity.
  - destruct (delete_feedback_db u i db) as [-> | [f [_ [_ [_ ->]]]]];
      reflexivity.
  - unfold toggle_block.
    repeat match goal with
           | |- context [match ?x with _ => _ end] => destruct x
           end; reflexivity.
  - unfold delete_student.
    repeat match goal with
           | |- context [match ?x with _ => _ end] => destruct x
           end; reflexivity.
Qed.

Lemma Course_findById_app (id : ObjectId) (coll : list Course.t) (doc : Course.t) :
  Course.findById id coll <> None -> Course.findById id (coll ++ [doc]) <> None.
Proof.
  unfold Course.findById. induction coll as [| c coll IH]; simpl; [congruence |].
  destruct (N.eqb (Course._id c) id); [congruence | exact IH].
Qed.

Lemma Course_findById_replace_stored (id : ObjectId) (doc : Course.t)
    (coll : list Course.t) :
  Course.findById id coll <> None ->
  Course.findById id (Course.replace doc coll) <> None.
Proof.
  unfold Course.findById. induction coll as [| c coll IH]; simpl; [congruence |].
  destruct (N.eqb (Course._id c) (Course._id doc)) eqn:E; simpl.
  - apply N.eqb_eq in E. rewrite <- E.
    destruct (N.eqb (Course._id c) id); congruence.
  - destruct (N.eqb (Course._id c) id); [congruence | exact IH].
Qed.

Lemma Course_findById_delete_other (id id' : ObjectId) (coll : list Course.t) :
  id' <> id ->
  Course.findById id' (Course.findByIdAndDelete id coll)
  = Course.findById id' coll.
Proof.
  unfold Course.findById. intros Hne.
  induction coll as [| c coll IH]; simpl; [reflexivity |].
  destruct (N.eqb (Course._id c) id) eqn:E; simpl.
  - apply N.eqb_eq in E. rewrite E.
    assert (N.eqb id id' = false) as -> by (apply N.eqb_neq; congruence).
    reflexivity.
  - now rewrite IH.
Qed.

Lemma Feedback_replace_In (doc g : Feedback.t) (coll : list Feedback.t) :
  In g (Feedback.replace doc coll) -> g = doc \/ In g coll.
Proof.
  induction coll as [| f coll IH]; simpl; [auto |].
  destruct (N.eqb (Feedback._id f) (Feedback._id doc)); simpl; intuition.
Qed.

Lemma countDocuments_course_zero (id : ObjectId) (coll : list Feedback.t)
    (f : Feedback.t) :
  Feedback.countDocuments_course id coll = 0%nat ->
  In f coll -> Feedback.course f <> id.
Proof.
  unfold Feedback.countDocuments_course. intros Hzero Hin Heq.
  assert (In f (List.filter (fun f => N.eqb (Feedback.course f) id) coll)) as Hf
    by (apply filter_In; split; [exact Hin | now apply N.eqb_eq]).
  destruct (List.filter _ coll); [destruct Hf | discriminate].
Qed.

(** One request keeps every feedback record's course stored. *)
Lemma handle_courses_referenced (db : Db) (r : Request) :
  courses_referenced db -> courses_referenced (handle db r).
Proof.
  unfold courses_referenced. intros Hinv.
  destruct r as [u n b | u i b | u i | u n b | i n b | i | i n | u i n | u i];
    simpl.
  - destruct (post_feedback_db u n b db)
      as [[-> _] | [doc [c [-> [_ [Hdoc [_ [_ [Hc _]]]]]]]]]; [exact Hinv |].
    simpl. intros f Hf. apply in_app_or in Hf.
    destruct Hf as [Hf | [<- | []]]; [now apply Hinv |].
    rewrite pre_save_keeps. simpl. rewrite Hdoc. simpl. congruence.
  - destruct (put_feedback_db u i b db)
      as [-> | [f [saved [Hfind [_ [_ [_ [Hsaved [_ ->]]]]]]]]]; [exact Hinv |].
    simpl. intros g Hg. apply Feedback_replace_In in Hg.
    destruct Hg as [-> | Hg]; [| now apply Hinv].
    rewrite Hsaved, pre_save_keeps. simpl.
    destruct (update_fields_keeps b f) as [_ [_ [-> _]]].
    apply Hinv. now apply (Feedback_findById_Some i).
  - destruct (delete_feedback_db u i db) as [-> | [f [_ [_ [_ ->]]]]];
      [exact Hinv |].
    simpl. intros g Hg. apply Hinv. now apply (delete_In i).
  - destruct (create_course_db u n b db) as [-> | [doc [-> _]]]; [exact Hinv |].
    simpl. intros f Hf. now apply Course_findById_app, Hinv.
  - destruct (update_course_db i n b db)
      as [-> | [c [new [saved [_ [_ [_ [_ [_ [_ ->]]]]]]]]]]; [exact Hinv |].
    simpl. intros f Hf. now apply Course_findById_replace_stored, Hinv.
  - destruct (delete_course_db i db) as [-> | [c [_ [Hzero [_ ->]]]]];
      [exact Hinv |].
    simpl. intros f Hf. rewrite Course_findById_delete_other; [now apply Hinv |].
    now apply (countDocuments_course_zero i (feedbacks db)).
  - destruct (toggle_active_db i n db) as [-> | [c [_ ->]]]; [exact Hinv |].
    simpl. intros f Hf. now apply Course_findById_replace_stored, Hinv.
  - pose proof (handle_courses db (ToggleBlock u i n)) as Hc.
    pose proof (handle_feedbacks db (ToggleBlock u i n)) as Hf.
    simpl in Hc, Hf. now rewrite Hc, Hf.
  - pose proof (handle_courses db (DeleteStudent u i)) as Hc.
    pose proof (handle_feedbacks db (DeleteStudent u i)) as Hf.
    simpl in Hc, Hf. now rewrite Hc, Hf.
Qed.

(** X15. No run of requests orphans a feedback record: when every stored
    feedback record names a stored course, it still does after the run - a
    course is only deleted when no record names it. *)
Theorem serve_courses_referenced (rs : list Request) (db : Db) :
  courses_referenced db -> courses_referenced (serve db rs).
Proof.
  revert db. induction rs as [| r rs IH]; intros db Hinv; simpl; [exact Hinv |].
  apply IH. now apply handle_courses_referenced.
Qed.

Lemma serve_courses_referenced_witness :
  courses_referenced (serve sample_db sample_requests).
Proof.
  apply serve_courses_referenced.
  intros f Hf. simpl in Hf.
  repeat (destruct Hf as [<- | Hf]; [vm_compute; discriminate |]).
  destruct Hf.
Defined.

Lemma Course_fresh_id_bound (coll : list Course.t) (c : Course.t) :
  In c coll -> (Course._id c < Course_fresh_id coll)%N.
Proof.
  unfold Course_fresh_id. induction coll as [| g coll IH]; simpl; [intros [] |].
  intros [-> | Hin]; [lia |]. specialize (IH Hin). lia.
Qed.

(** What the unique indexes grant when they accept a document. *)
Lemma Course_index_conflict_false (doc : Course.t) (coll : list Course.t)
    (x : Course.t) :
  Course_index_conflict doc coll = false ->
  In x coll -> Course._id x <> Course._id doc ->
  Course.name x <> Course.name doc /\ Course.code x <> Course.code doc.
Proof.
  unfold Course_index_conflict. intros Hidx Hin Hid.
  destruct (String.eqb (Course.name x) (Course.name doc)
            || String.eqb (Course.code x) (Course.code doc)) eqn:Hsame.
  - exfalso.
    assert (existsb
              (fun x =>
                 negb (N.eqb (Course._id x) (Course._id doc))
                 && (String.eqb (Course.name x) (Course.name doc)
                     || String.eqb (Course.code x) (Course.code doc)))
              coll = true) as Hex.
    { apply existsb_exists. exists x. split; [exact Hin |].
      apply N.eqb_neq in Hid. now rewrite Hid, Hsame. }
    congruence.
  - apply orb_false_iff in Hsame. destruct Hsame as [Hn Hc].
    apply String.eqb_neq in Hn, Hc. now split.
Qed.

Lemma Course_replace_In (doc x : Course.t) (coll : list Course.t) :
  In x (Course.replace doc coll) -> x = doc \/ In x coll.
Proof.
  induction coll as [| c coll IH]; simpl; [auto |].
  destruct (N.eqb (Course._id c) (Course._id doc)); simpl; intuition.
Qed.

Lemma Course_replace_ids (doc : Course.t) (coll : list Course.t) :
  map Course._id (Course.replace doc coll) = map Course._id coll.
Proof.
  induction coll as [| c coll IH]; simpl; [reflexivity |].
  destruct (N.eqb (Course._id c) (Course._id doc)) eqn:E; simpl.
  - apply N.eqb_eq in E. now rewrite E.
  - now rewrite IH.
Qed.

(** Writing a document back keeps a path free of duplicates when no document
    with another id holds the written value. *)
Lemma Course_replace_NoDup {A : Type} (g : Course.t -> A) (doc : Course.t)
    (coll : list Course.t) :
  List.NoDup (map Course._id coll) ->
  (forall x, In x coll -> Course._id x <> Course._id doc -> g x <> g doc) ->
  List.NoDup (map g coll) ->
  List.NoDup (map g (Course.replace doc coll)).
Proof.
  induction coll as [| c coll IH]; simpl; intros Hids Hother Hnd; [exact Hnd |].
  apply List.NoDup_cons_iff in Hids. destruct Hids as [Hid Hids].
  apply List.NoDup_cons_iff in Hnd. destruct Hnd as [Hfresh Hnd].
  destruct (N.eqb (Course._id c) (Course._id doc)) eqn:E; simpl.
  - apply N.eqb_eq in E. apply List.NoDup_cons; [| exact Hnd].
    intros Hin. apply in_map_iff in Hin. destruct Hin as [y [Hgy Hy]].
    apply (Hother y); [now right | | exact Hgy].
    intros Heq. apply Hid. rewrite E, <- Heq. now apply in_map.
  - apply N.eqb_neq in E. apply List.NoDup_cons.
    + intros Hin. apply in_map_iff in Hin. destruct Hin as [y [Hgy Hy]].
      apply Course_replace_In in Hy. destruct Hy as [-> | Hy].
      * apply (Hother c); [now left | exact E | now symmetry].
      * apply Hfresh. rewrite <- Hgy. now apply in_map.
    + apply IH; auto.
Qed.

Lemma Course_delete_In (id : ObjectId) (coll : list Course.t) (c : Course.t) :
  In c (Course.findByIdAndDelete id coll) -> In c coll.
Proof.
  induction coll as [| g coll IH]; simpl; [auto |].
  destruct (N.eqb (Course._id g) id); simpl; intuition.
Qed.

Lemma Course_delete_NoDup {A : Type} (g : Course.t -> A) (id : ObjectId)
    (coll : list Course.t) :
  List.NoDup (map g coll) ->
  List.NoDup (map g (Course.findByIdAndDelete id coll)).
Proof.
  induction coll as [| c coll IH]; simpl; intros Hnd; [exact Hnd |].
  apply List.NoDup_cons_iff in Hnd. destruct Hnd as [Hfresh Hnd].
  destruct (N.eqb (Course._id c) id); [exact Hnd |].
  simpl. apply List.NoDup_cons; [| now apply IH].
  intros Hin. apply Hfresh. apply in_map_iff in Hin.
  destruct Hin as [y [Hgy Hy]]. apply in_map_iff. exists y.
  split; [exact Hgy | now apply (Course_delete_In id)].
Qed.

Lemma NoDup_snoc {A : Type} (l : list A) (x : A) :
  ~ In x l -> List.NoDup l -> List.NoDup (l ++ [x]).
Proof.
  intros Hx Hnd. apply (Permutation_NoDup (Permutation_cons_append _ _)).
  now apply List.NoDup_cons.
Qed.

Lemma NoDup_map_In_eq {A B : Type} (g : A -> B) (l : list A) (x y : A) :
  List.NoDup (map g l) -> In x l -> In y l -> g x = g y -> x = y.
Proof.
  induction l as [| z l IH]; simpl; intros Hnd Hx Hy Heq; [destruct Hx |].
  apply List.NoDup_cons_iff in Hnd. destruct Hnd as [Hz Hnd].
  destruct Hx as [-> | Hx], Hy as [-> | Hy]; auto.
  - exfalso. apply Hz. rewrite Heq. now apply in_map.
  - exfalso. apply Hz. rewrite <- Heq. now apply in_map.
Qed.

(** Writing a stored course back keeps a path free of duplicates when the
    path was not changed, or no other course holds its new value. *)
Lemma Course_replace_NoDup_path {A : Type} (g : Course.t -> A)
    (old doc : Course.t) (coll : list Course.t) :
  In old coll -> Course._id doc = Course._id old ->
  List.NoDup (map Course._id coll) -> List.NoDup (map g coll) ->
  (g doc = g old
   \/ forall x, In x coll -> Course._id x <> Course._id doc -> g x <> g doc) ->
  List.NoDup (map g (Course.replace doc coll)).
Proof.
  intros Hold Hid Hids Hnd Hcase. apply Course_replace_NoDup; auto.
  destruct Hcase as [Hsame | Hother]; [| exact Hother].
  intros x Hx Hne Heq. apply Hne. rewrite Hid. f_equal.
  apply (NoDup_map_In_eq g coll); auto. congruence.
Qed.

(** What the unique indexes grant when they accept an update. *)
Lemma Course_update_conflict_false (old new : Course.t) (coll : list Course.t) :
  Course_update_conflict old new coll = false ->
  (Course.name new = Course.name old
   \/ forall x, In x coll -> Course._id x <> Course._id new ->
        Course.name x <> Course.name new)
  /\ (Course.code new = Course.code old
      \/ forall x, In x coll -> Course._id x <> Course._id new ->
           Course.code x <> Course.code new).
Proof.
  unfold Course_update_conflict. intros Hidx.
  assert (forall x, In x coll -> Course._id x <> Course._id new ->
            negb (String.eqb (Course.name new) (Course.name old))
            && String.eqb (Course.name x) (Course.name new)
            || negb (String.eqb (Course.code new) (Course.code old))
               && String.eqb (Course.code x) (Course.code new) = false) as Hall.
  { intros x Hx Hid. destruct (_ || _) eqn:Hsame; [| reflexivity].
    exfalso. apply not_true_iff_false in Hidx. apply Hidx.
    apply existsb_exists. exists x. split; [exact Hx |].
    apply N.eqb_neq in Hid. now rewrite Hid, Hsame. }
  split.
  - destruct (String.eqb (Course.name new) (Course.name old)) eqn:E.
    + left. now apply String.eqb_eq.
    + right. intros x Hx Hid. specialize (Hall x Hx Hid).
      apply orb_false_iff in Hall. destruct Hall as [Hn _].
      cbn [negb andb] in Hn. now apply String.eqb_neq.
  - destruct (String.eqb (Course.code new) (Course.code old)) eqn:E.
    + left. now apply String.eqb_eq.
    + right. intros x Hx Hid. specialize (Hall x Hx Hid).
      apply orb_false_iff in Hall. destruct Hall as [_ Hc].
      cbn [negb andb] in Hc. now apply String.eqb_neq.
Qed.

(** One request keeps the ids, the names and the codes of the courses
    distinct. *)
Lemma handle_courses_unique (db : Db) (r : Request) :
  courses_unique db -> courses_unique (handle db r).
Proof.
  unfold courses_unique. intros [Hids [Hnames Hcodes]].
  pose proof (handle_courses db r) as Hsame.
  destruct r as [u n b | u i b | u i | u n b | i n b | i | i n | u i n | u i];
    simpl in *; try (rewrite Hsame; auto).
  - destruct (create_course_db u n b db)
      as [-> | [doc [-> [_ [Hdoc [_ [_ Hidx]]]]]]]; [auto |].
    simpl. rewrite !map_app. simpl.
    assert (forall x, In x (courses db) -> Course._id x <> Course._id doc) as Hfresh.
    { intros x Hx. pose proof (Course_fresh_id_bound _ _ Hx).
      rewrite Hdoc. simpl. lia. }
    repeat split; apply NoDup_snoc; auto;
      intros Hin; apply in_map_iff in Hin; destruct Hin as [x [Heq Hx]].
    + now apply (Hfresh x).
    + now apply (proj1 (Course_index_conflict_false doc _ x Hidx Hx (Hfresh x Hx))).
    + now apply (proj2 (Course_index_conflict_false doc _ x Hidx Hx (Hfresh x Hx))).
  - destruct (update_course_db i n b db)
      as [-> | [c [new [saved [Hfind [Hnew [_ [Hidx [Hsaved [_ ->]]]]]]]]]];
      [auto |].
    destruct (Course_findById_Some _ _ _ Hfind) as [_ Hc].
    destruct (Course_update_conflict_false c new _ Hidx) as [Hn Hcd].
    assert (Course._id saved = Course._id new
            /\ Course.name saved = Course.name new
            /\ Course.code saved = Course.code new) as [Hsi [Hsn Hsc]]
      by (rewrite Hsaved; destruct (Course_modified c new); now repeat split).
    assert (Course._id new = Course._id c) as Hni by now rewrite Hnew.
    simpl. rewrite Course_replace_ids. repeat split; [exact Hids | |].
    + apply (Course_replace_NoDup_path Course.name c); auto; [congruence |].
      rewrite Hsn, Hsi. exact Hn.
    + apply (Course_replace_NoDup_path Course.code c); auto; [congruence |].
      rewrite Hsc, Hsi. exact Hcd.
  - destruct (delete_course_db i db) as [-> | [c [_ [_ [_ ->]]]]]; [auto |].
    simpl. repeat split; now apply Course_delete_NoDup.
  - destruct (toggle_active_db i n db) as [-> | [c [Hfind ->]]]; [auto |].
    destruct (Course_findById_Some _ _ _ Hfind) as [_ Hc].
    simpl. rewrite Course_replace_ids. repeat split; [exact Hids | |].
    + apply (Course_replace_NoDup_path Course.name c); auto.
    + apply (Course_replace_NoDup_path Course.code c); auto.
Qed.

(** X16. Every run of requests keeps the courses apart: when the stored
    courses have distinct ids, distinct names and distinct codes, so have
    the courses after the run - a course is created or renamed only to a
    name and a code no other course holds. *)
Theorem serve_courses_unique (rs : list Request) (db : Db) :
  courses_unique db -> courses_unique (serve db rs).
Proof.
  revert db. induction rs as [| r rs IH]; intros db Hinv; simpl; [exact Hinv |].
  apply IH. now apply handle_courses_unique.
Qed.

Lemma serve_courses_unique_witness :
  courses_unique (serve sample_db sample_requests).
Proof.
  apply serve_courses_unique. unfold courses_unique. vm_compute.
  repeat split;
    repeat (constructor; [simpl; intuition congruence |]); constructor.
Defined.

(* ===================================================================== *)
(** ** Trimming *)
(* ===================================================================== *)

Lemma string_app_nil_r (s : string) : s +:+ "" = s.
Proof.
  induction s as [| a s IH]; [reflexivity |].
  change (String a (s +:+ "") = String a s). now rewrite IH.
Qed.

Lemma string_app_snoc (r s : string) (a : ascii) :
  (r +:+ String a "") +:+ s = r +:+ String a s.
Proof.
  induction r as [| b r IH]; [reflexivity |].
  change (String b ((r +:+ String a "") +:+ s) = String b (r +:+ String a s)).
  now rewrite IH.
Qed.

Lemma rev_app_rev_app (s1 s2 s3 : string) :
  String.rev_app (String.rev_app s1 s2) s3 = String.rev_app s2 (s1 +:+ s3).
Proof.
  revert s2 s3. induction s1 as [| a s1 IH]; intros s2 s3; simpl;
    [reflexivity | rewrite IH; reflexivity].
Qed.

Lemma string_rev_involutive (s : string) : String.rev (String.rev s) = s.
Proof.
  unfold String.rev. rewrite rev_app_rev_app.
  change (s +:+ "" = s). apply string_app_nil_r.
Qed.

Lemma rev_app_append (s1 s2 : string) :
  String.rev_app s1 s2 = String.rev s1 +:+ s2.
Proof.
  unfold String.rev. revert s2.
  induction s1 as [| a s1 IH]; intros s2; simpl; [reflexivity |].
  rewrite (IH (String a s2)), (IH (String a "")).
  symmetry. apply string_app_snoc.
Qed.

Lemma trimStart_clean (s : string) : no_leading_space (trimStart s) = true.
Proof.
  induction s as [| a s IH]; simpl; [reflexivity |].
  destruct (is_whitespace a) eqn:Ha; [exact IH | simpl; now rewrite Ha].
Qed.

Lemma trimStart_of_clean (s : string) :
  no_leading_space s = true -> trimStart s = s.
Proof.
  destruct s as [| a s]; simpl; [reflexivity |].
  destruct (is_whitespace a); [discriminate | reflexivity].
Qed.

(** Trimming the start keeps the end clean. *)
Lemma trimStart_keeps_end (w : string) :
  no_leading_space (String.rev w) = true ->
  no_leading_space (String.rev (trimStart w)) = true.
Proof.
  induction w as [| a w IH]; simpl; [auto |].
  destruct (is_whitespace a) eqn:Ha; [| auto].
  unfold String.rev at 1. simpl. rewrite rev_app_append.
  intros Hend. apply IH.
  destruct (String.rev w) as [| b r]; [| exact Hend].
  change (negb (is_whitespace a) = true) in Hend.
  now rewrite Ha in Hend.
Qed.

(** [trim] is idempotent: a trimmed string has nothing left to trim. *)
Lemma trim_idempotent (s : string) : trim (trim s) = trim s.
Proof.
  unfold trim.
  set (t := trimStart s). set (u := trimStart (String.rev t)).
  assert (no_leading_space (String.rev u) = true) as Hend.
  { subst u. apply trimStart_keeps_end. rewrite string_rev_involutive.
    apply trimStart_clean. }
  rewrite (trimStart_of_clean _ Hend), string_rev_involutive.
  now rewrite (trimStart_of_clean u (trimStart_clean _)).
Qed.

(* ===================================================================== *)
(** ** Submitting, deleting: what the routes answer and store *)
(* ===================================================================== *)

(** X17. POST /api/feedback answers 201 exactly when the body passes the
    validators, the course is stored and active, the caller has no feedback
    record for it and every tag, trimmed and lower-cased, has at most 50
    characters. It then appends one record and changes nothing else: the
    record of the caller for that course with the rating of the body, the
    trimmed message, status approved, and as tags the trimmed lower-cased
    tags of the body followed by the sentiment tag of the rating unless they
    hold it. *)
Theorem post_feedback_created_iff (user_id : ObjectId) (now : Z)
    (body : SubmitBody) (db : Db) :
  (code (fst (post_feedback user_id now body db)) = 201%nat
   <-> validate_submit body = true
       /\ (exists courseDoc,
             Course.findById (sb_course body) (courses db) = Some courseDoc
             /\ Course.isActive courseDoc = true)
       /\ Feedback.findOne user_id (sb_course body) (feedbacks db) = None
       /\ forallb (fun s => (String.length s <=? 50)%nat)
            (Feedback.cast_tags (default [] (sb_tags body))) = true)
  /\ (code (fst (post_feedback user_id now body db)) = 201%nat ->
      let tags := Feedback.cast_tags (default [] (sb_tags body)) in
      let tag := sentiment_tag (sb_rating body) in
      snd (post_feedback user_id now body db)
      = set_feedbacks db
          (feedbacks db
           ++ [ {| Feedback._id := Feedback.fresh_id (feedbacks db);
                   Feedback.student := user_id;
                   Feedback.course := sb_course body;
                   Feedback.rating := sb_rating body;
                   Feedback.message := trim (sb_message body);
                   Feedback.isAnonymous := default false (sb_isAnonymous body);
                   Feedback.tags :=
                     if includes tag tags then tags else tags ++ [tag];
                   Feedback.status := approved;
                   Feedback.moderatorNotes := None;
                   Feedback.createdAt := now |} ])).
Proof.
  assert (code (fst (post_feedback user_id now body db)) = 201%nat ->
          exists doc c,
            snd (post_feedback user_id now body db)
            = set_feedbacks db (feedbacks db ++ [Feedback.pre_save true true doc])
            /\ doc = {| Feedback._id := Feedback.fresh_id (feedbacks db);
                        Feedback.student := user_id;
                        Feedback.course := sb_course body;
                        Feedback.rating := sb_rating body;
                        Feedback.message := trim (trim (sb_message body));
                        Feedback.isAnonymous := default false (sb_isAnonymous body);
                        Feedback.tags :=
                          Feedback.cast_tags (default [] (sb_tags body));
                        Feedback.status := approved;
                        Feedback.moderatorNotes := None;
                        Feedback.createdAt := now |}
            /\ Feedback.validate doc = true
            /\ validate_submit body = true
            /\ Course.findById (sb_course body) (courses db) = Some c
            /\ Course.isActive c = true
            /\ Feedback.findOne user_id (sb_course body) (feedbacks db) = None)
    as Hcreated.
  { intros Hcode.
    destruct (post_feedback_db user_id now body db)
      as [[_ Hfail] | [doc [c [Hdb [_ [Hdoc [Hv [Hb [Hc [Ha Hone]]]]]]]]]].
    - exfalso. revert Hcode Hfail. unfold post_feedback.
      repeat match goal with
             | |- context [match ?x with _ => _ end] => destruct x
             end; simpl; intros; try discriminate.
    - exists doc, c. repeat split; assumption. }
  split; [split |].
  - intros Hcode.
    destruct (Hcreated Hcode)
      as [doc [c [_ [Hdoc [Hv [Hb [Hc [Ha Hone]]]]]]]].
    repeat split; auto; [now exists c |].
    rewrite Hdoc in Hv. unfold Feedback.validate in Hv. simpl in Hv.
    apply andb_true_iff in Hv. now destruct Hv.
  - intros [Hb [[c [Hc Ha]] [Hone Htags]]].
    unfold post_feedback. rewrite Hb, Hc, Ha, Hone. simpl.
    unfold Feedback_create.
    assert (Feedback.validate
              {| Feedback._id := Feedback.fresh_id (feedbacks db);
                 Feedback.student := user_id;
                 Feedback.course := sb_course body;
                 Feedback.rating := sb_rating body;
                 Feedback.message := trim (trim (sb_message body));
                 Feedback.isAnonymous := default false (sb_isAnonymous body);
                 Feedback.tags := Feedback.cast_tags (default [] (sb_tags body));
                 Feedback.status := approved;
                 Feedback.moderatorNotes := None;
                 Feedback.createdAt := now |} = true) as Hv.
    { unfold Feedback.validate. cbn [Feedback.rating Feedback.message Feedback.tags].
      rewrite trim_idempotent, Htags. unfold validate_submit in Hb.
      now rewrite Hb. }
    rewrite Hv, (Feedback_index_conflict_false _ _ _ Hone). reflexivity.
  - intros Hcode tags tag.
    destruct (Hcreated Hcode) as [doc [c [-> [Hdoc _]]]].
    do 3 f_equal.
    rewrite (pre_save_sentiment_tag true true doc eq_refl).
    rewrite Hdoc. unfold Feedback.set_tags. cbn [Feedback._id Feedback.student
      Feedback.course Feedback.rating Feedback.message Feedback.isAnonymous
      Feedback.tags Feedback.status Feedback.createdAt].
    now rewrite trim_idempotent.
Qed.

Lemma Feedback_delete_gone (id : ObjectId) (coll : list Feedback.t) :
  List.NoDup (map Feedback._id coll) ->
  Feedback.findById id (Feedback.findByIdAndDelete id coll) = None.
Proof.
  unfold Feedback.findById.
  induction coll as [| f coll IH]; simpl; intros Hnd; [reflexivity |].
  apply List.NoDup_cons_iff in Hnd. destruct Hnd as [Hfresh Hnd].
  destruct (N.eqb (Feedback._id f) id) eqn:E; simpl.
  - apply N.eqb_eq in E. destruct (find _ coll) as [g |] eqn:Hg; [| reflexivity].
    apply find_some in Hg. destruct Hg as [Hin Hid]. apply N.eqb_eq in Hid.
    exfalso. apply Hfresh. rewrite E, <- Hid. now apply in_map.
  - rewrite E. now apply IH.
Qed.

Lemma Feedback_delete_other (id id' : ObjectId) (coll : list Feedback.t) :
  id' <> id ->
  Feedback.findById id' (Feedback.findByIdAndDelete id coll)
  = Feedback.findById id' coll.
Proof.
  unfold Feedback.findById. intros Hne.
  induction coll as [| f coll IH]; simpl; [reflexivity |].
  destruct (N.eqb (Feedback._id f) id) eqn:E; simpl.
  - apply N.eqb_eq in E. rewrite E.
    assert (N.eqb id id' = false) as -> by (apply N.eqb_neq; congruence).
    reflexivity.
  - now rewrite IH.
Qed.

Lemma Feedback_delete_length (id : ObjectId) (coll : list Feedback.t)
    (f : Feedback.t) :
  Feedback.findById id coll = Some f ->
  S (length (Feedback.findByIdAndDelete id coll)) = length coll.
Proof.
  unfold Feedback.findById.
  induction coll as [| g coll IH]; simpl; [discriminate |].
  destruct (N.eqb (Feedback._id g) id); simpl; [reflexivity |].
  intros H. now rewrite IH.
Qed.

(** Deleting the stored record of an id frees its (student, course) pair. *)
Lemma Feedback_delete_pair_gone (id : ObjectId) (coll : list Feedback.t)
    (f h : Feedback.t) :
  one_feedback_per_pair coll ->
  Feedback.findById id coll = Some f ->
  In h (Feedback.findByIdAndDelete id coll) ->
  student_course h <> student_course f.
Proof.
  unfold one_feedback_per_pair, Feedback.findById.
  induction coll as [| g coll IH]; simpl; intros Hnd Hfind Hh; [discriminate |].
  apply List.NoDup_cons_iff in Hnd. destruct Hnd as [Hfresh Hnd].
  destruct (N.eqb (Feedback._id g) id) eqn:E.
  - injection Hfind as <-. intros Heq. apply Hfresh.
    rewrite <- Heq. now apply in_map.
  - apply find_some in Hfind as Hf. destruct Hf as [Hin _].
    destruct Hh as [<- | Hh]; [| now apply IH].
    intros Heq. apply Hfresh. rewrite Heq. now apply in_map.
Qed.

Lemma Feedback_delete_frees_pair (id : ObjectId) (coll : list Feedback.t)
    (f : Feedback.t) :
  one_feedback_per_pair coll ->
  Feedback.findById id coll = Some f ->
  Feedback.findOne (Feedback.student f) (Feedback.course f)
    (Feedback.findByIdAndDelete id coll) = None.
Proof.
  intros Hnd Hfind.
  destruct (Feedback.findOne _ _ _) as [h |] eqn:Hone; [| reflexivity].
  unfold Feedback.findOne in Hone. apply find_some in Hone.
  destruct Hone as [Hin Hpair]. apply andb_true_iff in Hpair.
  destruct Hpair as [Hs Hc]. apply N.eqb_eq in Hs, Hc.
  exfalso. apply (Feedback_delete_pair_gone id coll f h Hnd Hfind Hin).
  unfold student_course. now rewrite Hs, Hc.
Qed.

(** X18. The owner's DELETE /api/feedback/:id of a stored record answers
    200 and removes that record alone: with distinct ids the id is no longer
    found, every other id is found as before and there is one record less;
    with at most one record per pair the student then has no record for that
    course (and may submit again). *)
Theorem delete_feedback_owner (db : Db) (user_id id : ObjectId)
    (feedback : Feedback.t) :
  Feedback.findById id (feedbacks db) = Some feedback ->
  Feedback.student feedback = user_id ->
  let db' := snd (delete_feedback user_id id db) in
  fst (delete_feedback user_id id db) = ok 200 "Feedback deleted successfully" None
  /\ users db' = users db /\ courses db' = courses db
  /\ S (length (feedbacks db')) = length (feedbacks db)
  /\ (forall id', id' <> id ->
        Feedback.findById id' (feedbacks db')
        = Feedback.findById id' (feedbacks db))
  /\ (feedback_ids_unique db -> Feedback.findById id (feedbacks db') = None)
  /\ (one_feedback_per_pair (feedbacks db) ->
      Feedback.findOne user_id (Feedback.course feedback) (feedbacks db') = None).
Proof.
  intros Hfind Howner db'. subst db'. unfold delete_feedback.
  rewrite Hfind, Howner, N.eqb_refl. simpl. repeat split.
  - now apply (Feedback_delete_length id _ feedback).
  - intros id' Hne. now apply Feedback_delete_other.
  - intros Hids. now apply Feedback_delete_gone.
  - intros Hpairs. rewrite <- Howner.
    now apply Feedback_delete_frees_pair.
Qed.

Lemma delete_feedback_owner_witness :
  fst (delete_feedback 2 100 sample_db)
  = ok 200 "Feedback deleted successfully" None
  /\ Feedback.findById 100 (feedbacks (snd (delete_feedback 2 100 sample_db))) = None.
Proof.
  destruct (delete_feedback_owner sample_db 2 100
              (sample_feedback 100 2 10 5 approved ["positive"%string] 1700000000000))
    as [Hres [_ [_ [_ [_ [Hgone _]]]]]]; try reflexivity.
  split; [exact Hres |]. apply Hgone.
  vm_compute. repeat (constructor; [simpl; intuition congruence |]). constructor.
Defined.

Lemma Course_delete_gone (id : ObjectId) (coll : list Course.t) :
  List.NoDup (map Course._id coll) ->
  Course.findById id (Course.findByIdAndDelete id coll) = None.
Proof.
  unfold Course.findById.
  induction coll as [| c coll IH]; simpl; intros Hnd; [reflexivity |].
  apply List.NoDup_cons_iff in Hnd. destruct Hnd as [Hfresh Hnd].
  destruct (N.eqb (Course._id c) id) eqn:E; simpl.
  - apply N.eqb_eq in E. destruct (find _ coll) as [g |] eqn:Hg; [| reflexivity].
    apply find_some in Hg. destruct Hg as [Hin Hid]. apply N.eqb_eq in Hid.
    exfalso. apply Hfresh. rewrite E, <- Hid. now apply in_map.
  - rewrite E. now apply IH.
Qed.

(** X19. DELETE /api/courses/:id answers 200 exactly when the course is
    stored and no feedback record names it. It then removes that course
    alone: the feedback records and users are untouched, every other course
    id is found as before and, with distinct course ids, the id is no longer
    found. *)
Theorem delete_course_iff (db : Db) (id : ObjectId) :
  (code (fst (delete_course id db)) = 200%nat
   <-> Course.findById id (courses db) <> None
       /\ Feedback.countDocuments_course id (feedbacks db) = 0%nat)
  /\ (code (fst (delete_course id db)) = 200%nat ->
      let db' := snd (delete_course id db) in
      feedbacks db' = feedbacks db /\ users db' = users db
      /\ (forall id', id' <> id ->
            Course.findById id' (courses db') = Course.findById id' (courses db))
      /\ (List.NoDup (map Course._id (courses db)) ->
          Course.findById id (courses db') = None)).
Proof.
  unfold delete_course.
  destruct (Course.findById id (courses db)) as [course |] eqn:Hfind.
  - destruct (Course_findById_Some _ _ _ Hfind) as [Hid _]. rewrite Hid.
    destruct (0 <? Feedback.countDocuments_course id (feedbacks db))%nat eqn:Hpos;
      simpl.
    + apply Nat.ltb_lt in Hpos. split; [split |]; try discriminate.
      intros [_ Hzero]. lia.
    + apply Nat.ltb_ge in Hpos. split; [split |].
      * intros _. split; [discriminate | lia].
      * reflexivity.
      * intros _. repeat split.
        -- intros id' Hne. now apply Course_findById_delete_other.
        -- intros Hids. now apply Course_delete_gone.
  - simpl. split; [split |]; try discriminate. intros [Hne _]. congruence.
Qed.

(* ===================================================================== *)
(** ** Student administration *)
(* ===================================================================== *)

Lemma User_findById_replace_other (id : ObjectId) (doc : User.t)
    (coll : list User.t) :
  id <> User._id doc ->
  User.findById id (User.replace doc coll) = User.findById id coll.
Proof.
  unfold User.findById. intros Hne.
  induction coll as [| g coll IH]; simpl; [reflexivity |].
  destruct (N.eqb (User._id g) (User._id doc)) eqn:E; simpl.
  - apply N.eqb_eq in E. rewrite E.
    assert (N.eqb (User._id doc) id = false) as ->
      by (apply N.eqb_neq; congruence).
    reflexivity.
  - destruct (N.eqb (User._id g) id); [reflexivity | exact IH].
Qed.

Lemma User_delete_other (id id' : ObjectId) (coll : list User.t) :
  id' <> id ->
  User.findById id' (User_findByIdAndDelete id coll) = User.findById id' coll.
Proof.
  unfold User.findById. intros Hne.
  induction coll as [| u coll IH]; simpl; [reflexivity |].
  destruct (N.eqb (User._id u) id) eqn:E; simpl.
  - apply N.eqb_eq in E. rewrite E.
    assert (N.eqb id id' = false) as -> by (apply N.eqb_neq; congruence).
    reflexivity.
  - now rewrite IH.
Qed.

Lemma User_delete_gone (id : ObjectId) (coll : list User.t) :
  List.NoDup (map User._id coll) ->
  User.findById id (User_findByIdAndDelete id coll) = None.
Proof.
  unfold User.findById.
  induction coll as [| u coll IH]; simpl; intros Hnd; [reflexivity |].
  apply List.NoDup_cons_iff in Hnd. destruct Hnd as [Hfresh Hnd].
  destruct (N.eqb (User._id u) id) eqn:E; simpl.
  - apply N.eqb_eq in E. destruct (find _ coll) as [g |] eqn:Hg; [| reflexivity].
    apply find_some in Hg. destruct Hg as [Hin Hid]. apply N.eqb_eq in Hid.
    exfalso. apply Hfresh. rewrite E, <- Hid. now apply in_map.
  - rewrite E. now apply IH.
Qed.

(** X20. DELETE /api/admin/students/:id answers 200 exactly when the id is
    that of a stored student other than the caller who has no feedback
    record; a student with n >= 1 feedback records is kept, the answer being
    400 with the message "Cannot delete student. They have n feedback
    entries. Consider blocking instead.". On 200 the feedback records and
    courses are untouched, every other user id is found as before and, with
    distinct user ids, the id is no longer found. *)
Theorem delete_student_iff (db : Db) (user_id id : ObjectId) :
  (code (fst (delete_student user_id id db)) = 200%nat
   <-> exists student,
         User.findById id (users db) = Some student
         /\ User.role student = User.student
         /\ id <> user_id
         /\ Feedback_countDocuments_student id (feedbacks db) = 0%nat)
  /\ (forall student n,
        User.findById id (users db) = Some student ->
        User.role student = User.student -> id <> user_id ->
        Feedback_countDocuments_student id (feedbacks db) = n -> (1 <= n)%nat ->
        delete_student user_id id db
        = (failure 400
             ("Cannot delete student. They have " +:+ pretty n
              +:+ " feedback entries. Consider blocking instead."), db))
  /\ (code (fst (delete_student user_id id db)) = 200%nat ->
      let db' := snd (delete_student user_id id db) in
      feedbacks db' = feedbacks db /\ courses db' = courses db
      /\ (forall id', id' <> id ->
            User.findById id' (users db') = User.findById id' (users db))
      /\ (List.NoDup (map User._id (users db)) ->
          User.findById id (users db') = None)).
Proof.
  unfold delete_student, User.is_student.
  destruct (User.findById id (users db)) as [student |] eqn:Hfind.
  - destruct (User_findById_Some _ _ _ Hfind) as [Hid _]. rewrite Hid.
    destruct (User.role student) eqn:Hrole; simpl.
    + destruct (N.eqb id user_id) eqn:Hself.
      * apply N.eqb_eq in Hself. split; [split |]; [| | split]; try discriminate.
        -- intros [s [_ [_ [Hne _]]]]. congruence.
        -- intros s n _ _ Hne. congruence.
      * apply N.eqb_neq in Hself.
        destruct (0 <? Feedback_countDocuments_student id (feedbacks db))%nat
          eqn:Hpos; simpl.
        -- apply Nat.ltb_lt in Hpos. split; [split |]; [| | split];
             try discriminate.
           ++ intros [s [_ [_ [_ Hzero]]]]. lia.
           ++ intros s n _ _ _ <- _. reflexivity.
        -- apply Nat.ltb_ge in Hpos. split; [split |]; [| | split].
           ++ intros _. exists student. repeat split; auto. lia.
           ++ reflexivity.
           ++ intros s n _ _ _ Hn Hone. lia.
           ++ intros _. repeat split.
              ** intros id' Hne. now apply User_delete_other.
              ** intros Hids. now apply User_delete_gone.
    + split; [split |]; [| | split]; try discriminate.
      * intros [s [Hs [Hr _]]]. congruence.
      * intros s n Hs Hr. congruence.
  - simpl. split; [split |]; [| | split]; try discriminate.
    intros [s [Hs _]]. discriminate.
Qed.

(** X21. Neither toggle-block nor the deletion of a student touches an
    administrator or the caller: whatever the target id, a user who is no
    student, or who is the caller, is found under their id afterwards as
    before. *)
Theorem admin_routes_protect (db : Db) (user_id id id' : ObjectId) (now : Z)
    (u : User.t) :
  User.findById id' (users db) = Some u ->
  User.role u = User.admin \/ id' = user_id ->
  User.findById id' (users (snd (toggle_block user_id id now db))) = Some u
  /\ User.findById id' (users (snd (delete_student user_id id db))) = Some u.
Proof.
  intros Hfind Hprot.
  destruct (N.eq_dec id id') as [-> | Hne].
  - destruct (User_findById_Some _ _ _ Hfind) as [Hid _].
    unfold toggle_block, delete_student, User.is_student.
    rewrite Hfind, Hid.
    destruct (User.role u); simpl; [| now split].
    destruct Hprot as [Hr | ->]; [discriminate |].
    rewrite N.eqb_refl. now split.
  - split.
    + unfold toggle_block.
      destruct (User.findById id (users db)) as [s |] eqn:Hs; [| exact Hfind].
      destruct (User_findById_Some _ _ _ Hs) as [Hsid _].
      destruct (negb _); [exact Hfind |].
      destruct (N.eqb _ user_id); [exact Hfind |].
      unfold User_save. destruct (negb _); [exact Hfind |].
      simpl. rewrite User_findById_replace_other; [exact Hfind |].
      simpl. congruence.
    + unfold delete_student.
      destruct (User.findById id (users db)) as [s |] eqn:Hs; [| exact Hfind].
      destruct (negb _); [exact Hfind |].
      destruct (N.eqb _ user_id); [exact Hfind |].
      destruct (0 <? _)%nat; [exact Hfind |].
      simpl. rewrite User_delete_other; [exact Hfind | congruence].
Qed.

Lemma admin_routes_protect_witness :
  User.findById 1 (users (snd (toggle_block 1 1 1710000000000 sample_db)))
  = User.findById 1 (users sample_db)
  /\ User.findById 1 (users (snd (delete_student 2 1 sample_db)))
     = User.findById 1 (users sample_db).
Proof.
  destruct (admin_routes_protect sample_db 1 1 1 1710000000000
              (sample_user 1 "Dr. Rajesh Kumar" "admin@bgscollege.ac.in"
                 User.admin false)) as [Hblock _];
    [reflexivity | now left |].
  destruct (admin_routes_protect sample_db 2 1 1 1710000000000
              (sample_user 1 "Dr. Rajesh Kumar" "admin@bgscollege.ac.in"
                 User.admin false)) as [_ Hdelete];
    [reflexivity | now left |].
  split; [exact Hblock | exact Hdelete].
Defined.

(* ===================================================================== *)
(** ** Activating and deactivating a course *)
(* ===================================================================== *)

Lemma Course_replace_replace (a b : Course.t) (coll : list Course.t) :
  Course._id a = Course._id b ->
  Course.replace a (Course.replace b coll) = Course.replace a coll.
Proof.
  intros Hid. induction coll as [| g coll IH]; simpl; [reflexivity |].
  rewrite Hid. destruct (N.eqb (Course._id g) (Course._id b)) eqn:E; simpl.
  - now rewrite Hid, N.eqb_refl.
  - rewrite Hid, E. f_equal. exact IH.
Qed.

(** X22. PATCH /api/courses/:id/toggle-active on a stored course that
    passes the validators of the schema answers 200 with the message of the
    new state and stores the negated isActive flag; a second toggle answers
    200 and stores the original flag again. The database after the two
    toggles is the database before them but for the updatedAt of that
    course, which is the time of the second toggle. *)
Theorem toggle_active_twice (db : Db) (id : ObjectId) (now1 now2 : Z)
    (course : Course.t) :
  Course.findById id (courses db) = Some course ->
  Course_validate course = true ->
  let db1 := snd (toggle_active id now1 db) in
  let db2 := snd (toggle_active id now2 db1) in
  code (fst (toggle_active id now1 db)) = 200%nat
  /\ msg (fst (toggle_active id now1 db))
     = (if Course.isActive course
        then "Course deactivated successfully"
        else "Course activated successfully")
  /\ (Course.isActive <$> Course.findById id (courses db1))
     = Some (negb (Course.isActive course))
  /\ code (fst (toggle_active id now2 db1)) = 200%nat
  /\ (Course.isActive <$> Course.findById id (courses db2))
     = Some (Course.isActive course)
  /\ db2
     = set_courses db
         (Course.replace (Course.set_updatedAt course now2) (courses db)).
Proof.
  intros Hfind Hvalid db1 db2.
  destruct (Course_findById_Some _ _ _ Hfind) as [Hid _].
  set (course' :=
         Course.set_updatedAt
           (Course.set_isActive course (negb (Course.isActive course))) now1).
  pose proof (toggle_active_once db id now1 course Hfind) as H1.
  rewrite Hvalid in H1. cbv zeta in H1. fold course' in H1.
  assert (Course.findById id (courses db1) = Some course') as Hfind1.
  { subst db1. rewrite H1. simpl. rewrite <- Hid.
    apply (Course_findById_replace course' course). simpl. now rewrite Hid. }
  pose proof (toggle_active_once db1 id now2 course' Hfind1) as H2.
  assert (Course_validate course' = true) as Hvalid' by exact Hvalid.
  rewrite Hvalid' in H2. cbv zeta in H2.
  assert (Course.set_updatedAt
            (Course.set_isActive course' (negb (Course.isActive course'))) now2
          = Course.set_updatedAt course now2) as Hback.
  { subst course'. destruct course; simpl. now rewrite negb_involutive. }
  rewrite Hback in H2.
  assert (db2
          = set_courses db
              (Course.replace (Course.set_updatedAt course now2) (courses db)))
    as Hdb2.
  { subst db2. rewrite H2. subst db1. rewrite H1. simpl.
    unfold set_courses. simpl. now rewrite Course_replace_replace. }
  repeat split.
  - now rewrite H1.
  - now rewrite H1.
  - now rewrite Hfind1.
  - now rewrite H2.
  - rewrite Hdb2. simpl. rewrite <- Hid.
    rewrite (Course_findById_replace (Course.set_updatedAt course now2) course).
    + reflexivity.
    + simpl. now rewrite Hid.
  - exact Hdb2.
Qed.

Lemma toggle_active_twice_witness :
  (Course.isActive <$>
     Course.findById 10
       (courses
          (snd
             (toggle_active 10 1710000500000
                (snd (toggle_active 10 1710000000000 sample_db))))))
  = Some true.
Proof.
  destruct (toggle_active_twice sample_db 10 1710000000000 1710000500000
              (sample_course 10 "Introduction to Computer Science" "CS101" true))
    as [_ [_ [_ [_ [Htwo _]]]]].
  - reflexivity.
  - reflexivity.
  - exact Htwo.
Defined.

(* ===================================================================== *)
(** ** The dashboard's counts and the age virtual *)
(* ===================================================================== *)

Lemma filter_split_length {A : Type} (p q : A -> bool) (l : list A) :
  Z.of_nat (length (List.filter p l))
  - Z.of_nat (length (List.filter (fun x => p x && negb (q x)) l))
  = Z.of_nat (length (List.filter (fun x => p x && q x) l)).
Proof.
  induction l as [| x l IH]; simpl; [reflexivity |].
  destruct (p x), (q x); simpl; lia.
Qed.

(** X23. The numbers the dashboard gets by subtraction are counts:
    blockedStudents is the number of students whose isBlocked flag is set
    and inactiveCourses the number of courses whose isActive flag is not
    set, so neither is negative. *)
Theorem dashboard_counts_by_subtraction (db : Db) :
  dc_blockedStudents (dashboard_counts db)
  = Z.of_nat
      (length
         (List.filter (fun u => User.is_student u && User.isBlocked u) (users db)))
  /\ dc_inactiveCourses (dashboard_counts db)
     = Z.of_nat
         (length (List.filter (fun c => negb (Course.isActive c)) (courses db))).
Proof.
  unfold dashboard_counts. simpl. split.
  - apply (filter_split_length User.is_student User.isBlocked).
  - induction (courses db) as [| c l IH]; simpl; [reflexivity |].
    destruct (Course.isActive c); simpl in *; lia.
Qed.

(** X24. The age virtual is the number of completed years: the
    anniversary of the date of birth that many years later is on or before
    today, the next one is after today; without a date of birth it is
    null. *)
Theorem age_completed_years (today birthDate : CivilDate) :
  age today None = None
  /\ exists n : Z,
       age today (Some birthDate) = Some n
       /\ date_le (anniversary birthDate n) today
       /\ ~ date_le (anniversary birthDate (n + 1)) today.
Proof.
  split; [reflexivity |]. unfold age.
  destruct ((cd_month today - cd_month birthDate <? 0)
            || ((cd_month today - cd_month birthDate =? 0)
                && (cd_date today <? cd_date birthDate))) eqn:Hbefore.
  - exists (cd_year today - cd_year birthDate - 1). split; [reflexivity |].
    apply orb_true_iff in Hbefore.
    rewrite andb_true_iff, Z.ltb_lt, Z.eqb_eq, Z.ltb_lt in Hbefore.
    unfold date_le, anniversary. simpl. split; lia.
  - exists (cd_year today - cd_year birthDate). split; [reflexivity |].
    apply orb_false_iff in Hbefore.
    rewrite andb_false_iff, Z.ltb_ge, Z.eqb_neq, Z.ltb_ge in Hbefore.
    unfold date_le, anniversary. simpl. split; lia.
Qed.

(* ===================================================================== *)
(** ** Creating and renaming a course *)
(* ===================================================================== *)

Lemma upper_ascii_upper (a : ascii) :
  is_upper_alnum a = true -> upper_ascii a = a.
Proof.
  unfold is_upper_alnum, upper_ascii. intros H.
  destruct ((97 <=? nat_of_ascii a)%nat && (nat_of_ascii a <=? 122)%nat) eqn:E;
    [| reflexivity].
  apply andb_true_iff in E. destruct E as [E1 E2].
  apply Nat.leb_le in E1. apply Nat.leb_le in E2.
  apply orb_true_iff in H.
  rewrite !andb_true_iff, !Nat.leb_le in H. lia.
Qed.

Lemma toUpperCase_upper (s : string) :
  all_chars is_upper_alnum s = true -> toUpperCase s = s.
Proof.
  induction s as [| a s IH]; simpl; [reflexivity |].
  intros H. apply andb_true_iff in H. destruct H as [Ha Hs].
  now rewrite (upper_ascii_upper a Ha), (IH Hs).
Qed.

Lemma matches_code_upper (s : string) :
  matches_code s = true -> toUpperCase s = s.
Proof.
  unfold matches_code. intros H. apply andb_true_iff in H.
  now apply toUpperCase_upper.
Qed.

Lemma length_nonempty (s : string) :
  (2 <= String.length s)%nat -> String.eqb s "" = false.
Proof. destruct s; simpl; [lia | reflexivity]. Qed.

(** What a valid body of POST /api/courses is stored as: the setters of
    the schema change nothing any more and the schema's validators pass. *)
Lemma validate_course_normal (body : CourseBody) (id user_id : ObjectId)
    (now : Z) :
  validate_course body = true ->
  trim (trim (cb_name body)) = trim (cb_name body)
  /\ trim (trim (cb_code body)) = trim (cb_code body)
  /\ toUpperCase (trim (cb_code body)) = trim (cb_code body)
  /\ Course_validate
       {| Course._id := id; Course.name := trim (cb_name body);
          Course.code := trim (cb_code body); Course.isActive := true;
          Course.description := None; Course.instructor := None;
          Course.department := None; Course.credits := None;
          Course.createdBy := Some user_id; Course.updatedAt := now |} = true.
Proof.
  unfold validate_course, Course_validate. intros H.
  apply andb_true_iff in H. destruct H as [H Hmatch].
  apply andb_true_iff in H. destruct H as [H Hc20].
  apply andb_true_iff in H. destruct H as [H Hc2].
  apply andb_true_iff in H. destruct H as [Hn2 Hn100].
  rewrite !trim_idempotent. repeat split.
  - now apply matches_code_upper.
  - cbn [Course.name Course.code Course.description Course.instructor
         Course.department Course.credits Course.createdBy max_length].
    rewrite length_nonempty by now apply Nat.leb_le.
    cbn [negb andb]. now rewrite Hn100, Hc20, Hmatch.
Qed.

Lemma Course_findOne_None (n c : string) (coll : list Course.t) :
  Course_findOne_name_or_code n c coll = None
  <-> forall x, In x coll -> Course.name x <> n /\ Course.code x <> c.
Proof.
  unfold Course_findOne_name_or_code. split.
  - intros Hnone x Hin.
    pose proof (find_none _ _ Hnone x Hin) as Hx. simpl in Hx.
    apply orb_false_iff in Hx. destruct Hx as [Hn Hc].
    apply String.eqb_neq in Hn. apply String.eqb_neq in Hc. now split.
  - intros Hall. induction coll as [| x coll IH]; simpl; [reflexivity |].
    destruct (Hall x (or_introl eq_refl)) as [Hn Hc].
    apply String.eqb_neq in Hn. apply String.eqb_neq in Hc.
    rewrite Hn, Hc. simpl. apply IH. intros y Hy. apply Hall. now right.
Qed.

Lemma Course_index_conflict_None (doc : Course.t) (coll : list Course.t) :
  Course_findOne_name_or_code (Course.name doc) (Course.code doc) coll = None ->
  Course_index_conflict doc coll = false.
Proof.
  intros Hnone. unfold Course_index_conflict.
  destruct (existsb _ coll) eqn:E; [| reflexivity].
  apply existsb_exists in E. destruct E as [x [Hin Hx]].
  apply andb_true_iff in Hx. destruct Hx as [_ Hx].
  destruct (proj1 (Course_findOne_None _ _ _) Hnone x Hin) as [Hn Hc].
  apply String.eqb_neq in Hn. apply String.eqb_neq in Hc.
  rewrite Hn, Hc in Hx. discriminate.
Qed.

(** X25. POST /api/courses answers 201 exactly when the body passes the
    route's validators and no stored course has the trimmed name or the
    trimmed code; a valid body that repeats a stored name or code gets 400
    "Course with this name or code already exists" and nothing is written.
    The record created holds the trimmed name and code, is active, names
    the caller as its creator, gets an id no stored course has and is
    appended; no body is answered 500. *)
Theorem create_course_iff (user_id : ObjectId) (now : Z) (body : CourseBody)
    (db : Db) :
  let n := trim (cb_name body) in
  let c := trim (cb_code body) in
  (code (fst (create_course user_id now body db)) = 201%nat
   <-> validate_course body = true
       /\ forall x, In x (courses db) -> Course.name x <> n /\ Course.code x <> c)
  /\ ((validate_course body = true
       /\ exists x, In x (courses db) /\ (Course.name x = n \/ Course.code x = c)) ->
      create_course user_id now body db = (failure 400 course_exists, db))
  /\ (code (fst (create_course user_id now body db)) = 201%nat ->
      exists doc,
        create_course user_id now body db
        = (ok 201 "Course created successfully" (Some doc),
           set_courses db (courses db ++ [doc]))
        /\ Course.name doc = n /\ Course.code doc = c
        /\ Course.isActive doc = true
        /\ Course.createdBy doc = Some user_id
        /\ ~ In (Course._id doc) (map Course._id (courses db)))
  /\ code (fst (create_course user_id now body db)) <> 500%nat.
Proof.
  intros n c. unfold create_course.
  destruct (validate_course body) eqn:Hvalid; simpl.
  2:{ split; [split |]; [| | split; [| split]]; try discriminate.
      - now intros [? _].
      - now intros [? _]. }
  destruct (validate_course_normal body (Course_fresh_id (courses db)) user_id
              now Hvalid) as [Htn [Htc [Huc Hdoc]]].
  fold n in Htn, Hdoc. fold c in Htc, Huc, Hdoc. fold n c.
  repeat (rewrite Htn || rewrite Htc || rewrite Huc).
  destruct (Course_findOne_name_or_code n c (courses db)) as [x |] eqn:Hfind.
  - simpl. apply find_some in Hfind. destruct Hfind as [Hin Hx].
    simpl in Hx. apply orb_true_iff in Hx.
    split; [split |]; [| | split; [| split]]; try discriminate.
    + intros [_ Hall]. destruct (Hall x Hin) as [Hxn Hxc].
      destruct Hx as [Hx | Hx]; apply String.eqb_eq in Hx; contradiction.
    + reflexivity.
  - unfold Course_create.
    repeat (rewrite Htn || rewrite Htc || rewrite Huc). rewrite Hdoc.
    rewrite Course_index_conflict_None by exact Hfind. simpl.
    split; [split |]; [| | split; [| split]]; try discriminate.
    + intros _. split; [reflexivity |].
      now apply Course_findOne_None.
    + reflexivity.
    + intros [_ [x [Hin Hx]]].
      destruct (proj1 (Course_findOne_None _ _ _) Hfind x Hin) as [Hxn Hxc].
      destruct Hx; contradiction.
    + intros _. eexists. split; [reflexivity |]. simpl. repeat split.
      intros Hin. apply in_map_iff in Hin. destruct Hin as [y [Hy Hin]].
      pose proof (Course_fresh_id_bound (courses db) y Hin) as Hb.
      rewrite Hy in Hb. lia.
Qed.

Lemma Course_findOne_duplicate_Some (id : ObjectId) (dn dc : option string)
    (coll : list Course.t) (other : Course.t) :
  In other coll -> Course._id other <> id ->
  dn = Some (Course.name other) \/ dc = Some (Course.code other) ->
  Course_findOne_duplicate id dn dc coll <> None.
Proof.
  unfold Course_findOne_duplicate. intros Hin Hid Hsame Hnone.
  pose proof (find_none _ _ Hnone other Hin) as Hx. cbv beta in Hx.
  apply N.eqb_neq in Hid. rewrite Hid in Hx. cbn [negb andb] in Hx.
  apply orb_false_iff in Hx. destruct Hx as [Hn Hc].
  destruct Hsame as [-> | ->].
  - now rewrite String.eqb_refl in Hn.
  - now rewrite String.eqb_refl in Hc.
Qed.

(** X26. PUT /api/courses/:id with a valid body whose trimmed name, or
    trimmed code, is that of another stored course and differs from the
    course's own is answered 400 "Course with this name or code already
    exists", and nothing is written. *)
Theorem update_course_conflict (db : Db) (id : ObjectId) (now : Z)
    (body : CourseUpdate) (course other : Course.t) :
  validate_course_update body = true ->
  Course.findById id (courses db) = Some course ->
  In other (courses db) -> Course._id other <> id ->
  (exists n, cu_name body = Some n /\ trim n = Course.name other
             /\ Course.name other <> Course.name course)
  \/ (exists c, cu_code body = Some c /\ trim c = Course.code other
                /\ Course.code other <> Course.code course) ->
  update_course id now body db = (failure 400 course_exists, db).
Proof.
  intros Hvalid Hfind Hin Hid Hsame.
  destruct (Course_findById_Some _ _ _ Hfind) as [Hcid _].
  unfold update_course. rewrite Hvalid, Hfind. cbn [negb].
  unfold validate_course_update in Hvalid.
  apply andb_true_iff in Hvalid. destruct Hvalid as [Hvn Hvc].
  set (dn := duplicate_name _ course). set (dc := duplicate_code _ course).
  assert (dn = Some (Course.name other) \/ dc = Some (Course.code other)) as Hd.
  { destruct Hsame as [[n [Hn [Htrim Hne]]] | [c [Hc [Htrim Hne]]]].
    - left. subst dn. rewrite Hn in *. simpl.
      apply andb_true_iff in Hvn. destruct Hvn as [Hn2 _].
      apply Nat.leb_le in Hn2.
      unfold duplicate_name, truthy. rewrite length_nonempty by exact Hn2.
      rewrite trim_idempotent, Htrim.
      apply String.eqb_neq in Hne. now rewrite Hne.
    - right. subst dc. rewrite Hc in *. simpl.
      apply andb_true_iff in Hvc. destruct Hvc as [Hvc Hmatch].
      apply andb_true_iff in Hvc. destruct Hvc as [Hc2 _].
      apply Nat.leb_le in Hc2.
      unfold duplicate_code, truthy. rewrite length_nonempty by exact Hc2.
      rewrite trim_idempotent, (matches_code_upper _ Hmatch), Htrim.
      apply String.eqb_neq in Hne. now rewrite Hne. }
  pose proof (Course_findOne_duplicate_Some (Course._id course) dn dc
                (courses db) other Hin) as Hsome.
  rewrite Hcid in Hsome. specialize (Hsome Hid Hd).
  rewrite Hcid.
  destruct (Course_findOne_duplicate id dn dc (courses db)) as [x |] eqn:Hdup;
    [| contradiction].
  destruct dn, dc; try reflexivity.
  destruct Hd; discriminate.
Qed.

Lemma update_course_conflict_witness :
  update_course 11 1710000000000
    {| cu_name := Some "  Engineering Physics "; cu_code := None;
       cu_isActive := None |} sample_db
  = (failure 400 course_exists, sample_db).
Proof.
  apply (update_course_conflict sample_db 11 1710000000000 _
           (sample_course 11 "Operating Systems" "CS301" true)
           (sample_course 12 "Engineering Physics" "PHY101" false)).
  - reflexivity.
  - reflexivity.
  - simpl. tauto.
  - simpl. lia.
  - left. eexists. split; [reflexivity |]. split; [reflexivity |]. discriminate.
Defined.

(* ===================================================================== *)
(** ** The two course statistics, and the owner's update *)
(* ===================================================================== *)

(** X27. From a database whose feedback records are all approved, after
    every run of requests GET /api/courses/:id and
    GET /api/feedback/course/:id/stats give the same answer for every id:
    the statistics of the course model, which match every status, and those
    of the feedback model, which match the approved records, cannot be told
    apart through the routes. *)
Theorem serve_statistics_agree (rs : list Request) (db : Db) (id : ObjectId) :
  Forall (fun f => Feedback.status f = approved) (feedbacks db) ->
  get_course id (serve db rs) = get_course_stats id (serve db rs).
Proof.
  intros Hall.
  assert (Forall (fun f => Feedback.status f = approved) (feedbacks (serve db rs)))
    as Hrun.
  { revert rs db Hall.
    apply (serve_feedback_Forall (fun f => Feedback.status f = approved)).
    - intros doc _ Hst. now rewrite pre_save_status.
    - intros body f Hst _. now rewrite pre_save_status, update_fields_status. }
  unfold get_course, get_course_stats.
  destruct (Course.findById id (courses (serve db rs))) as [course |] eqn:Hfind;
    [| reflexivity].
  destruct (Course_findById_Some _ _ _ Hfind) as [Hid _].
  now rewrite (getStatistics_all_approved course _ Hrun), Hid.
Qed.

Lemma serve_statistics_agree_witness :
  get_course 10 (serve sample_approved_db sample_requests)
  = get_course_stats 10 (serve sample_approved_db sample_requests).
Proof.
  apply (serve_statistics_agree sample_requests sample_approved_db 10).
  vm_compute. repeat constructor.
Defined.

Lemma includes_In (x : string) (arr : list string) :
  includes x arr = true -> In x arr.
Proof.
  unfold includes. intros H. apply existsb_exists in H.
  destruct H as [y [Hin Heq]]. apply String.eqb_eq in Heq. now subst.
Qed.

Lemma length_10_nonempty (s : string) :
  (10 <= String.length s)%nat -> String.eqb s "" = false.
Proof. destruct s; simpl; [lia | reflexivity]. Qed.

(** The field update block on a body that passed the validators of the
    route: a rating of the body is not 0 and a message not empty. *)
Lemma update_fields_valid_body (body : UpdateBody) (f : Feedback.t) :
  validate_update body = true ->
  update_fields body f
  = {| Feedback._id := Feedback._id f;
       Feedback.student := Feedback.student f;
       Feedback.course := Feedback.course f;
       Feedback.rating := default (Feedback.rating f) (ub_rating body);
       Feedback.message :=
         match ub_message body with
         | Some m => trim m
         | None => Feedback.message f
         end;
       Feedback.isAnonymous :=
         default (Feedback.isAnonymous f) (ub_isAnonymous body);
       Feedback.tags :=
         match ub_tags body with
         | Some ts => Feedback.cast_tags ts
         | None => Feedback.tags f
         end;
       Feedback.status := Feedback.status f;
       Feedback.moderatorNotes := Feedback.moderatorNotes f;
       Feedback.createdAt := Feedback.createdAt f |}.
Proof.
  unfold validate_update, update_fields. intros Hvalid.
  apply andb_true_iff in Hvalid. destruct Hvalid as [Hr Hm].
  destruct (ub_rating body) as [r |].
  - apply andb_true_iff in Hr. destruct Hr as [Hlo _]. apply Z.leb_le in Hlo.
    assert ((r =? 0) = false) as -> by (apply Z.eqb_neq; lia).
    destruct (ub_message body) as [m |].
    + apply andb_true_iff in Hm. destruct Hm as [Hlen _].
      apply Nat.leb_le in Hlen.
      rewrite (length_10_nonempty _ Hlen), trim_idempotent.
      destruct (ub_isAnonymous body), (ub_tags body); destruct f; reflexivity.
    + destruct (ub_isAnonymous body), (ub_tags body); destruct f; reflexivity.
  - destruct (ub_message body) as [m |].
    + apply andb_true_iff in Hm. destruct Hm as [Hlen _].
      apply Nat.leb_le in Hlen.
      rewrite (length_10_nonempty _ Hlen), trim_idempotent.
      destruct (ub_isAnonymous body), (ub_tags body); destruct f; reflexivity.
    + destruct (ub_isAnonymous body), (ub_tags body); destruct f; reflexivity.
Qed.

(** X28. PUT /api/feedback/:id by the owner of a stored record, with a
    body that passes the validators of the route. The updated record has
    the rating, the trimmed message, the isAnonymous flag and the trimmed
    lower-cased tags of the body, each where the body gives it, and the
    stored one where it does not. [feedback.save()] runs the validators of
    every path of that record, changed or not: when one fails (a stored
    message of less than 10 characters, a tag of more than 50) the answer is
    500 "Server error" and nothing is written; when they pass the answer is
    200 and the record is written back under its id with those four fields,
    the tags followed by the sentiment tag of the rating when the rating
    changed and the tags do not hold it. *)
Theorem put_feedback_owner (db : Db) (user_id id : ObjectId) (body : UpdateBody)
    (feedback : Feedback.t) :
  Feedback.findById id (feedbacks db) = Some feedback ->
  Feedback.student feedback = user_id ->
  validate_update body = true ->
  let rating := default (Feedback.rating feedback) (ub_rating body) in
  let message :=
    match ub_message body with
    | Some m => trim m
    | None => Feedback.message feedback
    end in
  let isAnonymous :=
    default (Feedback.isAnonymous feedback) (ub_isAnonymous body) in
  let tags :=
    match ub_tags body with
    | Some ts => map (fun t => toLowerCase (trim t)) ts
    | None => Feedback.tags feedback
    end in
  let valid :=
    (1 <=? rating) && (rating <=? 5)
    && (10 <=? String.length message)%nat
    && (String.length message <=? 1000)%nat
    && match Feedback.moderatorNotes feedback with
       | Some notes => (String.length notes <=? 500)%nat
       | None => true
       end
    && forallb (fun t => (String.length t <=? 50)%nat) tags in
  (valid = false ->
   put_feedback user_id id body db = (failure 500 "Server error", db))
  /\ (valid = true ->
      exists saved,
        put_feedback user_id id body db
        = (ok 200 "Feedback updated successfully" (Some saved),
           set_feedbacks db (Feedback.replace saved (feedbacks db)))
        /\ Feedback.findById id
             (feedbacks (snd (put_feedback user_id id body db)))
           = Some saved
        /\ Feedback._id saved = id
        /\ Feedback.rating saved = rating
        /\ Feedback.message saved = message
        /\ Feedback.isAnonymous saved = isAnonymous
        /\ Feedback.tags saved
           = (if (rating =? Feedback.rating feedback)
                 || includes (sentiment_tag rating) tags
              then tags
              else tags ++ [sentiment_tag rating])).
Proof.
  intros Hfind Howner Hvalid rating message isAnonymous tags valid.
  destruct (Feedback_findById_Some _ _ _ Hfind) as [Hid _].
  unfold put_feedback, Feedback_save.
  rewrite Hvalid, Hfind, Howner, N.eqb_refl. cbn [negb].
  rewrite (update_fields_valid_body body feedback Hvalid).
  fold rating message isAnonymous. 
  change (match ub_tags body with
          | Some ts => Feedback.cast_tags ts
          | None => Feedback.tags feedback
          end) with tags.
  set (new := {| Feedback._id := Feedback._id feedback;
                 Feedback.student := Feedback.student feedback;
                 Feedback.course := Feedback.course feedback;
                 Feedback.rating := rating;
                 Feedback.message := message;
                 Feedback.isAnonymous := isAnonymous;
                 Feedback.tags := tags;
                 Feedback.status := Feedback.status feedback;
                 Feedback.moderatorNotes := Feedback.moderatorNotes feedback;
                 Feedback.createdAt := Feedback.createdAt feedback |}).
  change (Feedback.validate new) with valid.
  change (Feedback.rating new) with rating.
  split.
  - intros ->. reflexivity.
  - intros ->. cbn [negb]. eexists. split; [reflexivity |].
    assert (Feedback.pre_save false (negb (rating =? Feedback.rating feedback)) new
            = Feedback.set_tags new
                (if (rating =? Feedback.rating feedback)
                    || includes (sentiment_tag rating) tags
                 then tags
                 else tags ++ [sentiment_tag rating])) as ->.
    { destruct (rating =? Feedback.rating feedback); cbn [negb orb].
      - reflexivity.
      - now rewrite (pre_save_sentiment_tag false true new eq_refl). }
    cbn [snd feedbacks set_feedbacks].
    split; [| now repeat split].
    match goal with
    | |- Feedback.findById _ (Feedback.replace ?doc _) = _ => set (saved := doc)
    end.
    rewrite <- Hid at 1.
    change (Feedback._id feedback) with (Feedback._id saved).
    apply (Feedback_findById_replace saved feedback).
    change (Feedback._id saved) with (Feedback._id feedback). now rewrite Hid.
Qed.

Lemma put_feedback_owner_witness :
  exists saved,
    put_feedback 6 104
      {| ub_rating := Some 5; ub_message := None; ub_isAnonymous := None;
         ub_tags := None |} sample_db
    = (ok 200 "Feedback updated successfully" (Some saved),
       set_feedbacks sample_db (Feedback.replace saved (feedbacks sample_db)))
    /\ Feedback.rating saved = 5
    /\ Feedback.tags saved = ["needs-improvement"; "positive"]%string.
Proof.
  destruct (put_feedback_owner sample_db 6 104
              {| ub_rating := Some 5; ub_message := None; ub_isAnonymous := None;
                 ub_tags := None |}
              (sample_feedback 104 6 10 1 approved ["needs-improvement"%string]
                 1705000000001)
              eq_refl eq_refl eq_refl) as [_ Hok].
  destruct (Hok eq_refl) as [saved [Hput [_ [_ [Hrating [_ [_ Htags]]]]]]].
  exists saved. split; [exact Hput |]. split; [exact Hrating | exact Htags].
Defined.
